(** * ClassScheduleManager: the conflict detection and resolution engine

    A shallow embedding of the server side of the repository:
    - [MemStorage] (server/storage.ts), the store the routes are wired to,
    - [DatabaseStorage] (the drizzle-backed sibling implementation),
    - the conflict routes of [registerRoutes] (suggestions and resolve),
    followed by the properties the specification states about them.

    Numbers are modelled as [Z]: every number that reaches the engine is an
    id, a day index or a slot index.  JavaScript [Map]s keep insertion order,
    and that order decides the order of conflicts and suggestions, so they are
    modelled as lists.

    Asynchrony.  Every storage method is [async], and every call of one is
    awaited by its caller, with two exceptions, both in
    [MemStorage.detectConflicts]: the [.then] chain on [createConflict] and,
    inside it, the [.then] chain on [generateConflictSuggestions].  An awaited
    call is modelled as a step of a state monad: it has finished when its
    caller goes on.  The chains that are not awaited are kept as pending jobs
    of the server state.  [MemStorage.settle] runs them when the request that
    started them ran one detection pass; the chains of a request that runs
    several passes (the resolve route) are left pending. *)

From Stdlib Require Import ZArith List String Ascii Bool Lia.
From Stdlib Require Import Decimal DecimalString DecimalZ DecimalPos.
Import ListNotations.

Set Implicit Arguments.
Open Scope Z_scope.

(* ================================================================== *)
(** ** JavaScript helpers used by the storage classes *)

Module Js.

(** [`${n}`] for an integer [n]: decimal digits, a leading minus sign for
    negative numbers. *)
Definition toString (z : Z) : string :=
  NilEmpty.string_of_int (Z.to_int z).

(** [s.split('-')]. *)
Fixpoint split_dash (s : string) : list string :=
  match s with
  | EmptyString => [EmptyString]
  | String c r =>
      if Ascii.eqb c "-" then EmptyString :: split_dash r
      else match split_dash r with
           | h :: t => String c h :: t
           | [] => [String c EmptyString]
           end
  end.

(** [Number(s)] on the pieces [split('-')] can return: the empty string is 0,
    a run of decimal digits is its value.  Any other string is NaN ([None]). *)
Definition Number (s : string) : option Z :=
  option_map Z.of_uint (NilEmpty.uint_of_string s).

(** [arr[i]] for a number [i]: [undefined] outside the array. *)
Definition index {A} (arr : list A) (i : Z) : option A :=
  if i <? 0 then None else nth_error arr (Z.to_nat i).

(** An optional string inside a template literal. *)
Definition show (o : option string) : string :=
  match o with Some s => s | None => "undefined"%string end.

(** [arr.includes(x)] on numbers. *)
Definition includes (arr : list Z) (x : Z) : bool :=
  existsb (fun y => y =? x) arr.

(** [for (let i = lo; i < hi; i++)]: the values [i] takes, in order. *)
Definition range (lo hi : Z) : list Z :=
  map (fun k => lo + Z.of_nat k) (seq 0 (Z.to_nat (hi - lo))).

(** What a rejected promise carries. *)
Inductive Error : Type :=
| ReferenceError (name : string).

(** The outcome of an [async] call that may reject. *)
Inductive Result (A : Type) : Type :=
| Ok (a : A)
| Throw (e : Error).
Arguments Ok {A} a.
Arguments Throw {A} e.

End Js.

(* ================================================================== *)
(** ** shared/schema.ts *)

Module TimePreference.
Record t : Type := mk {
  dayOfWeek : Z;
  startTimeSlot : Z;
  endTimeSlot : Z
}.
End TimePreference.

Module Teacher.
Record t : Type := mk {
  id : Z;
  name : string;
  specialization : option string;
  skills : option (list string);
  timePreferences : option (list TimePreference.t)
}.
End Teacher.

Module Course.
Record t : Type := mk {
  id : Z;
  name : string;
  code : string;
  credits : Z;
  programId : Z;
  semester : Z;
  teacherId : option Z
}.
End Course.

Module Schedule.
Record t : Type := mk {
  id : Z;
  programId : Z;
  semester : Z;
  dayOfWeek : Z;
  timeSlot : Z;
  courseId : Z;
  teacherId : Z;
  roomNumber : option string
}.
End Schedule.

(** [Partial<InsertSchedule>]: the fields a caller wants changed. *)
Module SchedulePatch.
Record t : Type := mk {
  programId : option Z;
  semester : option Z;
  dayOfWeek : option Z;
  timeSlot : option Z;
  courseId : option Z;
  teacherId : option Z;
  roomNumber : option (option string)
}.
Definition empty : t := mk None None None None None None None.
End SchedulePatch.

(** uuidv4() tokens.  The generator is modelled as a supply of pairwise
    distinct tokens; the n-th token drawn is [n]. *)
Definition uuid : Type := nat.

(** [ConflictSuggestion].  The TypeScript type is one flat record whose
    action-specific fields are all optional.  Both generators fill exactly the
    fields of the action they emit, and the resolve route tests only
    [swapWithScheduleId] for presence, so that field alone stays optional. *)
Inductive SuggestionAction : Type :=
| move (newDayOfWeek newTimeSlot : Z)
| swap (swapWithScheduleId : option Z)
| reassign (newTeacherId : Z).

Module ConflictSuggestion.
Record t : Type := mk {
  id : uuid;
  description : string;
  scheduleId : Z;
  action : SuggestionAction
}.
End ConflictSuggestion.

(** [Conflict].  [conflictingScheduleIds] and [suggestions] are nullable
    columns; the only producer, [detectConflicts], always stores arrays. *)
Module Conflict.
Record t : Type := mk {
  id : Z;
  teacherId : Z;
  dayOfWeek : Z;
  timeSlot : Z;
  conflictingScheduleIds : list Z;
  resolved : bool;
  suggestions : list ConflictSuggestion.t
}.
End Conflict.

(** [Partial<InsertConflict>], as the callers use it. *)
Module ConflictPatch.
Record t : Type := mk {
  resolved : option bool;
  suggestions : option (list ConflictSuggestion.t)
}.
End ConflictPatch.

(** [Partial<InsertTeacher>]: a key that is present names the new value,
    [null] included. *)
Module TeacherPatch.
Record t : Type := mk {
  name : option string;
  specialization : option (option string);
  skills : option (option (list string));
  timePreferences : option (option (list TimePreference.t))
}.
Definition empty : t := mk None None None None.
End TeacherPatch.

(** [Partial<InsertCourse>], over the columns [Course.t] carries. *)
Module CoursePatch.
Record t : Type := mk {
  name : option string;
  code : option string;
  credits : option Z;
  programId : option Z;
  semester : option Z;
  teacherId : option (option Z)
}.
Definition empty : t := mk None None None None None None.
End CoursePatch.

(** [TIME_SLOTS[i].label] and [DAYS_OF_WEEK]. *)
Definition TIME_SLOTS : list string :=
  ["6:30 AM - 7:20 AM"; "7:20 AM - 8:10 AM"; "8:10 AM - 9:00 AM";
   "9:20 AM - 10:10 AM"; "10:10 AM - 11:00 AM"]%string.

Definition DAYS_OF_WEEK : list string :=
  ["Sunday"; "Monday"; "Tuesday"; "Wednesday"; "Thursday"; "Friday";
   "Saturday"]%string.

(* ================================================================== *)
(** ** Maps *)

(** [Map<number, V>] whose values carry their own key in an [id] field
    (courses, teachers, schedules, conflicts): the list of values in insertion
    order.  Every [set] of the classes stores a value under its own id. *)
Section Keyed.
Variable V : Type.
Variable key : V -> Z.

Definition mapGet (k : Z) (m : list V) : option V :=
  find (fun v => key v =? k) m.

(** [m.set(k, v)]: an existing key keeps its place. *)
Fixpoint mapSet (k : Z) (v : V) (m : list V) : list V :=
  match m with
  | [] => [v]
  | x :: r => if key x =? k then v :: r else x :: mapSet k v r
  end.

(** [m.delete(k)], with the boolean it returns. *)
Fixpoint mapDelete (k : Z) (m : list V) : bool * list V :=
  match m with
  | [] => (false, [])
  | x :: r =>
      if key x =? k then (true, r)
      else let (b, r') := mapDelete k r in (b, x :: r')
  end.
End Keyed.

(** [Map<K, V>] with keys of any type that has a boolean equality. *)
Section Assoc.
Variables K V : Type.
Variable eqb : K -> K -> bool.

Fixpoint alGet (k : K) (m : list (K * V)) : option V :=
  match m with
  | [] => None
  | (k', v) :: r => if eqb k' k then Some v else alGet k r
  end.

Definition alHas (k : K) (m : list (K * V)) : bool :=
  match alGet k m with Some _ => true | None => false end.

Fixpoint alSet (k : K) (v : V) (m : list (K * V)) : list (K * V) :=
  match m with
  | [] => [(k, v)]
  | (k', v') :: r =>
      if eqb k' k then (k', v) :: r else (k', v') :: alSet k v r
  end.
End Assoc.

(** [m.get(k)!] after the [has]/[set] guard of the grouping loops. *)
Definition getOrEmpty {K V} (eqb : K -> K -> bool) (k : K)
  (m : list (K * list V)) : list V :=
  match alGet eqb k m with Some v => v | None => [] end.

(** A state monad, for the methods that write to a store. *)
Definition State (S A : Type) : Type := S -> A * S.

Definition ret {S A} (a : A) : State S A := fun s => (a, s).

Definition bind {S A B} (c : State S A) (k : A -> State S B) : State S B :=
  fun s => let (a, s') := c s in k a s'.

Definition gets {S A} (f : S -> A) : State S A := fun s => (f s, s).

Definition modify {S} (f : S -> S) : State S unit := fun s => (tt, f s).

Declare Scope state_scope.
Delimit Scope state_scope with state.
Notation "x <- c ;; k" := (bind c (fun x => k))
  (at level 61, c at next level, right associativity) : state_scope.
Notation "c ;;; k" := (bind c (fun _ => k))
  (at level 61, right associativity) : state_scope.

(** [for (const x of xs) body(x)], each round awaited before the next. *)
Fixpoint forEach {S A} (xs : list A) (body : A -> State S unit)
  : State S unit :=
  match xs with
  | [] => ret tt
  | x :: r => bind (body x) (fun _ => forEach r body)
  end.

(* ================================================================== *)
(** ** Code shared word for word by the two storage classes *)

(** [`${dayOfWeek}-${timeSlot}`], the grouping and occupancy key. *)
Definition dayTimeKey (dayOfWeek timeSlot : Z) : string :=
  (Js.toString dayOfWeek ++ "-" ++ Js.toString timeSlot)%string.

(** [const [dayOfWeek, timeSlot] = key.split('-').map(Number)].  A key built
    by [dayTimeKey] has at least two pieces, and all its pieces are empty or
    digit runs (lemma [parseDayTime_never_NaN]); NaN and undefined, which it
    cannot produce, are given 0. *)
Definition numberAt (parts : list (option Z)) (i : nat) : Z :=
  match nth_error parts i with
  | Some (Some z) => z
  | _ => 0
  end.

Definition parseDayTime (key : string) : Z * Z :=
  let parts := map Js.Number (Js.split_dash key) in
  (numberAt parts 0, numberAt parts 1).

(** [new Set(allSchedules.map(s => `${s.dayOfWeek}-${s.timeSlot}`))]. *)
Definition occupiedSlots (allSchedules : list Schedule.t) : list string :=
  map (fun s => dayTimeKey (Schedule.dayOfWeek s) (Schedule.timeSlot s))
      allSchedules.

(** [set.has(key)]. *)
Definition setHas (S : list string) (key : string) : bool :=
  existsb (String.eqb key) S.

(** The value of the local [preferenceMatch] for a candidate (day, slot):
<<
  let preferenceMatch = true;
  if (teacher?.timePreferences?.length) {
    preferenceMatch = teacher.timePreferences.some(pref =>
      pref.dayOfWeek === day &&
      slot >= pref.startTimeSlot && slot <= pref.endTimeSlot);
  }
>> *)
Definition prefCovers (day slot : Z) (pref : TimePreference.t) : bool :=
  (TimePreference.dayOfWeek pref =? day)
  && (slot >=? TimePreference.startTimeSlot pref)
  && (slot <=? TimePreference.endTimeSlot pref).

Definition preferenceMatch (teacher : option Teacher.t) (day slot : Z)
  : bool :=
  match teacher with
  | Some t =>
      match Teacher.timePreferences t with
      | Some (p :: ps) => existsb (prefCovers day slot) (p :: ps)
      | Some [] => true
      | None => true
      end
  | None => true
  end.

(** [course?.name || 'Course'] and [otherCourse?.name || 'another course']. *)
Definition nameOr (fallback : string) (course : option Course.t) : string :=
  match course with
  | Some c => if String.eqb (Course.name c) "" then fallback else Course.name c
  | None => fallback
  end.

(** A suggestion object literal before its [id: uuidv4()] is filled in. *)
Module Draft.
Record t : Type := mk {
  description : string;
  scheduleId : Z;
  action : SuggestionAction
}.
End Draft.

(** Every [suggestions.push({ id: uuidv4(), ... })] draws one token, so the
    k-th object pushed carries the k-th token drawn. *)
Fixpoint stamp (next : uuid) (ds : list Draft.t) : list ConflictSuggestion.t :=
  match ds with
  | [] => []
  | d :: r =>
      ConflictSuggestion.mk next (Draft.description d) (Draft.scheduleId d)
        (Draft.action d) :: stamp (S next) r
  end.

(** The pairs the two nested [for] loops visit, in the order they visit them:
    [for (let day = 0; day < 6; day++) for (let slot = 0; slot < 5; slot++)]. *)
Definition candidateSlots : list (Z * Z) :=
  flat_map (fun day => map (fun slot => (day, slot)) (Js.range 0 5))
           (Js.range 0 6).

(** The two [continue] guards of the move loop. *)
Definition freeSlot (conflict : Conflict.t) (occupied : list string)
  (p : Z * Z) : bool :=
  let (day, slot) := p in
  negb ((day =? Conflict.dayOfWeek conflict)
        && (slot =? Conflict.timeSlot conflict))
  && negb (setHas occupied (dayTimeKey day slot)).

(** [allSchedules.filter(s => s.teacherId !== conflict.teacherId &&
    !conflict.conflictingScheduleIds.includes(s.id))]. *)
Definition otherSchedules (conflict : Conflict.t)
  (allSchedules : list Schedule.t) : list Schedule.t :=
  filter (fun s =>
            negb (Schedule.teacherId s =? Conflict.teacherId conflict)
            && negb (Js.includes (Conflict.conflictingScheduleIds conflict)
                       (Schedule.id s)))
         allSchedules.

(** [allTeachers.filter(t => t.id !== conflict.teacherId)]. *)
Definition otherTeachers (conflict : Conflict.t)
  (allTeachers : list Teacher.t) : list Teacher.t :=
  filter (fun t => negb (Teacher.id t =? Conflict.teacherId conflict))
         allTeachers.

(* ================================================================== *)
(** ** server/storage.ts: class MemStorage *)

Module MemStorage.

(** The fields of the class.  [programs] and [programId] are left out: no
    conflict code reads them. *)
Record t : Type := mk {
  courses : list Course.t;
  teachers : list Teacher.t;
  schedules : list Schedule.t;
  conflicts : list Conflict.t;
  courseId : Z;
  teacherId : Z;
  scheduleId : Z;
  conflictId : Z
}.

(** [new MemStorage()]. *)
Definition empty : t := mk [] [] [] [] 1 1 1 1.

(** The running server around the [storage] singleton:
    - [jobs]: the promise chains [detectConflicts] starts and does not await,
      one per created conflict, named by the conflict id they were started
      for;
    - [uuids]: how many tokens uuidv4() has handed out;
    - [passes]: a history variable, the schedule arrays read so far by
      [detectConflicts], one per pass, oldest first.  Nothing reads it; it is
      there to state what a detection pass observed. *)
Record env : Type := Env {
  store : t;
  jobs : list Z;
  uuids : uuid;
  passes : list (list Schedule.t)
}.

Definition boot : env := Env empty [] 0%nat [].

Definition withStore (f : t -> t) (e : env) : env :=
  Env (f (store e)) (jobs e) (uuids e) (passes e).

Definition setCourses (v : list Course.t) (s : t) : t :=
  mk v (teachers s) (schedules s) (conflicts s)
     (courseId s) (teacherId s) (scheduleId s) (conflictId s).
Definition setTeachers (v : list Teacher.t) (s : t) : t :=
  mk (courses s) v (schedules s) (conflicts s)
     (courseId s) (teacherId s) (scheduleId s) (conflictId s).
Definition setSchedules (v : list Schedule.t) (s : t) : t :=
  mk (courses s) (teachers s) v (conflicts s)
     (courseId s) (teacherId s) (scheduleId s) (conflictId s).
Definition setConflicts (v : list Conflict.t) (s : t) : t :=
  mk (courses s) (teachers s) (schedules s) v
     (courseId s) (teacherId s) (scheduleId s) (conflictId s).
Definition setCourseId (v : Z) (s : t) : t :=
  mk (courses s) (teachers s) (schedules s) (conflicts s)
     v (teacherId s) (scheduleId s) (conflictId s).
Definition setTeacherId (v : Z) (s : t) : t :=
  mk (courses s) (teachers s) (schedules s) (conflicts s)
     (courseId s) v (scheduleId s) (conflictId s).
Definition setScheduleId (v : Z) (s : t) : t :=
  mk (courses s) (teachers s) (schedules s) (conflicts s)
     (courseId s) (teacherId s) v (conflictId s).
Definition setConflictId (v : Z) (s : t) : t :=
  mk (courses s) (teachers s) (schedules s) (conflicts s)
     (courseId s) (teacherId s) (scheduleId s) v.

Local Open Scope state_scope.

(** *** Readers *)

Definition getCourseById (s : t) (id : Z) : option Course.t :=
  mapGet Course.id id (courses s).
Definition getTeachers (s : t) : list Teacher.t := teachers s.
Definition getTeacherById (s : t) (id : Z) : option Teacher.t :=
  mapGet Teacher.id id (teachers s).
Definition getSchedules (s : t) : list Schedule.t := schedules s.
Definition getConflicts (s : t) : list Conflict.t := conflicts s.
Definition getConflictById (s : t) (id : Z) : option Conflict.t :=
  mapGet Conflict.id id (conflicts s).

(** *** Courses and teachers *)

(** [createCourse]: [{ ...course, id }]. *)
Definition createCourse (course : Course.t) : State env Course.t :=
  fun e =>
    let id := courseId (store e) in
    let newCourse :=
      Course.mk id (Course.name course) (Course.code course)
        (Course.credits course) (Course.programId course)
        (Course.semester course) (Course.teacherId course) in
    (newCourse,
     withStore (fun s => setCourses (mapSet Course.id id newCourse (courses s))
                           (setCourseId (id + 1) s)) e).

(** [createTeacher]: [{ ...teacher, id }]. *)
Definition createTeacher (teacher : Teacher.t) : State env Teacher.t :=
  fun e =>
    let id := teacherId (store e) in
    let newTeacher :=
      Teacher.mk id (Teacher.name teacher) (Teacher.specialization teacher)
        (Teacher.skills teacher) (Teacher.timePreferences teacher) in
    (newTeacher,
     withStore (fun s =>
                  setTeachers (mapSet Teacher.id id newTeacher (teachers s))
                    (setTeacherId (id + 1) s)) e).

(** [deleteTeacher]: no detection pass follows. *)
Definition deleteTeacher (id : Z) : State env bool :=
  fun e =>
    let (found, rest) := mapDelete Teacher.id id (teachers (store e)) in
    (found, withStore (setTeachers rest) e).

(** *** Conflicts *)

(** [createConflict]: [{ ...conflict, id }] under the next [conflictId]. *)
Definition createConflict (conflict : Conflict.t) : State env Conflict.t :=
  fun e =>
    let id := conflictId (store e) in
    let newConflict :=
      Conflict.mk id (Conflict.teacherId conflict)
        (Conflict.dayOfWeek conflict) (Conflict.timeSlot conflict)
        (Conflict.conflictingScheduleIds conflict)
        (Conflict.resolved conflict) (Conflict.suggestions conflict) in
    (newConflict,
     withStore (fun s =>
                  setConflicts (mapSet Conflict.id id newConflict (conflicts s))
                    (setConflictId (id + 1) s)) e).

(** [{ ...existingConflict, ...conflict }]. *)
Definition patchConflict (c : Conflict.t) (p : ConflictPatch.t) : Conflict.t :=
  Conflict.mk (Conflict.id c) (Conflict.teacherId c) (Conflict.dayOfWeek c)
    (Conflict.timeSlot c) (Conflict.conflictingScheduleIds c)
    (match ConflictPatch.resolved p with
     | Some b => b | None => Conflict.resolved c end)
    (match ConflictPatch.suggestions p with
     | Some l => l | None => Conflict.suggestions c end).

(** [updateConflict]. *)
Definition updateConflict (id : Z) (conflict : ConflictPatch.t)
  : State env (option Conflict.t) :=
  fun e =>
    match mapGet Conflict.id id (conflicts (store e)) with
    | None => (None, e)
    | Some existingConflict =>
        let updatedConflict := patchConflict existingConflict conflict in
        (Some updatedConflict,
         withStore (fun s =>
                      setConflicts
                        (mapSet Conflict.id id updatedConflict (conflicts s)) s)
           e)
    end.

(** *** detectConflicts *)

(** The body of [schedules.forEach(schedule => ...)]: file the schedule id
    under its teacher and its day-time key. *)
Definition groupSchedule (teacherSchedules : list (Z * list (string * list Z)))
  (schedule : Schedule.t) : list (Z * list (string * list Z)) :=
  let teacherSchedules :=
    if alHas Z.eqb (Schedule.teacherId schedule) teacherSchedules
    then teacherSchedules
    else alSet Z.eqb (Schedule.teacherId schedule) [] teacherSchedules in
  let dayTimeKey :=
    dayTimeKey (Schedule.dayOfWeek schedule) (Schedule.timeSlot schedule) in
  let teacherMap :=
    getOrEmpty Z.eqb (Schedule.teacherId schedule) teacherSchedules in
  let teacherMap :=
    if alHas String.eqb dayTimeKey teacherMap then teacherMap
    else alSet String.eqb dayTimeKey [] teacherMap in
  let scheduleIds :=
    getOrEmpty String.eqb dayTimeKey teacherMap ++ [Schedule.id schedule] in
  alSet Z.eqb (Schedule.teacherId schedule)
    (alSet String.eqb dayTimeKey scheduleIds teacherMap) teacherSchedules.

(** The [InsertConflict] literal built for one colliding group. *)
Definition newConflictFor (teacherId : Z) (dayTimeKey : string)
  (scheduleIds : list Z) : Conflict.t :=
  let (dayOfWeek, timeSlot) := parseDayTime dayTimeKey in
  Conflict.mk 0 teacherId dayOfWeek timeSlot scheduleIds false [].

(** The groups the two nested [forEach] loops act on, in Map order:
    those with [scheduleIds.length > 1]. *)
Definition collisions (teacherSchedules : list (Z * list (string * list Z)))
  : list Conflict.t :=
  flat_map
    (fun tm : Z * list (string * list Z) =>
       flat_map
         (fun ki : string * list Z =>
            if (1 <? Z.of_nat (List.length (snd ki)))
            then [newConflictFor (fst tm) (fst ki) (snd ki)] else [])
         (snd tm))
    teacherSchedules.

(** One round of the inner [forEach]: [createConflict] runs at once; its
    [.then] callback starts the suggestion chain (left in [jobs]) and pushes
    the new conflict to the array [detectConflicts] returns. *)
Definition emitConflict (acc : list Conflict.t) (conflict : Conflict.t)
  : State env (list Conflict.t) :=
  newConflict <- createConflict conflict ;;
  modify (fun e => Env (store e) (jobs e ++ [Conflict.id newConflict])
                     (uuids e) (passes e)) ;;;
  ret (acc ++ [newConflict]).

Fixpoint emitConflicts (acc : list Conflict.t) (cs : list Conflict.t)
  : State env (list Conflict.t) :=
  match cs with
  | [] => ret acc
  | c :: r => acc' <- emitConflict acc c ;; emitConflicts acc' r
  end.

(** [detectConflicts], up to the point where the awaiting caller resumes.
    The [.then] callbacks that fill the returned array were queued before the
    caller's continuation, so the caller sees every created conflict; the
    suggestion chains they start are still running then (see [runJob]). *)
Definition detectConflicts : State env (list Conflict.t) :=
  modify (withStore (fun s => setConflictId 1 (setConflicts [] s))) ;;;
  schedules <- gets (fun e => getSchedules (store e)) ;;
  modify (fun e => Env (store e) (jobs e) (uuids e)
                     (passes e ++ [schedules])) ;;;
  emitConflicts [] (collisions (fold_left groupSchedule schedules [])).

(** *** generateConflictSuggestions *)

(** The two array literals indexed inside the description templates. *)
Definition dayNames : list string :=
  ["Sunday"; "Monday"; "Tuesday"; "Wednesday"; "Thursday"; "Friday"]%string.

Definition slotNames : list string :=
  ["6:30-7:20 AM"; "7:20-8:10 AM"; "8:10-9:00 AM"; "9:20-10:10 AM";
   "10:10-11:00 AM"]%string.

(** The object pushed for a surviving (day, slot) of the move loop. *)
Definition moveDraft (s : t) (teacher : option Teacher.t)
  (schedule : Schedule.t) (p : Z * Z) : Draft.t :=
  let (day, slot) := p in
  let preferenceMatch := preferenceMatch teacher day slot in
  let course := getCourseById s (Schedule.courseId schedule) in
  Draft.mk
    ("Move " ++ nameOr "Course" course ++ " to "
     ++ Js.show (Js.index dayNames day) ++ " at "
     ++ Js.show (Js.index slotNames slot) ++ " "
     ++ (if preferenceMatch then "(matches teacher preference)" else ""))%string
    (Schedule.id schedule) (move day slot).

(** The object pushed for one entry of [otherSchedules]. *)
Definition swapDraft (s : t) (schedule otherSchedule : Schedule.t) : Draft.t :=
  let course := getCourseById s (Schedule.courseId schedule) in
  let otherCourse := getCourseById s (Schedule.courseId otherSchedule) in
  Draft.mk
    ("Swap " ++ nameOr "Course" course ++ " with "
     ++ nameOr "another course" otherCourse ++ " on "
     ++ Js.show (Js.index dayNames (Schedule.dayOfWeek otherSchedule))
     ++ " at "
     ++ Js.show (Js.index slotNames (Schedule.timeSlot otherSchedule)))%string
    (Schedule.id schedule) (swap (Some (Schedule.id otherSchedule))).

(** [allSchedules.some(s => s.teacherId === otherTeacher.id &&
    s.dayOfWeek === conflict.dayOfWeek && s.timeSlot === conflict.timeSlot)]. *)
Definition otherTeacherBusy (conflict : Conflict.t)
  (allSchedules : list Schedule.t) (otherTeacher : Teacher.t) : bool :=
  existsb (fun s =>
             (Schedule.teacherId s =? Teacher.id otherTeacher)
             && (Schedule.dayOfWeek s =? Conflict.dayOfWeek conflict)
             && (Schedule.timeSlot s =? Conflict.timeSlot conflict))
          allSchedules.

(** The object pushed for a teacher that passed [!otherTeacherBusy]. *)
Definition reassignDraft (s : t) (schedule : Schedule.t)
  (otherTeacher : Teacher.t) : Draft.t :=
  let course := getCourseById s (Schedule.courseId schedule) in
  Draft.mk
    ("Reassign " ++ nameOr "Course" course ++ " to "
     ++ Teacher.name otherTeacher)%string
    (Schedule.id schedule) (reassign (Teacher.id otherTeacher)).

(** The body of [for (const schedule of validSchedules)]: the move loop, the
    swap loop, the reassign loop, in that order. *)
Definition draftsFor (s : t) (conflict : Conflict.t)
  (allSchedules : list Schedule.t) (teacher : option Teacher.t)
  (schedule : Schedule.t) : list Draft.t :=
  let occupiedSlots := occupiedSlots allSchedules in
  map (moveDraft s teacher schedule)
      (filter (freeSlot conflict occupiedSlots) candidateSlots)
  ++ map (swapDraft s schedule) (otherSchedules conflict allSchedules)
  ++ map (reassignDraft s schedule)
       (filter (fun t => negb (otherTeacherBusy conflict allSchedules t))
          (otherTeachers conflict (getTeachers s))).

(** [conflict.conflictingScheduleIds.map(id => this.schedules.get(id))]
    followed by [.filter(schedule => schedule !== undefined)]. *)
Definition validSchedules (s : t) (conflict : Conflict.t) : list Schedule.t :=
  flat_map (fun id => match mapGet Schedule.id id (schedules s) with
                      | Some schedule => [schedule]
                      | None => []
                      end)
           (Conflict.conflictingScheduleIds conflict).

(** The suggestion objects of one call, before their ids. *)
Definition drafts (s : t) (conflictId : Z) : list Draft.t :=
  match getConflictById s conflictId with
  | None => []
  | Some conflict =>
      let validSchedules := validSchedules s conflict in
      if Z.of_nat (List.length validSchedules) <? 2 then []
      else
        let allSchedules := getSchedules s in
        let teacher := getTeacherById s (Conflict.teacherId conflict) in
        flat_map (draftsFor s conflict allSchedules teacher) validSchedules
  end.

(** [generateConflictSuggestions].  The store reads of one call are taken
    from one store state: the call is modelled as running with no store write
    in between. *)
Definition generateConflictSuggestions (conflictId : Z)
  : State env (list ConflictSuggestion.t) :=
  fun e =>
    let ds := drafts (store e) conflictId in
    (stamp (uuids e) ds,
     Env (store e) (jobs e) (uuids e + List.length ds)%nat (passes e)).

(** One chain started by [detectConflicts] and not awaited:
    [generateConflictSuggestions(id).then(suggestions =>
       this.updateConflict(id, { suggestions }))]. *)
Definition runJob (id : Z) : State env unit :=
  suggestions <- generateConflictSuggestions id ;;
  updateConflict id (ConflictPatch.mk None (Some suggestions)) ;;;
  ret tt.

(** The pending chains run to completion, oldest first, against the store as
    it is by then.  This is the state the next request finds after a request
    that ran one detection pass: nothing writes to the store between the pass
    and the end of its chains but the chains themselves, and a chain writes
    the suggestions of its own conflict only.  In the source the chains of
    one pass take turns, so with several conflicts in a pass the ids are drawn
    in another order than here; every id is a fresh [uuidv4()] either way.
    After a request that runs several passes the source differs further: a
    chain holds the conflict object its own pass stored and goes on while the
    later passes run, and in the end writes its suggestions to whatever
    conflict has its id by then.  [settle] does not describe that case: the
    sample stores below apply it after requests of one pass only. *)
Definition settle : State env unit :=
  fun e => forEach (jobs e) runJob
             (Env (store e) [] (uuids e) (passes e)).

(** *** Schedules *)

(** [{ ...existingSchedule, ...schedule }]. *)
Definition patchSchedule (x : Schedule.t) (p : SchedulePatch.t) : Schedule.t :=
  let pick {A} (o : option A) (d : A) := match o with Some v => v | None => d end in
  Schedule.mk (Schedule.id x)
    (pick (SchedulePatch.programId p) (Schedule.programId x))
    (pick (SchedulePatch.semester p) (Schedule.semester x))
    (pick (SchedulePatch.dayOfWeek p) (Schedule.dayOfWeek x))
    (pick (SchedulePatch.timeSlot p) (Schedule.timeSlot x))
    (pick (SchedulePatch.courseId p) (Schedule.courseId x))
    (pick (SchedulePatch.teacherId p) (Schedule.teacherId x))
    (pick (SchedulePatch.roomNumber p) (Schedule.roomNumber x)).

(** [createSchedule]: store under the next id, then detect. *)
Definition createSchedule (schedule : Schedule.t) : State env Schedule.t :=
  id <- gets (fun e => scheduleId (store e)) ;;
  let newSchedule :=
    Schedule.mk id (Schedule.programId schedule) (Schedule.semester schedule)
      (Schedule.dayOfWeek schedule) (Schedule.timeSlot schedule)
      (Schedule.courseId schedule) (Schedule.teacherId schedule)
      (Schedule.roomNumber schedule) in
  modify (withStore (fun s =>
            setSchedules (mapSet Schedule.id id newSchedule (schedules s))
              (setScheduleId (id + 1) s))) ;;;
  detectConflicts ;;;
  ret newSchedule.

(** [updateSchedule]: a missing id returns [undefined] at once; otherwise the
    patched record replaces the old one and a detection pass runs. *)
Definition updateSchedule (id : Z) (schedule : SchedulePatch.t)
  : State env (option Schedule.t) :=
  existing <- gets (fun e => mapGet Schedule.id id (schedules (store e))) ;;
  match existing with
  | None => ret None
  | Some existingSchedule =>
      let updatedSchedule := patchSchedule existingSchedule schedule in
      modify (withStore (fun s =>
                setSchedules
                  (mapSet Schedule.id id updatedSchedule (schedules s)) s)) ;;;
      detectConflicts ;;;
      ret (Some updatedSchedule)
  end.

(** [deleteSchedule]: delete, then detect. *)
Definition deleteSchedule (id : Z) : State env bool :=
  fun e =>
    let (result, rest) := mapDelete Schedule.id id (schedules (store e)) in
    let (_, e') := detectConflicts (withStore (setSchedules rest) e) in
    (result, e').

(** *** The other methods of the class *)

(** [{ ...existingCourse, ...course }]. *)
Definition patchCourse (x : Course.t) (p : CoursePatch.t) : Course.t :=
  let pick {A} (o : option A) (d : A) := match o with Some v => v | None => d end in
  Course.mk (Course.id x)
    (pick (CoursePatch.name p) (Course.name x))
    (pick (CoursePatch.code p) (Course.code x))
    (pick (CoursePatch.credits p) (Course.credits x))
    (pick (CoursePatch.programId p) (Course.programId x))
    (pick (CoursePatch.semester p) (Course.semester x))
    (pick (CoursePatch.teacherId p) (Course.teacherId x)).

(** [updateCourse]. *)
Definition updateCourse (id : Z) (course : CoursePatch.t)
  : State env (option Course.t) :=
  fun e =>
    match mapGet Course.id id (courses (store e)) with
    | None => (None, e)
    | Some existingCourse =>
        let updatedCourse := patchCourse existingCourse course in
        (Some updatedCourse,
         withStore (fun s =>
                      setCourses (mapSet Course.id id updatedCourse (courses s))
                        s) e)
    end.

(** [deleteCourse]. *)
Definition deleteCourse (id : Z) : State env bool :=
  fun e =>
    let (found, rest) := mapDelete Course.id id (courses (store e)) in
    (found, withStore (setCourses rest) e).

(** [{ ...existingTeacher, ...teacher }]. *)
Definition patchTeacher (x : Teacher.t) (p : TeacherPatch.t) : Teacher.t :=
  let pick {A} (o : option A) (d : A) := match o with Some v => v | None => d end in
  Teacher.mk (Teacher.id x)
    (pick (TeacherPatch.name p) (Teacher.name x))
    (pick (TeacherPatch.specialization p) (Teacher.specialization x))
    (pick (TeacherPatch.skills p) (Teacher.skills x))
    (pick (TeacherPatch.timePreferences p) (Teacher.timePreferences x)).

(** [updateTeacher]: like [deleteTeacher], with no detection pass. *)
Definition updateTeacher (id : Z) (teacher : TeacherPatch.t)
  : State env (option Teacher.t) :=
  fun e =>
    match mapGet Teacher.id id (teachers (store e)) with
    | None => (None, e)
    | Some existingTeacher =>
        let updatedTeacher := patchTeacher existingTeacher teacher in
        (Some updatedTeacher,
         withStore (fun s =>
                      setTeachers
                        (mapSet Teacher.id id updatedTeacher (teachers s)) s)
           e)
    end.

End MemStorage.

(* ================================================================== *)
(** ** class DatabaseStorage (the drizzle-backed IStorage) *)

Module DatabaseStorage.

(** The tables the conflict code reads and writes, as row lists, with the
    [serial] sequence of [conflicts.id] and the uuidv4() count.  A [select]
    without [ORDER BY] is modelled as returning rows in table order. *)
Record t : Type := mk {
  courses : list Course.t;
  teachers : list Teacher.t;
  schedules : list Schedule.t;
  conflicts : list Conflict.t;
  conflicts_id_seq : Z;
  uuids : uuid
}.

Definition empty : t := mk [] [] [] [] 1 0%nat.

Definition setConflicts (v : list Conflict.t) (d : t) : t :=
  mk (courses d) (teachers d) (schedules d) v (conflicts_id_seq d) (uuids d).
Definition setUuids (v : uuid) (d : t) : t :=
  mk (courses d) (teachers d) (schedules d) (conflicts d)
     (conflicts_id_seq d) v.

Local Open Scope state_scope.

(** *** Readers: [select ... where eq(id)] and [result[0]] *)

Definition getCourseById (d : t) (id : Z) : option Course.t :=
  hd_error (filter (fun c => Course.id c =? id) (courses d)).
Definition getTeachers (d : t) : list Teacher.t := teachers d.
Definition getTeacherById (d : t) (id : Z) : option Teacher.t :=
  hd_error (filter (fun x => Teacher.id x =? id) (teachers d)).
Definition getSchedules (d : t) : list Schedule.t := schedules d.
Definition getConflicts (d : t) : list Conflict.t := conflicts d.
Definition getConflictById (d : t) (id : Z) : option Conflict.t :=
  hd_error (filter (fun c => Conflict.id c =? id) (conflicts d)).

(** *** Conflicts *)

(** [createConflict]: [insert ... returning], the id drawn from the sequence. *)
Definition createConflict (conflict : Conflict.t) : State t Conflict.t :=
  fun d =>
    let id := conflicts_id_seq d in
    let row :=
      Conflict.mk id (Conflict.teacherId conflict)
        (Conflict.dayOfWeek conflict) (Conflict.timeSlot conflict)
        (Conflict.conflictingScheduleIds conflict)
        (Conflict.resolved conflict) (Conflict.suggestions conflict) in
    (row, mk (courses d) (teachers d) (schedules d) (conflicts d ++ [row])
             (id + 1) (uuids d)).

(** [updateConflict]: [update ... set ... where eq(id) returning]. *)
Definition updateConflict (id : Z) (conflict : ConflictPatch.t)
  : State t (option Conflict.t) :=
  fun d =>
    let rows :=
      map (fun c => if Conflict.id c =? id
                    then MemStorage.patchConflict c conflict else c)
          (conflicts d) in
    (hd_error (filter (fun c => Conflict.id c =? id) rows),
     setConflicts rows d).

(** *** generateConflictSuggestions *)

(** The object pushed for a surviving (day, slot) of the move loop; [course]
    is declared here, inside the body of the inner [for]. *)
Definition moveDraft (d : t) (teacher : option Teacher.t)
  (schedule : Schedule.t) (p : Z * Z) : Draft.t :=
  let (day, slot) := p in
  let preferenceMatch := preferenceMatch teacher day slot in
  let course := getCourseById d (Schedule.courseId schedule) in
  Draft.mk
    ("Move " ++ nameOr "Course" course ++ " to "
     ++ Js.show (Js.index DAYS_OF_WEEK day) ++ " at "
     ++ Js.show (Js.index TIME_SLOTS slot) ++ " "
     ++ (if preferenceMatch then "(matches teacher preference)" else ""))%string
    (Schedule.id schedule) (move day slot).

(** The swap and the reassign loop build their description from
    [course?.name], but the only [const course] of the method is the one of
    the move loop's inner block.  Outside that block the name is bound to
    nothing (the module imports [courses], not [course]), so evaluating the
    template literal raises ReferenceError: the object is never pushed and the
    call rejects. *)
Definition swapDraft (d : t) (schedule otherSchedule : Schedule.t)
  : Js.Result Draft.t :=
  Js.Throw (Js.ReferenceError "course").

Definition reassignDraft (d : t) (schedule : Schedule.t)
  (otherTeacher : Teacher.t) : Js.Result Draft.t :=
  Js.Throw (Js.ReferenceError "course").

(** The pushes the body of [for (const schedule of validSchedules)] attempts,
    in order.  The reassign loop has no busy test. *)
Definition attemptsFor (d : t) (conflict : Conflict.t)
  (allSchedules : list Schedule.t) (teacher : option Teacher.t)
  (schedule : Schedule.t) : list (Js.Result Draft.t) :=
  let occupiedSlots := occupiedSlots allSchedules in
  map (fun p => Js.Ok (moveDraft d teacher schedule p))
      (filter (freeSlot conflict occupiedSlots) candidateSlots)
  ++ map (swapDraft d schedule) (otherSchedules conflict allSchedules)
  ++ map (reassignDraft d schedule) (otherTeachers conflict (getTeachers d)).

(** [select from schedules where inArray(schedules.id, ids)]. *)
Definition validSchedules (d : t) (conflict : Conflict.t) : list Schedule.t :=
  filter (fun s => Js.includes (Conflict.conflictingScheduleIds conflict)
                     (Schedule.id s))
         (schedules d).

Definition attempts (d : t) (conflictId : Z) : list (Js.Result Draft.t) :=
  match getConflictById d conflictId with
  | None => []
  | Some conflict =>
      let validSchedules := validSchedules d conflict in
      if Z.of_nat (List.length validSchedules) =? 0 then []
      else
        let allSchedules := getSchedules d in
        let teacher := getTeacherById d (Conflict.teacherId conflict) in
        flat_map (attemptsFor d conflict allSchedules teacher) validSchedules
  end.

(** Run the pushes until one throws: the objects pushed, and the error. *)
Fixpoint pushed (xs : list (Js.Result Draft.t))
  : list Draft.t * option Js.Error :=
  match xs with
  | [] => ([], None)
  | Js.Ok x :: r => let (l, e) := pushed r in (x :: l, e)
  | Js.Throw e :: _ => ([], Some e)
  end.

(** [generateConflictSuggestions].  The failing push has drawn its uuid
    before its description is evaluated. *)
Definition generateConflictSuggestions (conflictId : Z)
  : State t (Js.Result (list ConflictSuggestion.t)) :=
  fun d =>
    let (ds, err) := pushed (attempts d conflictId) in
    match err with
    | None => (Js.Ok (stamp (uuids d) ds),
               setUuids (uuids d + List.length ds)%nat d)
    | Some e => (Js.Throw e, setUuids (uuids d + List.length ds + 1)%nat d)
    end.

(** *** detectConflicts *)

(** First loop: [teacherMap], schedules by teacher. *)
Definition groupByTeacher (teacherMap : list (Z * list Schedule.t))
  (schedule : Schedule.t) : list (Z * list Schedule.t) :=
  let teacherMap :=
    if alHas Z.eqb (Schedule.teacherId schedule) teacherMap then teacherMap
    else alSet Z.eqb (Schedule.teacherId schedule) [] teacherMap in
  alSet Z.eqb (Schedule.teacherId schedule)
    (getOrEmpty Z.eqb (Schedule.teacherId schedule) teacherMap ++ [schedule])
    teacherMap.

(** Per teacher: [slotMap], that teacher's schedules by day-time key. *)
Definition groupBySlot (slotMap : list (string * list Schedule.t))
  (schedule : Schedule.t) : list (string * list Schedule.t) :=
  let key :=
    dayTimeKey (Schedule.dayOfWeek schedule) (Schedule.timeSlot schedule) in
  let slotMap :=
    if alHas String.eqb key slotMap then slotMap
    else alSet String.eqb key [] slotMap in
  alSet String.eqb key (getOrEmpty String.eqb key slotMap ++ [schedule])
    slotMap.

(** The colliding groups in the order the loops meet them. *)
Definition collisions (allSchedules : list Schedule.t) : list Conflict.t :=
  flat_map
    (fun ts : Z * list Schedule.t =>
       flat_map
         (fun ks : string * list Schedule.t =>
            if (1 <? Z.of_nat (List.length (snd ks)))
            then [MemStorage.newConflictFor (fst ts) (fst ks)
                    (map Schedule.id (snd ks))]
            else [])
         (fold_left groupBySlot (snd ts) []))
    (fold_left groupByTeacher allSchedules []).

(** One colliding group: look for a row with the same teacher, day and slot,
    and insert a conflict only when there is none. *)
Definition considerGroup (newConflicts : list Conflict.t)
  (conflict : Conflict.t) : State t (list Conflict.t) :=
  existingConflicts <-
    gets (fun d =>
            filter (fun c =>
                      (Conflict.teacherId c =? Conflict.teacherId conflict)
                      && (Conflict.dayOfWeek c =? Conflict.dayOfWeek conflict)
                      && (Conflict.timeSlot c =? Conflict.timeSlot conflict))
                   (conflicts d)) ;;
  if Z.of_nat (List.length existingConflicts) =? 0 then
    newConflict <- createConflict conflict ;;
    ret (newConflicts ++ [newConflict])
  else ret newConflicts.

Fixpoint considerGroups (newConflicts : list Conflict.t)
  (cs : list Conflict.t) : State t (list Conflict.t) :=
  match cs with
  | [] => ret newConflicts
  | c :: r => acc <- considerGroup newConflicts c ;; considerGroups acc r
  end.

(** [for (const conflict of newConflicts)]: generate, then attach; a
    rejection of the generator ends the method. *)
Fixpoint attachSuggestions (newConflicts : list Conflict.t)
  : State t (Js.Result unit) :=
  match newConflicts with
  | [] => ret (Js.Ok tt)
  | conflict :: r =>
      generated <- generateConflictSuggestions (Conflict.id conflict) ;;
      match generated with
      | Js.Throw e => ret (Js.Throw e)
      | Js.Ok suggestions =>
          updateConflict (Conflict.id conflict)
            (ConflictPatch.mk None (Some suggestions)) ;;;
          attachSuggestions r
      end
  end.

(** [detectConflicts]: every step is awaited. *)
Definition detectConflicts : State t (Js.Result (list Conflict.t)) :=
  allSchedules <- gets getSchedules ;;
  newConflicts <- considerGroups [] (collisions allSchedules) ;;
  attached <- attachSuggestions newConflicts ;;
  match attached with
  | Js.Throw e => ret (Js.Throw e)
  | Js.Ok _ => ret (Js.Ok newConflicts)
  end.

End DatabaseStorage.

(* ================================================================== *)
(** ** registerRoutes: the conflict routes, served from [MemStorage] *)

(** A handler is modelled from its first statement to its response.  The
    suggestion chains its detection passes start are not awaited by anything
    in the handler; they stay in [jobs].  No chain writes to the schedules,
    the teachers or the courses, and no handler reads the stored suggestions
    after its first detection pass. *)

Module Routes.
Import MemStorage.
Local Open Scope state_scope.

(** What [res.json] is given. *)
Inductive Body : Type :=
| SuggestionIdRequired            (** "suggestionId is required" *)
| ConflictNotFound (id : Z)       (** "Conflict with ID ${id} not found" *)
| SuggestionNotFound (suggestionId : uuid)
                                  (** "Suggestion with ID ... not found" *)
| InvalidSwapSuggestion           (** "Invalid swap suggestion" *)
| SchedulesNotFound               (** "One or both schedules not found" *)
| ResolvedSuccessfully            (** "Conflict resolved successfully" *)
| ConflictList (conflicts : list Conflict.t)
| SuggestionList (suggestions : list ConflictSuggestion.t).

Record Response : Type := respond {
  status : Z;
  body : Body
}.

(** GET /api/conflicts/detect *)
Definition detect : State env Response :=
  conflicts <- detectConflicts ;;
  ret (respond 200 (ConflictList conflicts)).

(** GET /api/conflicts/:id/suggestions *)
Definition conflictSuggestions (id : Z) : State env Response :=
  conflict <- gets (fun e => getConflictById (store e) id) ;;
  match conflict with
  | None => ret (respond 404 (ConflictNotFound id))
  | Some _ =>
      suggestions <- generateConflictSuggestions id ;;
      ret (respond 200 (SuggestionList suggestions))
  end.

(** [!suggestion.swapWithScheduleId]: the field is missing, or is 0. *)
Definition swapTarget (o : option Z) : option Z :=
  match o with
  | Some w => if w =? 0 then None else Some w
  | None => None
  end.

(** "Apply the suggestion": the three-way branch on [suggestion.action].
    [Some r] is an early [return res.status(...)]. *)
Definition applySuggestion (suggestion : ConflictSuggestion.t)
  : State env (option Response) :=
  match ConflictSuggestion.action suggestion with
  | move newDayOfWeek newTimeSlot =>
      updateSchedule (ConflictSuggestion.scheduleId suggestion)
        (SchedulePatch.mk None None (Some newDayOfWeek) (Some newTimeSlot)
           None None None) ;;;
      ret None
  | swap swapWithScheduleId =>
      match swapTarget swapWithScheduleId with
      | None => ret (Some (respond 400 InvalidSwapSuggestion))
      | Some swapWithScheduleId =>
          schedule1 <-
            gets (fun e => find (fun s => Schedule.id s
                                          =? ConflictSuggestion.scheduleId
                                               suggestion)
                             (getSchedules (store e))) ;;
          schedule2 <-
            gets (fun e => find (fun s => Schedule.id s =? swapWithScheduleId)
                             (getSchedules (store e))) ;;
          match schedule1, schedule2 with
          | Some schedule1, Some schedule2 =>
              updateSchedule (Schedule.id schedule1)
                (SchedulePatch.mk None None
                   (Some (Schedule.dayOfWeek schedule2))
                   (Some (Schedule.timeSlot schedule2)) None None None) ;;;
              updateSchedule (Schedule.id schedule2)
                (SchedulePatch.mk None None
                   (Some (Schedule.dayOfWeek schedule1))
                   (Some (Schedule.timeSlot schedule1)) None None None) ;;;
              ret None
          | _, _ => ret (Some (respond 404 SchedulesNotFound))
          end
      end
  | reassign newTeacherId =>
      updateSchedule (ConflictSuggestion.scheduleId suggestion)
        (SchedulePatch.mk None None None None None (Some newTeacherId) None) ;;;
      ret None
  end.

(** POST /api/conflicts/:id/resolve.  [suggestionId] is [None] when the body
    carries none (or a falsy one). *)
Definition resolveConflict (id : Z) (suggestionId : option uuid)
  : State env Response :=
  match suggestionId with
  | None => ret (respond 400 SuggestionIdRequired)
  | Some suggestionId =>
      conflict <- gets (fun e => getConflictById (store e) id) ;;
      match conflict with
      | None => ret (respond 404 (ConflictNotFound id))
      | Some conflict =>
          match find (fun s => Nat.eqb (ConflictSuggestion.id s) suggestionId)
                  (Conflict.suggestions conflict) with
          | None => ret (respond 404 (SuggestionNotFound suggestionId))
          | Some suggestion =>
              early <- applySuggestion suggestion ;;
              match early with
              | Some response => ret response
              | None =>
                  updateConflict id (ConflictPatch.mk (Some true) None) ;;;
                  detectConflicts ;;;
                  ret (respond 200 ResolvedSuccessfully)
              end
          end
      end
  end.

End Routes.

(* ================================================================== *)
(** ** registerRoutes: the routes that write, and the running server *)

(** The handlers of the routes that change the state, from the validated
    body on, with the status they answer.  A body that fails validation is
    answered 400 before any storage call; no [MemStorage] method throws, so
    the 500 branches are not taken. *)
Module Api.
Import MemStorage.
Local Open Scope state_scope.

(** POST /api/courses *)
Definition post_courses (validatedData : Course.t) : State env Z :=
  createCourse validatedData ;;; ret 201.

(** PUT /api/courses/:id *)
Definition put_courses (id : Z) (validatedData : CoursePatch.t)
  : State env Z :=
  updatedCourse <- updateCourse id validatedData ;;
  ret (match updatedCourse with None => 404 | Some _ => 200 end).

(** DELETE /api/courses/:id *)
Definition delete_courses (id : Z) : State env Z :=
  success <- deleteCourse id ;; ret (if success : bool then 204 else 404).

(** POST /api/teachers *)
Definition post_teachers (validatedData : Teacher.t) : State env Z :=
  createTeacher validatedData ;;; ret 201.

(** PUT /api/teachers/:id *)
Definition put_teachers (id : Z) (validatedData : TeacherPatch.t)
  : State env Z :=
  updatedTeacher <- updateTeacher id validatedData ;;
  ret (match updatedTeacher with None => 404 | Some _ => 200 end).

(** DELETE /api/teachers/:id *)
Definition delete_teachers (id : Z) : State env Z :=
  success <- deleteTeacher id ;; ret (if success : bool then 204 else 404).

(** POST /api/schedules *)
Definition post_schedules (validatedData : Schedule.t) : State env Z :=
  createSchedule validatedData ;;; ret 201.

(** PUT /api/schedules/:id *)
Definition put_schedules (id : Z) (validatedData : SchedulePatch.t)
  : State env Z :=
  updatedSchedule <- updateSchedule id validatedData ;;
  ret (match updatedSchedule with None => 404 | Some _ => 200 end).

(** DELETE /api/schedules/:id *)
Definition delete_schedules (id : Z) : State env Z :=
  success <- deleteSchedule id ;; ret (if success : bool then 204 else 404).

(** The requests that can change the state of the server. *)
Inductive Request : Type :=
| PostCourse (validatedData : Course.t)
| PutCourse (id : Z) (validatedData : CoursePatch.t)
| DeleteCourse (id : Z)
| PostTeacher (validatedData : Teacher.t)
| PutTeacher (id : Z) (validatedData : TeacherPatch.t)
| DeleteTeacher (id : Z)
| PostSchedule (validatedData : Schedule.t)
| PutSchedule (id : Z) (validatedData : SchedulePatch.t)
| DeleteSchedule (id : Z)
| GetDetect
| GetSuggestions (id : Z)
| PostResolve (id : Z) (suggestionId : option uuid).

Definition handle (request : Request) : State env Z :=
  match request with
  | PostCourse validatedData => post_courses validatedData
  | PutCourse id validatedData => put_courses id validatedData
  | DeleteCourse id => delete_courses id
  | PostTeacher validatedData => post_teachers validatedData
  | PutTeacher id validatedData => put_teachers id validatedData
  | DeleteTeacher id => delete_teachers id
  | PostSchedule validatedData => post_schedules validatedData
  | PutSchedule id validatedData => put_schedules id validatedData
  | DeleteSchedule id => delete_schedules id
  | GetDetect =>
      response <- Routes.detect ;; ret (Routes.status response)
  | GetSuggestions id =>
      response <- Routes.conflictSuggestions id ;; ret (Routes.status response)
  | PostResolve id suggestionId =>
      response <- Routes.resolveConflict id suggestionId ;;
      ret (Routes.status response)
  end.

(** What writes to the store: a request handled up to its response, or a
    suggestion chain reaching its last step,
    [this.updateConflict(newConflict.id, { suggestions })], with whatever
    suggestions it has built by then, under whatever ids.  Only the resolve
    route goes on after its first pass; a chain that ends before the last
    pass of that request has stored its conflicts writes to a conflict store
    that pass clears, or finds no conflict at all, and the handler takes
    nothing from the conflict store in between: the request leaves the store it would
    leave without that write, which is therefore no event here. *)
Inductive Event : Type :=
| Handled (request : Request)
| ChainEnds (id : Z) (suggestions : list ConflictSuggestion.t).

Definition after (event : Event) (e : env) : env :=
  match event with
  | Handled request => snd (handle request e)
  | ChainEnds id suggestions =>
      snd (updateConflict id (ConflictPatch.mk None (Some suggestions)) e)
  end.

(** The server after a history of events, oldest first. *)
Definition run (history : list Event) (e : env) : env :=
  fold_left (fun e event => after event e) history e.

End Api.

(* ================================================================== *)
(** ** client/src/hooks/useConflictDetection.ts: the readers of the hook *)

(** The functions the hook builds over [conflicts], the array it has fetched
    from GET /api/conflicts. *)
Module useConflictDetection.
Section Hook.
Variable conflicts : list Conflict.t.

Definition getUnresolvedConflicts : list Conflict.t :=
  filter (fun conflict => negb (Conflict.resolved conflict)) conflicts.

Definition getTeacherConflicts (teacherId : Z) : list Conflict.t :=
  filter (fun conflict =>
            (Conflict.teacherId conflict =? teacherId)
            && negb (Conflict.resolved conflict))
         conflicts.


End Hook.
End useConflictDetection.

(* ================================================================== *)
(** ** Vocabulary of the statements *)

(** The move-family suggestions of a batch, as (schedule id, (day, slot)),
    in batch order. *)
Definition moveTargets (l : list ConflictSuggestion.t) : list (Z * (Z * Z)) :=
  flat_map (fun sg => match ConflictSuggestion.action sg with
                      | move d s => [(ConflictSuggestion.scheduleId sg, (d, s))]
                      | _ => []
                      end) l.

Definition draftMoveTargets (l : list Draft.t) : list (Z * (Z * Z)) :=
  flat_map (fun d => match Draft.action d with
                     | move day slot => [(Draft.scheduleId d, (day, slot))]
                     | _ => []
                     end) l.

(** The time preferences stored for a teacher: none when the teacher is
    missing, or has no [timePreferences] value. *)
Definition storedPreferences (teacher : option Teacher.t)
  : list TimePreference.t :=
  match teacher with
  | Some t => match Teacher.timePreferences t with
              | Some l => l
              | None => []
              end
  | None => []
  end.

(** The objects among a run of attempted pushes. *)
Definition oks {A} (xs : list (Js.Result A)) : list A :=
  flat_map (fun x => match x with Js.Ok a => [a] | Js.Throw _ => [] end) xs.

(** ** Sample stores *)

(** A request handler followed by the completion of the chains it left
    running: the state the next request starts from. *)
Definition served {A} (handler : State MemStorage.env A)
  (e : MemStorage.env) : MemStorage.env :=
  snd (MemStorage.settle (snd (handler e))).

Definition sampleTeacher (name : string)
  (prefs : option (list TimePreference.t)) : Teacher.t :=
  Teacher.mk 0 name None None prefs.

Definition sampleSchedule (teacherId dayOfWeek timeSlot : Z) : Schedule.t :=
  Schedule.mk 0 1 1 dayOfWeek timeSlot 1 teacherId None.

(** Ann (1) prefers Monday slots 0 to 2 and has one inverted preference;
    Bob (2) and Cy (3) have none.  Ann is booked twice on Monday slot 2
    (schedules 1 and 2), Bob once on Wednesday slot 3 (schedule 3), Cy once
    on Monday slot 2 (schedule 4). *)
Definition sampleServer : MemStorage.env := Eval vm_compute in
  served (MemStorage.createSchedule (sampleSchedule 3 1 2))
  (served (MemStorage.createSchedule (sampleSchedule 2 3 3))
  (served (MemStorage.createSchedule (sampleSchedule 1 1 2))
  (served (MemStorage.createSchedule (sampleSchedule 1 1 2))
  (served (MemStorage.createTeacher (sampleTeacher "Cy" None))
  (served (MemStorage.createTeacher (sampleTeacher "Bob" None))
  (served (MemStorage.createTeacher
             (sampleTeacher "Ann"
                (Some [TimePreference.mk 1 0 2; TimePreference.mk 3 4 1])))
     MemStorage.boot)))))).

(** The conflict detected in [sampleServer]. *)
Definition sampleConflict : Conflict.t :=
  Conflict.mk 1 1 1 2 [1; 2] false [].

(** A database holding Ann's two colliding schedules and nothing else, with
    the conflict row a first detection pass has stored for them. *)
Definition sampleDatabase : DatabaseStorage.t :=
  DatabaseStorage.mk [] []
    [Schedule.mk 10 1 1 1 2 1 1 None; Schedule.mk 11 1 1 1 2 1 1 None]
    [Conflict.mk 1 1 1 2 [10; 11] false []] 2 0%nat.

(** A filler for [hd] on suggestion lists that are not empty. *)
Definition noSuggestion : ConflictSuggestion.t :=
  ConflictSuggestion.mk 0%nat "" 0 (swap None).

(** Every suggestion id held by the conflict store was drawn earlier: it is
    below the count of tokens handed out so far. *)
Definition uuidsIssued (e : MemStorage.env) : bool :=
  forallb (fun c =>
             forallb (fun sg => Nat.ltb (ConflictSuggestion.id sg)
                                  (MemStorage.uuids e))
                     (Conflict.suggestions c))
          (MemStorage.conflicts (MemStorage.store e)).

(** [sampleDatabase] after schedule 10 was deleted: the conflict row still
    names both ids, one of them resolves. *)
Definition staleDatabase : DatabaseStorage.t :=
  DatabaseStorage.mk [] []
    [Schedule.mk 11 1 1 1 2 1 1 None]
    [Conflict.mk 1 1 1 2 [10; 11] false []] 2 0%nat.

(** The ids of a conflict that name a schedule of the store. *)
Definition resolvingIds (schedules : list Schedule.t) (conflict : Conflict.t)
  : list Z :=
  filter (fun id => match mapGet Schedule.id id schedules with
                    | Some _ => true
                    | None => false
                    end)
         (Conflict.conflictingScheduleIds conflict).

(** Conflict literals under consecutive ids from [n] on, as [createConflict]
    numbers them. *)
Fixpoint numbered (n : Z) (cs : list Conflict.t) : list Conflict.t :=
  match cs with
  | [] => []
  | c :: r =>
      Conflict.mk n (Conflict.teacherId c) (Conflict.dayOfWeek c)
        (Conflict.timeSlot c) (Conflict.conflictingScheduleIds c)
        (Conflict.resolved c) (Conflict.suggestions c)
      :: numbered (n + 1) r
  end.

(** The conflicts one pass of [MemStorage.detectConflicts] creates for a
    schedule list. *)
Definition detected (schedules : list Schedule.t) : list Conflict.t :=
  numbered 1
    (MemStorage.collisions (fold_left MemStorage.groupSchedule schedules [])).

(** What a conflict says, its id and its suggestions aside. *)
Definition content (c : Conflict.t) : Z * Z * Z * list Z :=
  (Conflict.teacherId c, Conflict.dayOfWeek c, Conflict.timeSlot c,
   Conflict.conflictingScheduleIds c).

(** A database where schedule 10 of a recorded collision was deleted and
    schedule 12 was booked into the same slot: Ann's colliding schedules are
    now 11 and 12, the stored conflict row still names 10 and 11. *)
Definition driftedDatabase : DatabaseStorage.t :=
  DatabaseStorage.mk [] []
    [Schedule.mk 11 1 1 1 2 1 1 None; Schedule.mk 12 1 1 1 2 1 1 None]
    [Conflict.mk 1 1 1 2 [10; 11] false []] 2 0%nat.

(** A database with two teachers, Ann's two colliding schedules and an empty
    conflicts table. *)
Definition freshDatabase : DatabaseStorage.t :=
  DatabaseStorage.mk []
    [Teacher.mk 1 "Ann" None None None; Teacher.mk 2 "Bob" None None None]
    [Schedule.mk 10 1 1 1 2 1 1 None; Schedule.mk 11 1 1 1 2 1 1 None]
    [] 1 0%nat.

(** A database with Ann's two colliding schedules, no teacher rows, and one
    old conflict row, resolved, whose schedules are gone. *)
Definition agedDatabase : DatabaseStorage.t :=
  DatabaseStorage.mk [] []
    [Schedule.mk 10 1 1 1 2 1 1 None; Schedule.mk 11 1 1 1 2 1 1 None]
    [Conflict.mk 1 7 0 0 [3; 4] true []] 2 0%nat.

(** ** Vocabulary of the resolve route *)

(** The suggestion the resolve route picks for a conflict id and a
    suggestion id, when both lookups succeed. *)
Definition chosen (e : MemStorage.env) (id : Z) (suggestionId : uuid)
  : option ConflictSuggestion.t :=
  match MemStorage.getConflictById (MemStorage.store e) id with
  | Some conflict =>
      find (fun s => Nat.eqb (ConflictSuggestion.id s) suggestionId)
           (Conflict.suggestions conflict)
  | None => None
  end.

(** The schedule with this id is in the store. *)
Definition scheduled (e : MemStorage.env) (id : Z) : bool :=
  match mapGet Schedule.id id (MemStorage.schedules (MemStorage.store e)) with
  | Some _ => true
  | None => false
  end.

(** A swap suggestion that fails the route's own checks: no partner id, or a
    schedule of the pair that is gone. *)
Definition swapWithout (e : MemStorage.env) (sg : ConflictSuggestion.t)
  : option Z :=
  match ConflictSuggestion.action sg with
  | swap o =>
      match Routes.swapTarget o with
      | None => Some 400
      | Some w =>
          if scheduled e (ConflictSuggestion.scheduleId sg) && scheduled e w
          then None else Some 404
      end
  | _ => None
  end.

(** A move or reassign suggestion whose own schedule is gone. *)
Definition targetGone (e : MemStorage.env) (sg : ConflictSuggestion.t)
  : bool :=
  match ConflictSuggestion.action sg with
  | swap _ => false
  | _ => negb (scheduled e (ConflictSuggestion.scheduleId sg))
  end.

(** The (dayOfWeek, timeSlot) of the schedule with this id in a list. *)
Definition slotOf (id : Z) (l : list Schedule.t) : option (Z * Z) :=
  option_map (fun x => (Schedule.dayOfWeek x, Schedule.timeSlot x))
             (mapGet Schedule.id id l).

(** [x] with the (dayOfWeek, timeSlot) of [y]. *)
Definition movedTo (x y : Schedule.t) : Schedule.t :=
  MemStorage.patchSchedule x
    (SchedulePatch.mk None None (Some (Schedule.dayOfWeek y))
       (Some (Schedule.timeSlot y)) None None None).

(** The state [MemStorage.detectConflicts] leaves. *)
Definition afterDetect (e : MemStorage.env) : MemStorage.env :=
  let s := MemStorage.store e in
  let found := detected (MemStorage.schedules s) in
  MemStorage.Env
    (MemStorage.mk (MemStorage.courses s) (MemStorage.teachers s)
       (MemStorage.schedules s) found (MemStorage.courseId s)
       (MemStorage.teacherId s) (MemStorage.scheduleId s)
       (1 + Z.of_nat (List.length found)))
    (MemStorage.jobs e ++ map Conflict.id found)
    (MemStorage.uuids e)
    (MemStorage.passes e ++ [MemStorage.schedules s]).

(** [sampleServer] after DELETE /api/teachers/2: Bob is gone, the stored
    suggestions of conflict 1 still propose him. *)
Definition serverWithoutBob : MemStorage.env := Eval vm_compute in
  served (MemStorage.deleteTeacher 2) sampleServer.

(** Ann is booked twice on Monday slot 2 (schedules 1 and 2), Bob twice on
    Wednesday slot 3 (schedules 3 and 4). *)
Definition swapServer : MemStorage.env := Eval vm_compute in
  served (MemStorage.createSchedule (sampleSchedule 2 3 3))
  (served (MemStorage.createSchedule (sampleSchedule 2 3 3))
  (served (MemStorage.createSchedule (sampleSchedule 1 1 2))
  (served (MemStorage.createSchedule (sampleSchedule 1 1 2))
  (served (MemStorage.createTeacher (sampleTeacher "Bob" None))
  (served (MemStorage.createTeacher (sampleTeacher "Ann" None))
     MemStorage.boot))))).

(** ** Vocabulary of the grouping *)

(** The schedule ids the grouping loop has filed under a teacher and a
    day-time key; none when either is unknown to the map. *)
Definition filed (g : list (Z * list (string * list Z))) (t : Z) (k : string)
  : list Z :=
  getOrEmpty String.eqb k (getOrEmpty Z.eqb t g).

(** The schedule entries of one teacher in one (day, slot), in store order:
    a (teacherId, dayOfWeek, timeSlot) group. *)
Definition bookings (schedules : list Schedule.t) (t d s : Z)
  : list Schedule.t :=
  filter (fun x => (Schedule.teacherId x =? t)
                   && (Schedule.dayOfWeek x =? d)
                   && (Schedule.timeSlot x =? s))
         schedules.

(** The conflict is about this teacher, day and slot. *)
Definition about (t d s : Z) (c : Conflict.t) : bool :=
  (Conflict.teacherId c =? t) && (Conflict.dayOfWeek c =? d)
  && (Conflict.timeSlot c =? s).

(** Distinct teachers in the outer map, distinct keys in every inner map. *)
Definition wellKeyed (g : list (Z * list (string * list Z))) : Prop :=
  NoDup (map fst g)
  /\ Forall (fun tm => NoDup (map fst (snd tm))) g.

(** Every inner key is the key of a day and a slot that are not negative. *)
Definition plainKeys (g : list (Z * list (string * list Z))) : Prop :=
  Forall (fun tm =>
            Forall (fun ki => exists d s, 0 <= d /\ 0 <= s
                                          /\ fst ki = dayTimeKey d s)
                   (snd tm)) g.

(** [staleDatabase] with a teacher row for Bob. *)
Definition staleDatabaseWithBob : DatabaseStorage.t :=
  DatabaseStorage.mk [] [Teacher.mk 2 "Bob" None None None]
    [Schedule.mk 11 1 1 1 2 1 1 None]
    [Conflict.mk 1 1 1 2 [10; 11] false []] 2 0%nat.

(** ** Vocabulary of the stores *)

(** No number occurs twice. *)
Fixpoint distinct (l : list Z) : bool :=
  match l with
  | [] => true
  | x :: r => negb (Js.includes r x) && distinct r
  end.

(** The keys of a map are distinct, positive, and below the counter that
    numbers the next entry. *)
Definition keyed {V : Type} (key : V -> Z) (next : Z) (m : list V) : bool :=
  (0 <? next)
  && distinct (map key m)
  && forallb (fun v => (0 <? key v) && (key v <? next)) m.

Definition keyedStore (e : MemStorage.env) : bool :=
  let s := MemStorage.store e in
  keyed Course.id (MemStorage.courseId s) (MemStorage.courses s)
  && keyed Teacher.id (MemStorage.teacherId s) (MemStorage.teachers s)
  && keyed Schedule.id (MemStorage.scheduleId s) (MemStorage.schedules s).

(** No schedule entry has a negative day or slot. *)
Definition plain (l : list Schedule.t) : bool :=
  forallb (fun x => (0 <=? Schedule.dayOfWeek x) && (0 <=? Schedule.timeSlot x))
          l.

(** A conflict without its suggestions. *)
Definition stripped (c : Conflict.t) : Z * (Z * Z * Z * list Z) * bool :=
  (Conflict.id c, content c, Conflict.resolved c).

(** The conflict store holds, suggestions aside, what a detection pass over
    the current schedule list creates. *)
Definition inSync (e : MemStorage.env) : Prop :=
  map stripped (MemStorage.conflicts (MemStorage.store e))
  = map stripped (detected (MemStorage.schedules (MemStorage.store e))).

(** A suggestion without its id. *)
Definition draftOf (sg : ConflictSuggestion.t) : Draft.t :=
  Draft.mk (ConflictSuggestion.description sg)
    (ConflictSuggestion.scheduleId sg) (ConflictSuggestion.action sg).

(** ** Vocabulary of the two grouping loops *)

(** The schedule ids of the schedule rows filed under each key. *)
Definition idsOf (m : list (string * list Schedule.t))
  : list (string * list Z) :=
  map (fun ks => (fst ks, map Schedule.id (snd ks))) m.

(** The inner step of [MemStorage.groupSchedule], on the map of one
    teacher. *)
Definition fileUnderKey (teacherMap : list (string * list Z))
  (schedule : Schedule.t) : list (string * list Z) :=
  let key :=
    dayTimeKey (Schedule.dayOfWeek schedule) (Schedule.timeSlot schedule) in
  let teacherMap :=
    if alHas String.eqb key teacherMap then teacherMap
    else alSet String.eqb key [] teacherMap in
  alSet String.eqb key
    (getOrEmpty String.eqb key teacherMap ++ [Schedule.id schedule])
    teacherMap.

(** The schedule ids by key that the second loop of the database pass
    builds for one teacher's schedules. *)
Definition keyedIds (l : list Schedule.t) : list (string * list Z) :=
  idsOf (fold_left DatabaseStorage.groupBySlot l []).

(* ================================================================== *)
(** * Properties *)

(** ** Lists, maps and the uuid stamping *)

Lemma mapGet_key (V : Type) (key : V -> Z) (k : Z) (m : list V) (v : V) :
  mapGet key k m = Some v -> key v = k /\ In v m.
Proof.
  unfold mapGet. intros H. apply find_some in H. destruct H as [Hin Hk].
  split; [apply Z.eqb_eq; exact Hk | exact Hin].
Qed.

Lemma mapGet_mapSet_same (V : Type) (key : V -> Z) (k : Z) (v : V)
  (m : list V) :
  key v = k -> mapGet key k (mapSet key k v m) = Some v.
Proof.
  intros Hk. unfold mapGet. induction m as [|x r IH]; simpl.
  - rewrite Hk, Z.eqb_refl. reflexivity.
  - destruct (key x =? k) eqn:E; simpl.
    + rewrite Hk, Z.eqb_refl. reflexivity.
    + rewrite E. exact IH.
Qed.

Lemma mapGet_mapSet_other (V : Type) (key : V -> Z) (k k' : Z) (v : V)
  (m : list V) :
  key v = k -> k' <> k -> mapGet key k' (mapSet key k v m) = mapGet key k' m.
Proof.
  intros Hk Hne. unfold mapGet. induction m as [|x r IH]; simpl.
  - rewrite Hk. destruct (k =? k') eqn:E; [apply Z.eqb_eq in E; congruence|].
    reflexivity.
  - destruct (key x =? k) eqn:E; simpl.
    + apply Z.eqb_eq in E. rewrite Hk, E.
      destruct (k =? k') eqn:E'; [apply Z.eqb_eq in E'; congruence|].
      reflexivity.
    + destruct (key x =? k'); [reflexivity | exact IH].
Qed.

Lemma stamp_length (n : uuid) (ds : list Draft.t) :
  List.length (stamp n ds) = List.length ds.
Proof.
  revert n. induction ds as [|d r IH]; intros n; simpl; [|rewrite IH];
    reflexivity.
Qed.

Lemma stamp_app (n : uuid) (ds ds' : list Draft.t) :
  stamp n (ds ++ ds') = stamp n ds ++ stamp (n + List.length ds)%nat ds'.
Proof.
  revert n. induction ds as [|d r IH]; intros n; simpl.
  - rewrite Nat.add_0_r. reflexivity.
  - rewrite IH. do 3 f_equal. lia.
Qed.

(** A stamped suggestion is one of the drafts, under a token of this batch. *)
Lemma stamp_In (n : uuid) (ds : list Draft.t) (sg : ConflictSuggestion.t) :
  In sg (stamp n ds) ->
  exists d, In d ds
    /\ ConflictSuggestion.description sg = Draft.description d
    /\ ConflictSuggestion.scheduleId sg = Draft.scheduleId d
    /\ ConflictSuggestion.action sg = Draft.action d
    /\ (n <= ConflictSuggestion.id sg < n + List.length ds)%nat.
Proof.
  revert n. induction ds as [|d r IH]; intros n; simpl; [tauto|].
  intros [<- | Hin].
  - exists d. simpl. repeat split; auto; lia.
  - destruct (IH _ Hin) as (d' & Hd & H1 & H2 & H3 & H4).
    exists d'. repeat split; auto; lia.
Qed.

Lemma moveTargets_stamp (n : uuid) (ds : list Draft.t) :
  moveTargets (stamp n ds) = draftMoveTargets ds.
Proof.
  revert n. induction ds as [|d r IH]; intros n; simpl; [reflexivity|].
  unfold moveTargets in IH. rewrite IH. reflexivity.
Qed.

Lemma draftMoveTargets_app (l l' : list Draft.t) :
  draftMoveTargets (l ++ l') = draftMoveTargets l ++ draftMoveTargets l'.
Proof. unfold draftMoveTargets. apply flat_map_app. Qed.

Lemma flat_map_flat_map (A B C : Type) (f : A -> list B) (g : B -> list C)
  (l : list A) :
  flat_map g (flat_map f l) = flat_map (fun a => flat_map g (f a)) l.
Proof.
  induction l as [|a r IH]; simpl; [reflexivity|].
  rewrite flat_map_app, IH. reflexivity.
Qed.

(** ** The move loop *)

(** The grid the two loops walk: day 0 to 5 outside, slot 0 to 4 inside. *)
Lemma candidateSlots_enumerated :
  candidateSlots =
  [(0,0); (0,1); (0,2); (0,3); (0,4);
   (1,0); (1,1); (1,2); (1,3); (1,4);
   (2,0); (2,1); (2,2); (2,3); (2,4);
   (3,0); (3,1); (3,2); (3,3); (3,4);
   (4,0); (4,1); (4,2); (4,3); (4,4);
   (5,0); (5,1); (5,2); (5,3); (5,4)].
Proof. reflexivity. Qed.

Lemma candidateSlots_range (d s : Z) :
  In (d, s) candidateSlots -> 0 <= d < 6 /\ 0 <= s < 5.
Proof.
  rewrite candidateSlots_enumerated. simpl.
  intros H; repeat (destruct H as [H | H]; [inversion H; lia|]); tauto.
Qed.

Lemma setHas_occupied (all : list Schedule.t) (x : Schedule.t) :
  In x all ->
  setHas (occupiedSlots all)
    (dayTimeKey (Schedule.dayOfWeek x) (Schedule.timeSlot x)) = true.
Proof.
  intros Hin. unfold setHas, occupiedSlots. apply existsb_exists.
  exists (dayTimeKey (Schedule.dayOfWeek x) (Schedule.timeSlot x)).
  split; [apply in_map_iff; exists x; auto | apply String.eqb_refl].
Qed.

(** What passing both [continue] guards means. *)
Lemma freeSlot_sound (conflict : Conflict.t) (all : list Schedule.t)
  (d s : Z) :
  freeSlot conflict (occupiedSlots all) (d, s) = true ->
  (d, s) <> (Conflict.dayOfWeek conflict, Conflict.timeSlot conflict)
  /\ forall x, In x all -> (Schedule.dayOfWeek x, Schedule.timeSlot x) <> (d, s).
Proof.
  unfold freeSlot. intros H. apply andb_true_iff in H. destruct H as [H1 H2].
  apply negb_true_iff in H1. apply negb_true_iff in H2. split.
  - intros E. inversion E; subst. rewrite !Z.eqb_refl in H1. discriminate.
  - intros x Hx E. inversion E; subst.
    rewrite (setHas_occupied all x Hx) in H2. discriminate.
Qed.

(** ** What the generators push *)

Lemma prefCovers_iff (day slot : Z) (pref : TimePreference.t) :
  prefCovers day slot pref = true <->
  TimePreference.dayOfWeek pref = day
  /\ TimePreference.startTimeSlot pref <= slot <= TimePreference.endTimeSlot pref.
Proof.
  unfold prefCovers. rewrite !andb_true_iff, Z.eqb_eq, Z.geb_le, Z.leb_le.
  tauto.
Qed.

Lemma MemStorage_draftsFor_In (s : MemStorage.t) (conflict : Conflict.t)
  (all : list Schedule.t) (teacher : option Teacher.t)
  (schedule : Schedule.t) (d : Draft.t) :
  In d (MemStorage.draftsFor s conflict all teacher schedule) ->
  (exists p, In p candidateSlots
             /\ freeSlot conflict (occupiedSlots all) p = true
             /\ d = MemStorage.moveDraft s teacher schedule p)
  \/ (exists o, In o (otherSchedules conflict all)
                /\ d = MemStorage.swapDraft s schedule o)
  \/ (exists t, In t (otherTeachers conflict (MemStorage.getTeachers s))
                /\ MemStorage.otherTeacherBusy conflict all t = false
                /\ d = MemStorage.reassignDraft s schedule t).
Proof.
  unfold MemStorage.draftsFor. intros H.
  apply in_app_or in H. destruct H as [H | H].
  - left. apply in_map_iff in H. destruct H as (p & <- & Hp).
    apply filter_In in Hp. exists p. tauto.
  - apply in_app_or in H. destruct H as [H | H]; right.
    + left. apply in_map_iff in H. destruct H as (o & <- & Ho). eauto.
    + right. apply in_map_iff in H. destruct H as (t & <- & Ht).
      apply filter_In in Ht. destruct Ht as [Ht Hb].
      apply negb_true_iff in Hb. eauto.
Qed.

Lemma MemStorage_drafts_In (s : MemStorage.t) (conflictId : Z) (d : Draft.t) :
  In d (MemStorage.drafts s conflictId) ->
  exists conflict schedule,
    MemStorage.getConflictById s conflictId = Some conflict
    /\ In schedule (MemStorage.validSchedules s conflict)
    /\ In d (MemStorage.draftsFor s conflict (MemStorage.getSchedules s)
               (MemStorage.getTeacherById s (Conflict.teacherId conflict))
               schedule).
Proof.
  unfold MemStorage.drafts.
  destruct (MemStorage.getConflictById s conflictId) as [conflict|];
    [|simpl; tauto].
  destruct (Z.of_nat (List.length (MemStorage.validSchedules s conflict)) <? 2);
    [simpl; tauto|].
  intros H. apply in_flat_map in H. destruct H as (schedule & Hs & Hd).
  exists conflict, schedule. auto.
Qed.

Lemma MemStorage_moveDraft_action (s : MemStorage.t)
  (teacher : option Teacher.t) (schedule : Schedule.t) (p : Z * Z) :
  Draft.action (MemStorage.moveDraft s teacher schedule p)
  = move (fst p) (snd p)
  /\ Draft.scheduleId (MemStorage.moveDraft s teacher schedule p)
     = Schedule.id schedule.
Proof. destruct p; split; reflexivity. Qed.

(** Filtering the suggestions of one schedule down to its moves. *)
Lemma MemStorage_draftsFor_moves (s : MemStorage.t) (conflict : Conflict.t)
  (all : list Schedule.t) (teacher : option Teacher.t)
  (schedule : Schedule.t) :
  draftMoveTargets (MemStorage.draftsFor s conflict all teacher schedule)
  = map (fun p => (Schedule.id schedule, p))
        (filter (freeSlot conflict (occupiedSlots all)) candidateSlots).
Proof.
  unfold MemStorage.draftsFor. rewrite !draftMoveTargets_app.
  assert (Hs : forall l,
             draftMoveTargets (map (MemStorage.swapDraft s schedule) l) = []).
  { induction l as [|x r IH]; simpl; auto. }
  assert (Hr : forall l,
             draftMoveTargets (map (MemStorage.reassignDraft s schedule) l)
             = []).
  { induction l as [|x r IH]; simpl; auto. }
  rewrite Hs, Hr, !app_nil_r.
  induction (filter (freeSlot conflict (occupiedSlots all)) candidateSlots)
    as [|[d sl] r IH]; [reflexivity|].
  change (draftMoveTargets
            (MemStorage.moveDraft s teacher schedule (d, sl)
             :: map (MemStorage.moveDraft s teacher schedule) r)
          = (Schedule.id schedule, (d, sl))
            :: map (fun p => (Schedule.id schedule, p)) r).
  rewrite <- IH. reflexivity.
Qed.

Lemma otherTeacherBusy_false (conflict : Conflict.t) (all : list Schedule.t)
  (t : Teacher.t) :
  MemStorage.otherTeacherBusy conflict all t = false ->
  forall x, In x all -> Schedule.teacherId x = Teacher.id t ->
    (Schedule.dayOfWeek x, Schedule.timeSlot x)
    <> (Conflict.dayOfWeek conflict, Conflict.timeSlot conflict).
Proof.
  unfold MemStorage.otherTeacherBusy. intros H x Hx Ht E. inversion E.
  assert (Hex : existsb
     (fun s => (Schedule.teacherId s =? Teacher.id t)
               && (Schedule.dayOfWeek s =? Conflict.dayOfWeek conflict)
               && (Schedule.timeSlot s =? Conflict.timeSlot conflict)) all
     = true).
  { apply existsb_exists. exists x. split; [exact Hx|].
    rewrite !andb_true_iff, !Z.eqb_eq. auto. }
  congruence.
Qed.

Lemma pushed_None (xs : list (Js.Result Draft.t)) (ds : list Draft.t) :
  DatabaseStorage.pushed xs = (ds, None) -> ds = oks xs.
Proof.
  revert ds. induction xs as [|x r IH]; simpl; intros ds H.
  - inversion H. reflexivity.
  - destruct x as [a|e]; [|discriminate].
    destruct (DatabaseStorage.pushed r) as [l err] eqn:E.
    inversion H; subst. rewrite (IH l eq_refl). reflexivity.
Qed.

Lemma oks_app (A : Type) (xs ys : list (Js.Result A)) :
  oks (xs ++ ys) = oks xs ++ oks ys.
Proof. unfold oks. apply flat_map_app. Qed.

Lemma oks_map_Ok (A B : Type) (f : A -> B) (l : list A) :
  oks (map (fun a => Js.Ok (f a)) l) = map f l.
Proof. induction l as [|a r IH]; simpl; [|rewrite <- IH]; reflexivity. Qed.

Lemma DatabaseStorage_oks_attemptsFor (d : DatabaseStorage.t)
  (conflict : Conflict.t) (all : list Schedule.t) (teacher : option Teacher.t)
  (schedule : Schedule.t) :
  oks (DatabaseStorage.attemptsFor d conflict all teacher schedule)
  = map (DatabaseStorage.moveDraft d teacher schedule)
        (filter (freeSlot conflict (occupiedSlots all)) candidateSlots).
Proof.
  unfold DatabaseStorage.attemptsFor. rewrite !oks_app, oks_map_Ok.
  assert (Hs : forall l,
             oks (map (DatabaseStorage.swapDraft d schedule) l) = []).
  { induction l as [|x r IH]; simpl; auto. }
  assert (Hr : forall l,
             oks (map (DatabaseStorage.reassignDraft d schedule) l) = []).
  { induction l as [|x r IH]; simpl; auto. }
  rewrite Hs, Hr, !app_nil_r. reflexivity.
Qed.

(** A call of the database generator that returns has pushed move objects
    only: every swap or reassign push would have thrown. *)
Lemma DatabaseStorage_generate_Ok (d d' : DatabaseStorage.t) (conflictId : Z)
  (sugs : list ConflictSuggestion.t) :
  DatabaseStorage.generateConflictSuggestions conflictId d = (Js.Ok sugs, d') ->
  sugs = stamp (DatabaseStorage.uuids d)
           (oks (DatabaseStorage.attempts d conflictId)).
Proof.
  unfold DatabaseStorage.generateConflictSuggestions.
  destruct (DatabaseStorage.pushed (DatabaseStorage.attempts d conflictId))
    as [ds [e|]] eqn:E; intros H; inversion H; subst.
  rewrite (pushed_None _ E). reflexivity.
Qed.

Lemma DatabaseStorage_oks_attempts (d : DatabaseStorage.t) (conflictId : Z) :
  oks (DatabaseStorage.attempts d conflictId)
  = match DatabaseStorage.getConflictById d conflictId with
    | None => []
    | Some conflict =>
        flat_map
          (fun schedule =>
             map (DatabaseStorage.moveDraft d
                    (DatabaseStorage.getTeacherById d
                       (Conflict.teacherId conflict)) schedule)
                 (filter (freeSlot conflict
                            (occupiedSlots (DatabaseStorage.getSchedules d)))
                    candidateSlots))
          (DatabaseStorage.validSchedules d conflict)
    end.
Proof.
  unfold DatabaseStorage.attempts.
  destruct (DatabaseStorage.getConflictById d conflictId) as [conflict|];
    [|reflexivity].
  destruct (DatabaseStorage.validSchedules d conflict) as [|x r] eqn:E;
    [reflexivity|].
  replace (Z.of_nat (List.length (x :: r)) =? 0) with false
    by (symmetry; apply Z.eqb_neq; simpl List.length; lia).
  unfold oks. rewrite flat_map_flat_map.
  apply flat_map_ext. intros schedule.
  apply DatabaseStorage_oks_attemptsFor.
Qed.

Lemma DatabaseStorage_moves_targets (d : DatabaseStorage.t)
  (teacher : option Teacher.t) (schedule : Schedule.t) (l : list (Z * Z)) :
  draftMoveTargets (map (DatabaseStorage.moveDraft d teacher schedule) l)
  = map (fun p => (Schedule.id schedule, p)) l.
Proof.
  induction l as [|[day slot] r IH]; [reflexivity|].
  change (draftMoveTargets
            (DatabaseStorage.moveDraft d teacher schedule (day, slot)
             :: map (DatabaseStorage.moveDraft d teacher schedule) r)
          = (Schedule.id schedule, (day, slot))
            :: map (fun p => (Schedule.id schedule, p)) r).
  rewrite <- IH. reflexivity.
Qed.

Lemma draftMoveTargets_flat_map (A : Type) (f : A -> list Draft.t)
  (l : list A) :
  draftMoveTargets (flat_map f l)
  = flat_map (fun a => draftMoveTargets (f a)) l.
Proof. unfold draftMoveTargets. apply flat_map_flat_map. Qed.

(** ** Suggestion families *)

(** C2.  In both storage classes, no move suggestion of
    [generateConflictSuggestions] targets the conflict's own (dayOfWeek,
    timeSlot) or a (day, slot) pair held by any schedule entry of the store,
    whatever its teacher; the move suggestions of each conflicting schedule
    are the surviving pairs of the grid day 0..5 by slot 0..4, in the order
    the grid is walked: day outside, slot inside, both ascending. *)
Theorem move_suggestions_avoid_taken_slots :
  (forall (e : MemStorage.env) (conflictId : Z) (conflict : Conflict.t),
      MemStorage.getConflictById (MemStorage.store e) conflictId
      = Some conflict ->
      let suggestions :=
        fst (MemStorage.generateConflictSuggestions conflictId e) in
      (forall sg day slot,
          In sg suggestions ->
          ConflictSuggestion.action sg = move day slot ->
          (day, slot)
          <> (Conflict.dayOfWeek conflict, Conflict.timeSlot conflict)
          /\ (forall x, In x (MemStorage.schedules (MemStorage.store e)) ->
                (Schedule.dayOfWeek x, Schedule.timeSlot x) <> (day, slot))
          /\ In (day, slot) candidateSlots)
      /\ (2 <= Z.of_nat (List.length
                  (MemStorage.validSchedules (MemStorage.store e) conflict)) ->
          moveTargets suggestions
          = flat_map
              (fun schedule =>
                 map (fun p => (Schedule.id schedule, p))
                   (filter (freeSlot conflict
                              (occupiedSlots
                                 (MemStorage.schedules (MemStorage.store e))))
                      candidateSlots))
              (MemStorage.validSchedules (MemStorage.store e) conflict)))
  /\ (forall (d d' : DatabaseStorage.t) (conflictId : Z)
        (conflict : Conflict.t) (suggestions : list ConflictSuggestion.t),
      DatabaseStorage.getConflictById d conflictId = Some conflict ->
      DatabaseStorage.generateConflictSuggestions conflictId d
      = (Js.Ok suggestions, d') ->
      (forall sg day slot,
          In sg suggestions ->
          ConflictSuggestion.action sg = move day slot ->
          (day, slot)
          <> (Conflict.dayOfWeek conflict, Conflict.timeSlot conflict)
          /\ (forall x, In x (DatabaseStorage.schedules d) ->
                (Schedule.dayOfWeek x, Schedule.timeSlot x) <> (day, slot))
          /\ In (day, slot) candidateSlots)
      /\ moveTargets suggestions
         = flat_map
             (fun schedule =>
                map (fun p => (Schedule.id schedule, p))
                  (filter (freeSlot conflict
                             (occupiedSlots (DatabaseStorage.schedules d)))
                     candidateSlots))
             (DatabaseStorage.validSchedules d conflict))
  /\ candidateSlots =
     [(0,0); (0,1); (0,2); (0,3); (0,4);
      (1,0); (1,1); (1,2); (1,3); (1,4);
      (2,0); (2,1); (2,2); (2,3); (2,4);
      (3,0); (3,1); (3,2); (3,3); (3,4);
      (4,0); (4,1); (4,2); (4,3); (4,4);
      (5,0); (5,1); (5,2); (5,3); (5,4)].
Proof.
  split; [|split; [|exact candidateSlots_enumerated]].
  - (* MemStorage *)
    intros e conflictId conflict Hc suggestions. split.
    + intros sg day slot Hin Hact.
      apply stamp_In in Hin. destruct Hin as (dr & Hdr & _ & _ & Ha & _).
      apply MemStorage_drafts_In in Hdr.
      destruct Hdr as (c' & schedule & Hc' & _ & Hd).
      rewrite Hc in Hc'. inversion Hc'; subst c'. clear Hc'.
      apply MemStorage_draftsFor_In in Hd.
      destruct Hd as [(p & Hp & Hfree & ->)
                     | [(o & _ & ->) | (t & _ & _ & ->)]].
      * destruct p as [d0 s0]. rewrite Hact in Ha. simpl in Ha.
        inversion Ha; subst d0 s0.
        destruct (freeSlot_sound _ _ _ _ Hfree) as [H1 H2].
        repeat split; assumption.
      * rewrite Hact in Ha. discriminate.
      * rewrite Hact in Ha. discriminate.
    + intros Hlen. subst suggestions.
      unfold MemStorage.generateConflictSuggestions. simpl fst.
      rewrite moveTargets_stamp. unfold MemStorage.drafts. rewrite Hc.
      replace (Z.of_nat (List.length
                 (MemStorage.validSchedules (MemStorage.store e) conflict))
               <? 2) with false by (symmetry; apply Z.ltb_ge; lia).
      rewrite draftMoveTargets_flat_map. apply flat_map_ext.
      intros schedule. apply MemStorage_draftsFor_moves.
  - (* DatabaseStorage *)
    intros d d' conflictId conflict suggestions Hc Hgen.
    apply DatabaseStorage_generate_Ok in Hgen.
    rewrite DatabaseStorage_oks_attempts, Hc in Hgen. subst suggestions.
    split.
    + intros sg day slot Hin Hact.
      apply stamp_In in Hin. destruct Hin as (dr & Hdr & _ & _ & Ha & _).
      apply in_flat_map in Hdr. destruct Hdr as (schedule & _ & Hdr).
      apply in_map_iff in Hdr. destruct Hdr as ([d0 s0] & <- & Hp).
      apply filter_In in Hp. destruct Hp as [Hp Hfree].
      rewrite Hact in Ha. simpl in Ha. inversion Ha; subst d0 s0.
      destruct (freeSlot_sound _ _ _ _ Hfree) as [H1 H2].
      repeat split; assumption.
    + rewrite moveTargets_stamp, draftMoveTargets_flat_map.
      apply flat_map_ext. intros schedule.
      apply DatabaseStorage_moves_targets.
Qed.

(** Closing a goal about a sample store by evaluation. *)
Ltac evaluate :=
  vm_compute; first [reflexivity | left; reflexivity | intuition congruence].

(** C2 at [sampleServer] and [sampleDatabase]: the first suggestion of
    conflict 1 moves a schedule to Sunday slot 0, which is neither Monday
    slot 2 nor taken. *)
Lemma move_suggestions_avoid_taken_slots_witness :
  ((0, 0) <> (1, 2)
   /\ (forall x, In x (MemStorage.schedules (MemStorage.store sampleServer)) ->
         (Schedule.dayOfWeek x, Schedule.timeSlot x) <> (0, 0))
   /\ In (0, 0) candidateSlots)
  /\ ((0, 0) <> (1, 2)
      /\ (forall x, In x (DatabaseStorage.schedules sampleDatabase) ->
            (Schedule.dayOfWeek x, Schedule.timeSlot x) <> (0, 0))
      /\ In (0, 0) candidateSlots).
Proof.
  destruct move_suggestions_avoid_taken_slots as [HM [HD _]].
  split.
  - destruct (MemStorage.getConflictById (MemStorage.store sampleServer) 1)
      as [c|] eqn:Hc; [|vm_compute in Hc; discriminate].
    assert (Hkey : (Conflict.dayOfWeek c, Conflict.timeSlot c) = (1, 2))
      by (vm_compute in Hc; inversion Hc; reflexivity).
    rewrite <- Hkey.
    refine (proj1 (HM sampleServer 1 c Hc)
              (hd noSuggestion
                 (fst (MemStorage.generateConflictSuggestions 1 sampleServer)))
              0 0 _ _); evaluate.
  - destruct (DatabaseStorage.getConflictById sampleDatabase 1)
      as [c|] eqn:Hc; [|vm_compute in Hc; discriminate].
    assert (Hkey : (Conflict.dayOfWeek c, Conflict.timeSlot c) = (1, 2))
      by (vm_compute in Hc; inversion Hc; reflexivity).
    rewrite <- Hkey.
    destruct (DatabaseStorage.generateConflictSuggestions 1 sampleDatabase)
      as [[suggestions|err] d'] eqn:Hg; [|vm_compute in Hg; discriminate].
    refine (proj1 (HD sampleDatabase d' 1 c suggestions Hc Hg)
              (hd noSuggestion suggestions)
              0 0 _ _);
      vm_compute in Hg; inversion Hg; evaluate.
Defined.

(** C3.  Every reassign suggestion of [MemStorage.generateConflictSuggestions]
    names a teacher of the store whose id differs from the conflict's
    teacherId and who has no schedule entry at the conflict's (dayOfWeek,
    timeSlot).  [DatabaseStorage.generateConflictSuggestions] has no busy
    test, but it never returns a reassign suggestion: its reassign push
    throws, so a call that returns holds none. *)
Theorem reassign_suggestions_avoid_busy_teachers :
  (forall (e : MemStorage.env) (conflictId : Z) (conflict : Conflict.t)
      (sg : ConflictSuggestion.t) (newTeacherId : Z),
      MemStorage.getConflictById (MemStorage.store e) conflictId
      = Some conflict ->
      In sg (fst (MemStorage.generateConflictSuggestions conflictId e)) ->
      ConflictSuggestion.action sg = reassign newTeacherId ->
      newTeacherId <> Conflict.teacherId conflict
      /\ (exists teacher,
             In teacher (MemStorage.teachers (MemStorage.store e))
             /\ Teacher.id teacher = newTeacherId)
      /\ (forall x, In x (MemStorage.schedules (MemStorage.store e)) ->
            Schedule.teacherId x = newTeacherId ->
            (Schedule.dayOfWeek x, Schedule.timeSlot x)
            <> (Conflict.dayOfWeek conflict, Conflict.timeSlot conflict)))
  /\ (forall (d d' : DatabaseStorage.t) (conflictId : Z)
        (suggestions : list ConflictSuggestion.t)
        (sg : ConflictSuggestion.t) (newTeacherId : Z),
      DatabaseStorage.generateConflictSuggestions conflictId d
      = (Js.Ok suggestions, d') ->
      In sg suggestions ->
      ConflictSuggestion.action sg <> reassign newTeacherId).
Proof.
  split.
  - intros e conflictId conflict sg newTeacherId Hc Hin Hact.
    apply stamp_In in Hin. destruct Hin as (dr & Hdr & _ & _ & Ha & _).
    apply MemStorage_drafts_In in Hdr.
    destruct Hdr as (c' & schedule & Hc' & _ & Hd).
    rewrite Hc in Hc'. inversion Hc'; subst c'. clear Hc'.
    apply MemStorage_draftsFor_In in Hd.
    destruct Hd as [(p & _ & _ & ->)
                   | [(o & _ & ->) | (t & Ht & Hbusy & ->)]].
    + destruct p. rewrite Hact in Ha. discriminate.
    + rewrite Hact in Ha. discriminate.
    + rewrite Hact in Ha. simpl in Ha. inversion Ha; subst newTeacherId.
      apply filter_In in Ht. destruct Ht as [Ht Hne].
      apply negb_true_iff, Z.eqb_neq in Hne.
      split; [exact Hne|]. split; [exists t; auto|].
      apply otherTeacherBusy_false. exact Hbusy.
  - intros d d' conflictId suggestions sg newTeacherId Hgen Hin Hact.
    apply DatabaseStorage_generate_Ok in Hgen.
    rewrite DatabaseStorage_oks_attempts in Hgen. subst suggestions.
    apply stamp_In in Hin. destruct Hin as (dr & Hdr & _ & _ & Ha & _).
    destruct (DatabaseStorage.getConflictById d conflictId) as [conflict|];
      [|destruct Hdr].
    apply in_flat_map in Hdr. destruct Hdr as (schedule & _ & Hdr).
    apply in_map_iff in Hdr. destruct Hdr as ([d0 s0] & <- & _).
    rewrite Hact in Ha. discriminate.
Qed.

(** C3 at [sampleServer]: suggestion 30 of conflict 1 reassigns to Bob
    (teacher 2), who is free on Monday slot 2; Cy, who is booked then, is not
    proposed.  At [sampleDatabase] the batch holds moves only. *)
Lemma reassign_suggestions_avoid_busy_teachers_witness :
  (2 <> 1
   /\ (exists teacher,
          In teacher (MemStorage.teachers (MemStorage.store sampleServer))
          /\ Teacher.id teacher = 2)
   /\ (forall x, In x (MemStorage.schedules (MemStorage.store sampleServer)) ->
         Schedule.teacherId x = 2 ->
         (Schedule.dayOfWeek x, Schedule.timeSlot x) <> (1, 2)))
  /\ ConflictSuggestion.action
       (hd noSuggestion
          (match fst (DatabaseStorage.generateConflictSuggestions 1
                        sampleDatabase) with
           | Js.Ok l => l
           | Js.Throw _ => []
           end))
     <> reassign 2.
Proof.
  destruct reassign_suggestions_avoid_busy_teachers as [HM HD].
  split.
  - destruct (MemStorage.getConflictById (MemStorage.store sampleServer) 1)
      as [c|] eqn:Hc; [|vm_compute in Hc; discriminate].
    assert (Ht : Conflict.teacherId c = 1)
      by (vm_compute in Hc; inversion Hc; reflexivity).
    assert (Hd : Conflict.dayOfWeek c = 1)
      by (vm_compute in Hc; inversion Hc; reflexivity).
    assert (Hs : Conflict.timeSlot c = 2)
      by (vm_compute in Hc; inversion Hc; reflexivity).
    pose proof (HM sampleServer 1 c
                  (nth 30%nat (fst (MemStorage.generateConflictSuggestions 1
                                  sampleServer)) noSuggestion) 2 Hc) as H.
    rewrite Ht, Hd, Hs in H. apply H.
    + vm_compute. do 30 right. left. reflexivity.
    + vm_compute. reflexivity.
  - destruct (DatabaseStorage.generateConflictSuggestions 1 sampleDatabase)
      as [[suggestions|err] d'] eqn:Hg; [|vm_compute in Hg; discriminate].
    simpl fst. refine (HD sampleDatabase d' 1 suggestions _ 2 Hg _).
    vm_compute in Hg. inversion Hg. evaluate.
Defined.

(** ** Preference matching *)

(** C9.  For a move candidate (day, slot), [preferenceMatch] is true exactly
    when the conflict's teacher has no stored time preferences (the teacher is
    missing, or has none, or an empty list), or some stored preference has
    that day and holds the slot in its inclusive range [startTimeSlot,
    endTimeSlot]; a preference whose startTimeSlot exceeds its endTimeSlot
    covers no slot.  In both storage classes every move suggestion carries the
    preference note of its own target, computed for the conflict's teacher. *)
Theorem preferenceMatch_meaning :
  (forall (teacher : option Teacher.t) (day slot : Z),
      preferenceMatch teacher day slot = true <->
      (storedPreferences teacher = []
       \/ exists pref,
            In pref (storedPreferences teacher)
            /\ TimePreference.dayOfWeek pref = day
            /\ TimePreference.startTimeSlot pref <= slot
               <= TimePreference.endTimeSlot pref))
  /\ (forall (pref : TimePreference.t) (day slot : Z),
        TimePreference.endTimeSlot pref < TimePreference.startTimeSlot pref ->
        prefCovers day slot pref = false)
  /\ (forall (e : MemStorage.env) (conflictId : Z) (conflict : Conflict.t)
        (sg : ConflictSuggestion.t) (day slot : Z),
        let s := MemStorage.store e in
        MemStorage.getConflictById s conflictId = Some conflict ->
        In sg (fst (MemStorage.generateConflictSuggestions conflictId e)) ->
        ConflictSuggestion.action sg = move day slot ->
        exists schedule,
          In schedule (MemStorage.validSchedules s conflict)
          /\ ConflictSuggestion.description sg
             = ("Move "
                ++ nameOr "Course"
                     (MemStorage.getCourseById s (Schedule.courseId schedule))
                ++ " to " ++ Js.show (Js.index MemStorage.dayNames day)
                ++ " at " ++ Js.show (Js.index MemStorage.slotNames slot)
                ++ " "
                ++ (if preferenceMatch
                         (MemStorage.getTeacherById s
                            (Conflict.teacherId conflict)) day slot
                    then "(matches teacher preference)" else ""))%string)
  /\ (forall (d d' : DatabaseStorage.t) (conflictId : Z)
        (conflict : Conflict.t) (suggestions : list ConflictSuggestion.t)
        (sg : ConflictSuggestion.t) (day slot : Z),
        DatabaseStorage.getConflictById d conflictId = Some conflict ->
        DatabaseStorage.generateConflictSuggestions conflictId d
        = (Js.Ok suggestions, d') ->
        In sg suggestions ->
        ConflictSuggestion.action sg = move day slot ->
        exists schedule,
          In schedule (DatabaseStorage.validSchedules d conflict)
          /\ ConflictSuggestion.description sg
             = ("Move "
                ++ nameOr "Course"
                     (DatabaseStorage.getCourseById d
                        (Schedule.courseId schedule))
                ++ " to " ++ Js.show (Js.index DAYS_OF_WEEK day)
                ++ " at " ++ Js.show (Js.index TIME_SLOTS slot)
                ++ " "
                ++ (if preferenceMatch
                         (DatabaseStorage.getTeacherById d
                            (Conflict.teacherId conflict)) day slot
                    then "(matches teacher preference)" else ""))%string).
Proof.
  repeat split.
  - (* true -> none stored, or one covers *)
    unfold preferenceMatch, storedPreferences.
    destruct teacher as [t|]; [|auto].
    destruct (Teacher.timePreferences t) as [[|p ps]|]; auto.
    intros H. right. apply existsb_exists in H.
    destruct H as (pref & Hin & Hcov). apply prefCovers_iff in Hcov.
    exists pref. tauto.
  - (* none stored, or one covers -> true *)
    unfold preferenceMatch, storedPreferences.
    destruct teacher as [t|]; [|auto].
    destruct (Teacher.timePreferences t) as [[|p ps]|]; auto.
    intros [H | (pref & Hin & Hcov)]; [discriminate|].
    apply existsb_exists. exists pref. split; [exact Hin|].
    apply prefCovers_iff. exact Hcov.
  - (* inverted range *)
    intros pref day slot H.
    destruct (prefCovers day slot pref) eqn:E; [|reflexivity].
    apply prefCovers_iff in E. lia.
  - (* MemStorage *)
    intros e conflictId conflict sg day slot s Hc Hin Hact.
    apply stamp_In in Hin. destruct Hin as (dr & Hdr & Hdesc & _ & Ha & _).
    apply MemStorage_drafts_In in Hdr.
    destruct Hdr as (c' & schedule & Hc' & Hvalid & Hd).
    fold s in Hc', Hvalid, Hd.
    rewrite Hc in Hc'. inversion Hc'; subst c'. clear Hc'.
    apply MemStorage_draftsFor_In in Hd.
    destruct Hd as [(p & _ & _ & ->)
                   | [(o & _ & ->) | (t & _ & _ & ->)]];
      [|rewrite Hact in Ha; discriminate|rewrite Hact in Ha; discriminate].
    destruct p as [d0 s0]. rewrite Hact in Ha. simpl in Ha.
    inversion Ha; subst d0 s0.
    exists schedule. split; [exact Hvalid|]. rewrite Hdesc. reflexivity.
  - (* DatabaseStorage *)
    intros d d' conflictId conflict suggestions sg day slot Hc Hgen Hin Hact.
    apply DatabaseStorage_generate_Ok in Hgen.
    rewrite DatabaseStorage_oks_attempts, Hc in Hgen. subst suggestions.
    apply stamp_In in Hin. destruct Hin as (dr & Hdr & Hdesc & _ & Ha & _).
    apply in_flat_map in Hdr. destruct Hdr as (schedule & Hvalid & Hdr).
    apply in_map_iff in Hdr. destruct Hdr as ([d0 s0] & <- & _).
    rewrite Hact in Ha. simpl in Ha. inversion Ha; subst d0 s0.
    exists schedule. split; [exact Hvalid|]. rewrite Hdesc. reflexivity.
Qed.

(** C9 at [sampleServer]: Ann's preference Monday 0..2 covers Monday slot 2,
    her inverted preference (Wednesday 4..1) covers nothing, and suggestion 5
    of conflict 1, a move to Monday slot 0, carries the note. *)
Lemma preferenceMatch_meaning_witness :
  preferenceMatch
    (MemStorage.getTeacherById (MemStorage.store sampleServer) 1) 1 2 = true
  /\ prefCovers 3 2 (TimePreference.mk 3 4 1) = false
  /\ (exists schedule,
         In schedule
            (MemStorage.validSchedules (MemStorage.store sampleServer)
               sampleConflict)
         /\ ConflictSuggestion.description
              (nth 5%nat
                 (fst (MemStorage.generateConflictSuggestions 1 sampleServer))
                 noSuggestion)
            = "Move Course to Monday at 6:30-7:20 AM (matches teacher preference)"%string).
Proof.
  destruct preferenceMatch_meaning as (Hiff & Hinv & HM & _).
  split; [|split].
  - apply Hiff. right. exists (TimePreference.mk 1 0 2).
    split; [vm_compute; left; reflexivity | simpl; lia].
  - apply Hinv. simpl. lia.
  - destruct (MemStorage.getConflictById (MemStorage.store sampleServer) 1)
      as [c|] eqn:Hc; [|vm_compute in Hc; discriminate].
    destruct (HM sampleServer 1 c
                (nth 5%nat
                   (fst (MemStorage.generateConflictSuggestions 1
                           sampleServer)) noSuggestion) 1 0 Hc)
      as (schedule & Hin & Hdesc).
    + vm_compute. do 5 right. left. reflexivity.
    + vm_compute. reflexivity.
    + exists schedule. split.
      * vm_compute in Hc. inversion Hc; subst c. exact Hin.
      * rewrite Hdesc. vm_compute in Hc. inversion Hc; subst c.
        vm_compute in Hin.
        destruct Hin as [<- | [<- | []]]; vm_compute; reflexivity.
Defined.

(** ** The generator and the store *)

(** C10.  [MemStorage.generateConflictSuggestions] writes nothing: schedules,
    teachers, courses and the conflict store (with every stored suggestion
    list and resolved flag) are the same after the call, no chain is started
    and no detection pass runs.  The suggestions endpoint returns the fresh
    batch and leaves the store as it was, so no suggestion it returns, and no
    id of one, is in the stored suggestions of that conflict. *)
Theorem generateConflictSuggestions_writes_nothing :
  (forall (e : MemStorage.env) (conflictId : Z),
      let e' := snd (MemStorage.generateConflictSuggestions conflictId e) in
      MemStorage.store e' = MemStorage.store e
      /\ MemStorage.jobs e' = MemStorage.jobs e
      /\ MemStorage.passes e' = MemStorage.passes e)
  /\ (forall (e : MemStorage.env) (id : Z),
        MemStorage.store (snd (Routes.conflictSuggestions id e))
        = MemStorage.store e)
  /\ (forall (e : MemStorage.env) (id : Z)
        (suggestions : list ConflictSuggestion.t) (conflict : Conflict.t)
        (sg : ConflictSuggestion.t),
        uuidsIssued e = true ->
        Routes.body (fst (Routes.conflictSuggestions id e))
        = Routes.SuggestionList suggestions ->
        MemStorage.getConflictById
          (MemStorage.store (snd (Routes.conflictSuggestions id e))) id
        = Some conflict ->
        In sg suggestions ->
        ~ In (ConflictSuggestion.id sg)
             (map ConflictSuggestion.id (Conflict.suggestions conflict))
        /\ ~ In sg (Conflict.suggestions conflict)).
Proof.
  assert (Hroute : forall e id,
             MemStorage.store (snd (Routes.conflictSuggestions id e))
             = MemStorage.store e).
  { intros e id. unfold Routes.conflictSuggestions, bind, gets, ret.
    destruct (MemStorage.getConflictById (MemStorage.store e) id);
      reflexivity. }
  split; [|split].
  - intros e conflictId. simpl. auto.
  - exact Hroute.
  - intros e id suggestions conflict sg Hissued Hbody Hc Hin.
    rewrite Hroute in Hc.
    unfold Routes.conflictSuggestions, bind, gets, ret in Hbody.
    rewrite Hc in Hbody. simpl in Hbody. inversion Hbody; subst suggestions.
    apply stamp_In in Hin. destruct Hin as (_ & _ & _ & _ & _ & Hid).
    assert (Hold : forall old, In old (Conflict.suggestions conflict) ->
                     (ConflictSuggestion.id old < MemStorage.uuids e)%nat).
    { intros old Hold. apply mapGet_key in Hc. destruct Hc as [_ Hc].
      unfold uuidsIssued in Hissued.
      rewrite forallb_forall in Hissued. specialize (Hissued _ Hc).
      rewrite forallb_forall in Hissued. specialize (Hissued _ Hold).
      apply Nat.ltb_lt. exact Hissued. }
    split.
    + intros H. apply in_map_iff in H. destruct H as (old & Heq & Hold').
      specialize (Hold _ Hold'). lia.
    + intros H. specialize (Hold _ H). lia.
Qed.

(** C10 at [sampleServer]: the batch the endpoint returns for conflict 1
    starts with a token that conflict 1 does not hold. *)
Lemma generateConflictSuggestions_writes_nothing_witness :
  ~ In (ConflictSuggestion.id
          (hd noSuggestion
             (fst (MemStorage.generateConflictSuggestions 1 sampleServer))))
       (map ConflictSuggestion.id
          (Conflict.suggestions
             (hd sampleConflict
                (MemStorage.conflicts (MemStorage.store sampleServer))))).
Proof.
  destruct generateConflictSuggestions_writes_nothing as (_ & Hroute & Hfresh).
  refine (proj1 (Hfresh sampleServer 1
                   (fst (MemStorage.generateConflictSuggestions 1
                           sampleServer))
                   _ _ _ _ _ _)).
  - vm_compute. reflexivity.
  - vm_compute. reflexivity.
  - rewrite Hroute. vm_compute. reflexivity.
  - vm_compute. left. reflexivity.
Defined.

(** ** Stale conflicts *)

Lemma validSchedules_resolving (s : MemStorage.t) (conflict : Conflict.t) :
  List.length (MemStorage.validSchedules s conflict)
  = List.length (resolvingIds (MemStorage.schedules s) conflict).
Proof.
  unfold MemStorage.validSchedules, resolvingIds.
  induction (Conflict.conflictingScheduleIds conflict) as [|id r IH];
    simpl; [reflexivity|].
  destruct (mapGet Schedule.id id (MemStorage.schedules s)); simpl;
    rewrite IH; reflexivity.
Qed.

(** [MemStorage.generateConflictSuggestions] answers a missing conflict, and
    a conflict fewer than two of whose ids still resolve, with the empty list,
    and changes nothing. *)
Lemma MemStorage_generate_stale (e : MemStorage.env) (conflictId : Z) :
  (MemStorage.getConflictById (MemStorage.store e) conflictId = None
   \/ exists conflict,
        MemStorage.getConflictById (MemStorage.store e) conflictId
        = Some conflict
        /\ (List.length
              (resolvingIds (MemStorage.schedules (MemStorage.store e))
                 conflict) < 2)%nat) ->
  MemStorage.generateConflictSuggestions conflictId e = ([], e).
Proof.
  intros H.
  assert (Hd : MemStorage.drafts (MemStorage.store e) conflictId = []).
  { unfold MemStorage.drafts. destruct H as [-> | (conflict & -> & Hlen)];
      [reflexivity|].
    rewrite <- validSchedules_resolving in Hlen.
    replace (Z.of_nat (List.length
               (MemStorage.validSchedules (MemStorage.store e) conflict))
             <? 2) with true by (symmetry; apply Z.ltb_lt; lia).
    reflexivity. }
  unfold MemStorage.generateConflictSuggestions. rewrite Hd. simpl.
  rewrite Nat.add_0_r. destruct e; reflexivity.
Qed.

(** C4, at the failing inputs.  In [staleDatabase] one of the two ids of
    conflict 1 resolves; [DatabaseStorage.generateConflictSuggestions] tests
    for no resolving schedule at all and goes on to return 29 move
    suggestions for the one that is left.  With one more teacher in the
    store the same call does not return a list at all: it rejects at its
    reassign push. *)
Theorem DatabaseStorage_suggests_for_one_resolving_id :
  DatabaseStorage.getConflictById staleDatabase 1
  = Some (Conflict.mk 1 1 1 2 [10; 11] false [])
  /\ resolvingIds (DatabaseStorage.schedules staleDatabase)
       (Conflict.mk 1 1 1 2 [10; 11] false []) = [11]
  /\ (exists suggestions,
         fst (DatabaseStorage.generateConflictSuggestions 1 staleDatabase)
         = Js.Ok suggestions
         /\ List.length suggestions = 29%nat
         /\ moveTargets (firstn 2 suggestions)
            = [(11, (0, 0)); (11, (0, 1))])
  /\ fst (DatabaseStorage.generateConflictSuggestions 1 staleDatabaseWithBob)
     = Js.Throw (Js.ReferenceError "course").
Proof.
  split; [reflexivity|]. split; [reflexivity|]. split.
  - eexists. split; [vm_compute; reflexivity|]. split; reflexivity.
  - vm_compute. reflexivity.
Qed.

(** ** One pass of MemStorage.detectConflicts *)

Lemma mapSet_fresh (V : Type) (key : V -> Z) (k : Z) (v : V) (m : list V) :
  (forall x, In x m -> key x <> k) -> mapSet key k v m = m ++ [v].
Proof.
  induction m as [|x r IH]; simpl; intros H; [reflexivity|].
  destruct (key x =? k) eqn:E.
  - apply Z.eqb_eq in E. exfalso. apply (H x); auto.
  - rewrite IH; [reflexivity|]. intros y Hy. apply H. auto.
Qed.

Lemma numbered_length (n : Z) (cs : list Conflict.t) :
  List.length (numbered n cs) = List.length cs.
Proof.
  revert n. induction cs as [|c r IH]; intros n; simpl; [|rewrite IH];
    reflexivity.
Qed.

Lemma numbered_ids (n : Z) (cs : list Conflict.t) (c : Conflict.t) :
  In c (numbered n cs) -> n <= Conflict.id c < n + Z.of_nat (List.length cs).
Proof.
  revert n. induction cs as [|x r IH]; intros n; simpl; [tauto|].
  intros [<- | H]; simpl; [lia|]. specialize (IH _ H). lia.
Qed.

Lemma numbered_content (n : Z) (cs : list Conflict.t) :
  map content (numbered n cs) = map content cs.
Proof.
  revert n. induction cs as [|c r IH]; intros n; simpl; [|rewrite IH];
    reflexivity.
Qed.

Lemma numbered_fields (n : Z) (cs : list Conflict.t) (c : Conflict.t) :
  In c (numbered n cs) ->
  exists c0, In c0 cs /\ content c = content c0
             /\ Conflict.resolved c = Conflict.resolved c0
             /\ Conflict.suggestions c = Conflict.suggestions c0.
Proof.
  revert n. induction cs as [|x r IH]; intros n; simpl; [tauto|].
  intros [<- | H].
  - exists x. auto.
  - destruct (IH _ H) as (c0 & Hin & Hrest). exists c0. auto.
Qed.

(** The inner [forEach] over the colliding groups, in closed form: the new
    conflicts take consecutive ids, are appended to the store, and one chain
    per conflict is left running. *)
Lemma emitConflicts_spec (cs acc : list Conflict.t) (e : MemStorage.env) :
  (forall c, In c (MemStorage.conflicts (MemStorage.store e)) ->
             Conflict.id c < MemStorage.conflictId (MemStorage.store e)) ->
  MemStorage.emitConflicts acc cs e
  = (acc ++ numbered (MemStorage.conflictId (MemStorage.store e)) cs,
     MemStorage.Env
       (MemStorage.setConflictId
          (MemStorage.conflictId (MemStorage.store e)
           + Z.of_nat (List.length cs))
          (MemStorage.setConflicts
             (MemStorage.conflicts (MemStorage.store e)
              ++ numbered (MemStorage.conflictId (MemStorage.store e)) cs)
             (MemStorage.store e)))
       (MemStorage.jobs e
        ++ map Conflict.id
             (numbered (MemStorage.conflictId (MemStorage.store e)) cs))
       (MemStorage.uuids e) (MemStorage.passes e)).
Proof.
  revert acc e. induction cs as [|c r IH]; intros acc e Hlt.
  - simpl. unfold ret. rewrite !app_nil_r, Z.add_0_r.
    destruct e as [[? ? ? ? ? ? ? ?] ? ? ?]; reflexivity.
  - destruct e as [[cs0 ts0 ss0 cfs ci ti si cid] js us ps].
    simpl in Hlt.
    simpl MemStorage.emitConflicts.
    unfold bind at 1. unfold MemStorage.emitConflict, bind,
      MemStorage.createConflict, modify, ret, MemStorage.withStore.
    cbn [MemStorage.store MemStorage.jobs MemStorage.uuids MemStorage.passes
         MemStorage.conflictId MemStorage.conflicts MemStorage.setConflicts
         MemStorage.setConflictId MemStorage.courses MemStorage.teachers
         MemStorage.schedules MemStorage.courseId MemStorage.teacherId
         MemStorage.scheduleId Conflict.id].
    rewrite mapSet_fresh
      by (intros x Hx; specialize (Hlt x Hx); lia).
    rewrite IH.
    + cbn [MemStorage.store MemStorage.jobs MemStorage.uuids
           MemStorage.passes MemStorage.conflictId MemStorage.conflicts
           MemStorage.setConflicts MemStorage.setConflictId
           MemStorage.courses MemStorage.teachers MemStorage.schedules
           MemStorage.courseId MemStorage.teacherId MemStorage.scheduleId].
      simpl numbered. simpl map. simpl List.length.
      rewrite <- !app_assoc. simpl app.
      replace (cid + Z.of_nat (S (List.length r)))
        with (cid + 1 + Z.of_nat (List.length r)) by lia.
      reflexivity.
    + unfold MemStorage.setConflicts, MemStorage.setConflictId. simpl.
      intros x Hx. apply in_app_or in Hx. destruct Hx as [Hx | [<- | []]].
      * specialize (Hlt x Hx). lia.
      * simpl. lia.
Qed.

(** [MemStorage.detectConflicts] in closed form: whatever the conflict store
    held is dropped, the store then holds exactly the conflicts the pass
    created (numbered from 1, without suggestions), the caller gets the same
    list, and the chains that will attach suggestions are only started. *)
Lemma MemStorage_detectConflicts_spec (e : MemStorage.env) :
  let s := MemStorage.store e in
  let found := detected (MemStorage.schedules s) in
  MemStorage.detectConflicts e
  = (found,
     MemStorage.Env
       (MemStorage.mk (MemStorage.courses s) (MemStorage.teachers s)
          (MemStorage.schedules s) found (MemStorage.courseId s)
          (MemStorage.teacherId s) (MemStorage.scheduleId s)
          (1 + Z.of_nat (List.length found)))
       (MemStorage.jobs e ++ map Conflict.id found)
       (MemStorage.uuids e)
       (MemStorage.passes e ++ [MemStorage.schedules s])).
Proof.
  intros s found. unfold MemStorage.detectConflicts, bind, modify, gets.
  rewrite emitConflicts_spec by (simpl; tauto).
  subst found s. unfold detected. rewrite numbered_length.
  destruct e as [[? ? ? ? ? ? ? ?] ? ? ?]. reflexivity.
Qed.

Lemma collisions_fresh (g : list (Z * list (string * list Z)))
  (c : Conflict.t) :
  In c (MemStorage.collisions g) ->
  Conflict.resolved c = false /\ Conflict.suggestions c = [].
Proof.
  unfold MemStorage.collisions. intros H.
  apply in_flat_map in H. destruct H as (tm & _ & H).
  apply in_flat_map in H. destruct H as (ki & _ & H).
  destruct (1 <? Z.of_nat (List.length (snd ki))); [|destruct H].
  destruct H as [<- | []]. unfold MemStorage.newConflictFor.
  destruct (parseDayTime (fst ki)). auto.
Qed.

(** Every conflict a pass creates is unresolved and has no suggestions. *)
Lemma detected_fresh (schedules : list Schedule.t) (c : Conflict.t) :
  In c (detected schedules) ->
  Conflict.resolved c = false /\ Conflict.suggestions c = [].
Proof.
  unfold detected. intros H. apply numbered_fields in H.
  destruct H as (c0 & Hin & _ & -> & ->).
  apply (collisions_fresh _ _ Hin).
Qed.

(** The store side of C6 for [MemStorage]: a pass replaces the conflict
    store by what it created, whatever was there, and a second pass over the
    same schedules creates the same conflicts again. *)
Lemma MemStorage_detectConflicts_replaces (e : MemStorage.env) :
  let (emitted, e1) := MemStorage.detectConflicts e in
  let (emitted', e2) := MemStorage.detectConflicts e1 in
  MemStorage.conflicts (MemStorage.store e1) = emitted
  /\ emitted = detected (MemStorage.schedules (MemStorage.store e))
  /\ emitted' = emitted
  /\ MemStorage.conflicts (MemStorage.store e2) = emitted
  /\ MemStorage.schedules (MemStorage.store e2)
     = MemStorage.schedules (MemStorage.store e).
Proof.
  rewrite (MemStorage_detectConflicts_spec e). cbv zeta.
  rewrite MemStorage_detectConflicts_spec. cbv zeta. simpl. auto.
Qed.

(** When [MemStorage.detectConflicts] hands its result to the caller, every
    conflict it created is in the store without suggestions, and the chain
    that is to attach them is still pending. *)
Lemma MemStorage_detectConflicts_leaves_jobs (e : MemStorage.env) :
  let (emitted, e1) := MemStorage.detectConflicts e in
  MemStorage.conflicts (MemStorage.store e1) = emitted
  /\ forall c, In c emitted ->
       Conflict.suggestions c = [] /\ In (Conflict.id c) (MemStorage.jobs e1).
Proof.
  rewrite MemStorage_detectConflicts_spec. cbv zeta. simpl.
  split; [reflexivity|]. intros c Hc. split.
  - apply (detected_fresh _ _ Hc).
  - apply in_or_app. right. apply in_map. exact Hc.
Qed.

(** C7, at the failing input.  A detection pass over [sampleServer] returns
    the conflict of Ann's two Monday bookings; at that moment the stored
    conflict has no suggestions although the generator has 62 for it, and the
    chain that will attach them is still in [jobs]; they are in the store
    only after the chain has run. *)
Theorem MemStorage_detectConflicts_returns_before_suggestions :
  let (emitted, e1) := MemStorage.detectConflicts sampleServer in
  map content emitted = [(1, 1, 2, [1; 2])]
  /\ MemStorage.conflicts (MemStorage.store e1) = emitted
  /\ map Conflict.suggestions (MemStorage.conflicts (MemStorage.store e1))
     = [[]]
  /\ List.length (fst (MemStorage.generateConflictSuggestions 1 e1)) = 62%nat
  /\ MemStorage.jobs e1 = [1]
  /\ map (fun c => List.length (Conflict.suggestions c))
       (MemStorage.conflicts (MemStorage.store (snd (MemStorage.settle e1))))
     = [62%nat].
Proof. vm_compute. repeat split; reflexivity. Qed.

(** The sibling awaits every step: over the same two schedules, with no
    teacher rows, [DatabaseStorage.detectConflicts] returns with the new
    row's suggestions stored. *)
Lemma DatabaseStorage_detectConflicts_attaches :
  let d := DatabaseStorage.mk [] []
             (DatabaseStorage.schedules sampleDatabase) [] 1 0%nat in
  let (emitted, d1) := DatabaseStorage.detectConflicts d in
  (exists c, emitted = Js.Ok [c] /\ content c = (1, 1, 2, [10; 11]))
  /\ map (fun c => List.length (Conflict.suggestions c))
       (DatabaseStorage.conflicts d1) = [58%nat].
Proof. vm_compute. split; [eexists; split; reflexivity | reflexivity]. Qed.

(** C6, at the failing input.  [agedDatabase] holds one old, resolved
    conflict row.  A pass of [DatabaseStorage.detectConflicts] adds the row
    for Ann's collision and keeps the old one; a second pass right after it,
    with the schedules untouched, returns nothing. *)
Theorem DatabaseStorage_detectConflicts_keeps_old_rows :
  let (first, d1) := DatabaseStorage.detectConflicts agedDatabase in
  let (second, d2) := DatabaseStorage.detectConflicts d1 in
  (exists c, first = Js.Ok [c] /\ content c = (1, 1, 2, [10; 11]))
  /\ map (fun c => (Conflict.id c, content c, Conflict.resolved c))
       (DatabaseStorage.conflicts d1)
     = [(1, (7, 0, 0, [3; 4]), true); (2, (1, 1, 2, [10; 11]), false)]
  /\ DatabaseStorage.schedules d1 = DatabaseStorage.schedules agedDatabase
  /\ second = Js.Ok []
  /\ DatabaseStorage.conflicts d2 = DatabaseStorage.conflicts d1.
Proof.
  vm_compute. split; [eexists; split; reflexivity|].
  repeat split; reflexivity.
Qed.

(** C1, at the failing inputs.  In [driftedDatabase] Ann has exactly two
    entries on Monday slot 2, schedules 11 and 12; the pass finds a row for
    that teacher, day and slot, creates nothing and returns nothing, and the
    only stored conflict still names 10 and 11.  In [freshDatabase], where no
    row exists yet, the pass inserts the conflict and then rejects with
    ReferenceError, because a second teacher makes the generator reach its
    reassign push. *)
Theorem DatabaseStorage_detectConflicts_misses_collision :
  (let (emitted, d1) := DatabaseStorage.detectConflicts driftedDatabase in
   map content
     (MemStorage.collisions
        (fold_left MemStorage.groupSchedule
           (DatabaseStorage.schedules driftedDatabase) []))
   = [(1, 1, 2, [11; 12])]
   /\ emitted = Js.Ok []
   /\ map content (DatabaseStorage.conflicts d1) = [(1, 1, 2, [10; 11])])
  /\ (let (emitted, d1) := DatabaseStorage.detectConflicts freshDatabase in
      emitted = Js.Throw (Js.ReferenceError "course")
      /\ map content (DatabaseStorage.conflicts d1) = [(1, 1, 2, [10; 11])]).
Proof. vm_compute. repeat split; reflexivity. Qed.

(** ** The resolve route *)

Lemma detectConflicts_afterDetect (e : MemStorage.env) :
  MemStorage.detectConflicts e
  = (detected (MemStorage.schedules (MemStorage.store e)), afterDetect e).
Proof. apply MemStorage_detectConflicts_spec. Qed.

Lemma updateSchedule_absent (e : MemStorage.env) (id : Z)
  (p : SchedulePatch.t) :
  mapGet Schedule.id id (MemStorage.schedules (MemStorage.store e)) = None ->
  MemStorage.updateSchedule id p e = (None, e).
Proof.
  intros H. unfold MemStorage.updateSchedule, bind, gets. rewrite H.
  reflexivity.
Qed.

Lemma updateSchedule_present (e : MemStorage.env) (id : Z)
  (p : SchedulePatch.t) (x : Schedule.t) :
  mapGet Schedule.id id (MemStorage.schedules (MemStorage.store e)) = Some x ->
  MemStorage.updateSchedule id p e
  = (Some (MemStorage.patchSchedule x p),
     afterDetect
       (MemStorage.withStore
          (fun s => MemStorage.setSchedules
                      (mapSet Schedule.id id (MemStorage.patchSchedule x p)
                         (MemStorage.schedules s)) s) e)).
Proof.
  intros H. unfold MemStorage.updateSchedule, bind, gets, modify, ret.
  rewrite H. rewrite detectConflicts_afterDetect. reflexivity.
Qed.

Lemma afterDetect_schedules (e : MemStorage.env) :
  MemStorage.schedules (MemStorage.store (afterDetect e))
  = MemStorage.schedules (MemStorage.store e).
Proof. reflexivity. Qed.

Lemma afterDetect_passes (e : MemStorage.env) :
  MemStorage.passes (afterDetect e)
  = MemStorage.passes e ++ [MemStorage.schedules (MemStorage.store e)].
Proof. reflexivity. Qed.

Lemma afterDetect_conflicts (e : MemStorage.env) :
  MemStorage.conflicts (MemStorage.store (afterDetect e))
  = detected (MemStorage.schedules (MemStorage.store e)).
Proof. reflexivity. Qed.

Lemma updateConflict_frame (e : MemStorage.env) (id : Z)
  (p : ConflictPatch.t) :
  let e' := snd (MemStorage.updateConflict id p e) in
  MemStorage.schedules (MemStorage.store e')
  = MemStorage.schedules (MemStorage.store e)
  /\ MemStorage.passes e' = MemStorage.passes e.
Proof.
  unfold MemStorage.updateConflict.
  destruct (mapGet Conflict.id id (MemStorage.conflicts (MemStorage.store e)));
    simpl; auto.
Qed.

(** The tail every successful resolve runs after the suggestion is applied:
    mark the conflict resolved, then detect. *)
Lemma resolve_tail (e : MemStorage.env) (id : Z) :
  let e' :=
    snd (MemStorage.detectConflicts
           (snd (MemStorage.updateConflict id
                   (ConflictPatch.mk (Some true) None) e))) in
  MemStorage.schedules (MemStorage.store e')
  = MemStorage.schedules (MemStorage.store e)
  /\ MemStorage.conflicts (MemStorage.store e')
     = detected (MemStorage.schedules (MemStorage.store e))
  /\ MemStorage.passes e'
     = MemStorage.passes e ++ [MemStorage.schedules (MemStorage.store e)].
Proof.
  cbv zeta. rewrite detectConflicts_afterDetect. simpl snd.
  destruct (updateConflict_frame e id (ConflictPatch.mk (Some true) None))
    as [Hs Hp].
  rewrite afterDetect_schedules, afterDetect_conflicts, afterDetect_passes.
  rewrite Hs, Hp. auto.
Qed.

Lemma resolve_chosen (e : MemStorage.env) (id : Z) (sid : uuid)
  (sg : ConflictSuggestion.t) :
  chosen e id sid = Some sg ->
  Routes.resolveConflict id (Some sid) e
  = match Routes.applySuggestion sg e with
    | (Some response, e1) => (response, e1)
    | (None, e1) =>
        (Routes.respond 200 Routes.ResolvedSuccessfully,
         snd (MemStorage.detectConflicts
                (snd (MemStorage.updateConflict id
                        (ConflictPatch.mk (Some true) None) e1))))
    end.
Proof.
  unfold chosen, Routes.resolveConflict, bind, gets, ret.
  destruct (MemStorage.getConflictById (MemStorage.store e) id) as [c|];
    [|discriminate].
  intros ->.
  destruct (Routes.applySuggestion sg e) as [[response|] e1]; [reflexivity|].
  destruct (MemStorage.updateConflict id (ConflictPatch.mk (Some true) None)
              e1) as [u e2].
  simpl snd.
  destruct (MemStorage.detectConflicts e2) as [found e3]. reflexivity.
Qed.

Lemma resolve_not_chosen (e : MemStorage.env) (id : Z) (sid : uuid) :
  chosen e id sid = None ->
  Routes.status (fst (Routes.resolveConflict id (Some sid) e)) = 404
  /\ snd (Routes.resolveConflict id (Some sid) e) = e.
Proof.
  unfold chosen, Routes.resolveConflict, bind, gets, ret.
  destruct (MemStorage.getConflictById (MemStorage.store e) id) as [c|];
    [|auto].
  intros ->. auto.
Qed.

(** The early returns of the swap branch leave the store alone. *)
Lemma applySuggestion_early (e : MemStorage.env) (sg : ConflictSuggestion.t)
  (code : Z) :
  swapWithout e sg = Some code ->
  exists body,
    Routes.applySuggestion sg e = (Some (Routes.respond code body), e).
Proof.
  unfold swapWithout, Routes.applySuggestion, scheduled.
  destruct (ConflictSuggestion.action sg) as [d s|o|t]; try discriminate.
  destruct (Routes.swapTarget o) as [w|].
  - unfold bind, gets, ret, MemStorage.getSchedules.
    fold (mapGet Schedule.id (ConflictSuggestion.scheduleId sg)
            (MemStorage.schedules (MemStorage.store e))).
    fold (mapGet Schedule.id w (MemStorage.schedules (MemStorage.store e))).
    destruct (mapGet Schedule.id (ConflictSuggestion.scheduleId sg)
                (MemStorage.schedules (MemStorage.store e)));
      destruct (mapGet Schedule.id w
                  (MemStorage.schedules (MemStorage.store e)));
      simpl; intros H; inversion H; eauto.
  - intros H. inversion H. unfold ret. eauto.
Qed.

(** Otherwise the suggestion is applied and the route goes on. *)
Lemma applySuggestion_applied (e : MemStorage.env)
  (sg : ConflictSuggestion.t) :
  swapWithout e sg = None -> fst (Routes.applySuggestion sg e) = None.
Proof.
  unfold swapWithout, Routes.applySuggestion, scheduled.
  destruct (ConflictSuggestion.action sg) as [d s|o|t].
  - intros _. unfold bind, ret.
    destruct (MemStorage.updateSchedule _ _ e). reflexivity.
  - destruct (Routes.swapTarget o) as [w|]; [|discriminate].
    unfold bind, gets, ret, MemStorage.getSchedules.
    fold (mapGet Schedule.id (ConflictSuggestion.scheduleId sg)
            (MemStorage.schedules (MemStorage.store e))).
    fold (mapGet Schedule.id w (MemStorage.schedules (MemStorage.store e))).
    destruct (mapGet Schedule.id (ConflictSuggestion.scheduleId sg)
                (MemStorage.schedules (MemStorage.store e)));
      destruct (mapGet Schedule.id w
                  (MemStorage.schedules (MemStorage.store e)));
      simpl; try discriminate.
    intros _.
    destruct (MemStorage.updateSchedule _ _ e) as [u1 e1].
    destruct (MemStorage.updateSchedule _ _ e1) as [u2 e2]. reflexivity.
  - intros _. unfold bind, ret.
    destruct (MemStorage.updateSchedule _ _ e). reflexivity.
Qed.

Lemma swapWithout_codes (e : MemStorage.env) (sg : ConflictSuggestion.t)
  (code : Z) :
  swapWithout e sg = Some code -> code = 400 \/ code = 404.
Proof.
  unfold swapWithout.
  destruct (ConflictSuggestion.action sg) as [d s|o|t]; try discriminate.
  destruct (Routes.swapTarget o) as [w|].
  - destruct (scheduled e (ConflictSuggestion.scheduleId sg) && scheduled e w);
      intros H; inversion H; auto.
  - intros H; inversion H; auto.
Qed.

Lemma chosen_Some_inv (e : MemStorage.env) (id : Z) (sid : uuid)
  (sg : ConflictSuggestion.t) :
  chosen e id sid = Some sg ->
  exists conflict,
    MemStorage.getConflictById (MemStorage.store e) id = Some conflict
    /\ In sg (Conflict.suggestions conflict)
    /\ ConflictSuggestion.id sg = sid.
Proof.
  unfold chosen.
  destruct (MemStorage.getConflictById (MemStorage.store e) id) as [c|];
    [|discriminate].
  intros H. apply find_some in H. destruct H as [Hin Hid].
  apply Nat.eqb_eq in Hid. eauto.
Qed.

Lemma chosen_None_inv (e : MemStorage.env) (id : Z) (sid : uuid) :
  chosen e id sid = None ->
  MemStorage.getConflictById (MemStorage.store e) id = None
  \/ exists conflict,
       MemStorage.getConflictById (MemStorage.store e) id = Some conflict
       /\ ~ In sid (map ConflictSuggestion.id (Conflict.suggestions conflict)).
Proof.
  unfold chosen.
  destruct (MemStorage.getConflictById (MemStorage.store e) id) as [c|];
    [|auto].
  intros H. right. exists c. split; [reflexivity|].
  intros Hin. apply in_map_iff in Hin. destruct Hin as (sg & Hid & Hsg).
  pose proof (find_none _ _ H sg Hsg) as Hn. simpl in Hn.
  apply Nat.eqb_neq in Hn. contradiction.
Qed.

(** What an applied move or reassign leaves in the schedule it names, when
    that schedule is in the store. *)
Lemma applySuggestion_target (e : MemStorage.env) (sg : ConflictSuggestion.t) :
  targetGone e sg = false ->
  let l := MemStorage.schedules
             (MemStorage.store (snd (Routes.applySuggestion sg e))) in
  match ConflictSuggestion.action sg with
  | move d s => slotOf (ConflictSuggestion.scheduleId sg) l = Some (d, s)
  | reassign t =>
      option_map Schedule.teacherId
        (mapGet Schedule.id (ConflictSuggestion.scheduleId sg) l) = Some t
  | swap _ => True
  end.
Proof.
  unfold targetGone, scheduled, Routes.applySuggestion.
  destruct (ConflictSuggestion.action sg) as [d s|o|t]; [| exact (fun _ => I) |];
    (destruct (mapGet Schedule.id (ConflictSuggestion.scheduleId sg)
                 (MemStorage.schedules (MemStorage.store e)))
       as [x|] eqn:Hx; [|discriminate]);
    intros _; unfold bind, ret;
    rewrite (updateSchedule_present _ _ _ Hx); simpl snd;
    rewrite afterDetect_schedules; unfold slotOf;
    destruct e as [[? ? ? ? ? ? ? ?] ? ? ?]; simpl;
    (rewrite mapGet_mapSet_same;
     [reflexivity | simpl; apply (mapGet_key _ _ _ Hx)]).
Qed.

(** C8, as the code has it.  The resolve route answers 400 exactly when the
    request carries no suggestionId, or the chosen suggestion is a swap
    without swapWithScheduleId; it answers 404 exactly when the request
    carries a suggestionId and the conflict id is absent, or the suggestion
    id is not among the stored suggestions of that conflict, or the chosen
    suggestion is a swap with a swapWithScheduleId one of whose two schedules
    is absent.  No teacher id is looked up.  Every answer other than
    200 leaves the whole state as it was.  On 200 the suggestion has been
    applied (the moved schedule sits in its new slot, the reassigned schedule
    has its new teacher), resolved = true has been written and the detector
    has run last, so the conflict store is what that pass created.  Requests
    whose chosen move or reassign suggestion names a missing schedule are not
    covered. *)
Theorem resolveConflict_outcomes (e : MemStorage.env) (id : Z)
  (suggestionId : option uuid) :
  (forall sid sg, suggestionId = Some sid -> chosen e id sid = Some sg ->
                  targetGone e sg = false) ->
  let response := fst (Routes.resolveConflict id suggestionId e) in
  let e' := snd (Routes.resolveConflict id suggestionId e) in
  (Routes.status response = 404 <->
     exists sid,
       suggestionId = Some sid
       /\ (MemStorage.getConflictById (MemStorage.store e) id = None
           \/ (exists conflict,
                  MemStorage.getConflictById (MemStorage.store e) id
                  = Some conflict
                  /\ ~ In sid (map ConflictSuggestion.id
                                 (Conflict.suggestions conflict)))
           \/ (exists sg, chosen e id sid = Some sg
                          /\ swapWithout e sg = Some 404)))
  /\ (Routes.status response = 400 <->
        suggestionId = None
        \/ exists sid sg, suggestionId = Some sid
                          /\ chosen e id sid = Some sg
                          /\ swapWithout e sg = Some 400)
  /\ (Routes.status response <> 200 -> e' = e)
  /\ (Routes.status response = 200 ->
        exists sid sg,
          suggestionId = Some sid /\ chosen e id sid = Some sg
          /\ e' = snd (MemStorage.detectConflicts
                         (snd (MemStorage.updateConflict id
                                 (ConflictPatch.mk (Some true) None)
                                 (snd (Routes.applySuggestion sg e)))))
          /\ MemStorage.conflicts (MemStorage.store e')
             = detected (MemStorage.schedules (MemStorage.store e'))
          /\ match ConflictSuggestion.action sg with
             | move d s =>
                 slotOf (ConflictSuggestion.scheduleId sg)
                   (MemStorage.schedules (MemStorage.store e')) = Some (d, s)
             | reassign t =>
                 option_map Schedule.teacherId
                   (mapGet Schedule.id (ConflictSuggestion.scheduleId sg)
                      (MemStorage.schedules (MemStorage.store e'))) = Some t
             | swap _ => True
             end)
  /\ (Routes.status response = 200 \/ Routes.status response = 400
      \/ Routes.status response = 404).
Proof.
  intros Hpresent. cbv zeta.
  destruct suggestionId as [sid|].
  - destruct (chosen e id sid) as [sg|] eqn:Hch.
    + rewrite (resolve_chosen _ _ _ Hch).
      destruct (chosen_Some_inv _ _ _ Hch) as (c & Hc & Hin & Hid).
      assert (Hnotin : forall conflict,
                 MemStorage.getConflictById (MemStorage.store e) id
                 = Some conflict ->
                 ~ In sid (map ConflictSuggestion.id
                             (Conflict.suggestions conflict)) -> False).
      { intros c' Hc' Hn. rewrite Hc in Hc'. inversion Hc'; subst c'.
        apply Hn. apply in_map_iff. exists sg. auto. }
      destruct (swapWithout e sg) as [code|] eqn:Hsw.
      * destruct (applySuggestion_early _ _ Hsw) as (body & ->).
        cbn [fst snd].
        destruct (swapWithout_codes _ _ Hsw) as [-> | ->]; simpl;
          (split; [|split; [|split; [|split]]]).
        -- split; [discriminate|].
           intros (sid' & Hs & [Hn | [(c' & Hc' & Hn) | (sg' & Hch' & Hsw')]]);
             inversion Hs; subst sid'.
           ++ congruence.
           ++ exfalso. eauto.
           ++ rewrite Hch in Hch'. inversion Hch'; subst sg'. congruence.
        -- split; [|reflexivity]. intros _. right. exists sid, sg. auto.
        -- reflexivity.
        -- discriminate.
        -- auto.
        -- split; [|reflexivity]. intros _. exists sid. split; [reflexivity|].
           right. right. exists sg. auto.
        -- split; [discriminate|].
           intros [Hs | (sid' & sg' & Hs & Hch' & Hsw')]; [discriminate|].
           inversion Hs; subst sid'. rewrite Hch in Hch'.
           inversion Hch'; subst sg'. congruence.
        -- reflexivity.
        -- discriminate.
        -- auto.
      * pose proof (applySuggestion_applied _ _ Hsw) as Hnone.
        pose proof (applySuggestion_target e sg (Hpresent _ _ eq_refl Hch))
          as Htarget. cbv zeta in Htarget.
        destruct (Routes.applySuggestion sg e) as [o e1] eqn:Happ.
        simpl in Hnone.
        subst o. simpl snd in Htarget.
        destruct (resolve_tail e1 id) as (Hs & Hcf & _). cbv zeta in Hs, Hcf.
        cbn [fst snd]. simpl Routes.status.
        split; [|split; [|split; [|split]]].
        -- split; [discriminate|].
           intros (sid' & Hs' & [Hn | [(c' & Hc' & Hn) | (sg' & Hch' & Hsw')]]);
             inversion Hs'; subst sid'.
           ++ congruence.
           ++ exfalso. eauto.
           ++ rewrite Hch in Hch'. inversion Hch'; subst sg'. congruence.
        -- split; [discriminate|].
           intros [Hs' | (sid' & sg' & Hs' & Hch' & Hsw')]; [discriminate|].
           inversion Hs'; subst sid'. rewrite Hch in Hch'.
           inversion Hch'; subst sg'. congruence.
        -- intros H. exfalso. apply H. reflexivity.
        -- intros _. exists sid, sg. split; [reflexivity|].
           split; [exact Hch|]. split; [rewrite Happ; reflexivity|].
           split; [rewrite Hcf, Hs; reflexivity|].
           rewrite Hs. exact Htarget.
        -- auto.
    + destruct (resolve_not_chosen _ _ _ Hch) as [Hst He].
      rewrite Hst, He.
      split; [|split; [|split; [|split]]].
      * split; [|reflexivity]. intros _. exists sid. split; [reflexivity|].
        destruct (chosen_None_inv _ _ _ Hch) as [Hn | Hn]; auto.
      * split; [discriminate|].
        intros [Hs | (sid' & sg' & Hs & Hch' & _)]; [discriminate|].
        inversion Hs; subst sid'. congruence.
      * reflexivity.
      * discriminate.
      * auto.
  - simpl. split; [|split; [|split; [|split]]].
    + split; [discriminate|]. intros (sid & Hs & _). discriminate.
    + split; auto.
    + reflexivity.
    + discriminate.
    + auto.
Qed.

(** C8 at [sampleServer]: resolving conflict 1 with suggestion
    154, the reassignment of schedule 1 to Bob, is answered 200 and leaves
    schedule 1 with teacher 2. *)
Lemma resolveConflict_outcomes_witness :
  option_map Schedule.teacherId
    (mapGet Schedule.id 1
       (MemStorage.schedules
          (MemStorage.store
             (snd (Routes.resolveConflict 1 (Some 154%nat) sampleServer)))))
  = Some 2.
Proof.
  assert (Hpresent : forall sid sg,
             Some 154%nat = Some sid -> chosen sampleServer 1 sid = Some sg ->
             targetGone sampleServer sg = false).
  { intros sid sg Hs Hch. inversion Hs; subst sid.
    vm_compute in Hch. inversion Hch; subst sg. vm_compute. reflexivity. }
  pose proof (@resolveConflict_outcomes sampleServer 1 (Some 154%nat)
                Hpresent) as H.
  cbv zeta in H. destruct H as (_ & _ & _ & H200 & _).
  assert (Hst : Routes.status
                  (fst (Routes.resolveConflict 1 (Some 154%nat) sampleServer))
                = 200) by (vm_compute; reflexivity).
  destruct (H200 Hst) as (sid & sg & Hs & Hch & _ & _ & Htarget).
  inversion Hs; subst sid.
  vm_compute in Hch. inversion Hch; subst sg. exact Htarget.
Defined.

(** C8 as stated fails at [serverWithoutBob]: suggestion 154 of conflict 1
    reassigns schedule 1 to teacher 2, no teacher 2 is in the store, and the
    route answers 200, not 404, and gives schedule 1 to teacher 2. *)
Lemma resolveConflict_ignores_missing_teacher :
  let request := Routes.resolveConflict 1 (Some 154%nat) serverWithoutBob in
  option_map ConflictSuggestion.action (chosen serverWithoutBob 1 154%nat)
  = Some (reassign 2)
  /\ MemStorage.getTeacherById (MemStorage.store serverWithoutBob) 2 = None
  /\ Routes.status (fst request) = 200
  /\ Routes.status (fst request) <> 404
  /\ option_map Schedule.teacherId
       (mapGet Schedule.id 1
          (MemStorage.schedules (MemStorage.store (snd request)))) = Some 2
  /\ snd request <> serverWithoutBob.
Proof.
  vm_compute. repeat split; try reflexivity; discriminate.
Qed.

(** ** Applying a swap *)

Lemma updateSchedule_effect (e : MemStorage.env) (id : Z)
  (p : SchedulePatch.t) (x : Schedule.t) :
  mapGet Schedule.id id (MemStorage.schedules (MemStorage.store e)) = Some x ->
  let e1 := snd (MemStorage.updateSchedule id p e) in
  let l := mapSet Schedule.id id (MemStorage.patchSchedule x p)
             (MemStorage.schedules (MemStorage.store e)) in
  MemStorage.schedules (MemStorage.store e1) = l
  /\ MemStorage.passes e1 = MemStorage.passes e ++ [l].
Proof.
  intros Hx. cbv zeta. rewrite (updateSchedule_present _ _ _ Hx).
  simpl snd. rewrite afterDetect_schedules, afterDetect_passes.
  split; reflexivity.
Qed.

(** The swap branch on two schedules that are both in the store: the first
    is rewritten and a pass runs, then the second is rewritten and a pass
    runs. *)
Lemma applySuggestion_swap (e : MemStorage.env) (sg : ConflictSuggestion.t)
  (b : Z) (A B : Schedule.t) :
  ConflictSuggestion.action sg = swap (Some b) ->
  b <> 0 ->
  mapGet Schedule.id (ConflictSuggestion.scheduleId sg)
    (MemStorage.schedules (MemStorage.store e)) = Some A ->
  mapGet Schedule.id b (MemStorage.schedules (MemStorage.store e)) = Some B ->
  let half := mapSet Schedule.id (ConflictSuggestion.scheduleId sg)
                (movedTo A B) (MemStorage.schedules (MemStorage.store e)) in
  exists X,
    mapGet Schedule.id b half = Some X
    /\ fst (Routes.applySuggestion sg e) = None
    /\ MemStorage.schedules
         (MemStorage.store (snd (Routes.applySuggestion sg e)))
       = mapSet Schedule.id b (movedTo X A) half
    /\ MemStorage.passes (snd (Routes.applySuggestion sg e))
       = MemStorage.passes e
         ++ [half; mapSet Schedule.id b (movedTo X A) half].
Proof.
  intros Hact Hb HA HB half.
  pose proof (mapGet_key _ _ _ HA) as [HidA _].
  pose proof (mapGet_key _ _ _ HB) as [HidB _].
  assert (HX : exists X, mapGet Schedule.id b half = Some X).
  { subst half.
    destruct (Z.eq_dec b (ConflictSuggestion.scheduleId sg)) as [E | E].
    - rewrite E. rewrite mapGet_mapSet_same; [eauto | exact HidA].
    - rewrite mapGet_mapSet_other; [eauto | exact HidA | exact E]. }
  destruct HX as [X HX]. exists X. split; [exact HX|].
  assert (Happ :
            Routes.applySuggestion sg e
            = (None,
               snd (MemStorage.updateSchedule b
                      (SchedulePatch.mk None None (Some (Schedule.dayOfWeek A))
                         (Some (Schedule.timeSlot A)) None None None)
                      (snd (MemStorage.updateSchedule
                              (ConflictSuggestion.scheduleId sg)
                              (SchedulePatch.mk None None
                                 (Some (Schedule.dayOfWeek B))
                                 (Some (Schedule.timeSlot B)) None None None)
                              e))))).
  { unfold Routes.applySuggestion. rewrite Hact.
    unfold Routes.swapTarget.
    replace (b =? 0) with false by (symmetry; apply Z.eqb_neq; exact Hb).
    unfold bind, gets, ret, MemStorage.getSchedules.
    change (find (fun s => Schedule.id s =? ConflictSuggestion.scheduleId sg)
              (MemStorage.schedules (MemStorage.store e)))
      with (mapGet Schedule.id (ConflictSuggestion.scheduleId sg)
              (MemStorage.schedules (MemStorage.store e))).
    change (find (fun s => Schedule.id s =? b)
              (MemStorage.schedules (MemStorage.store e)))
      with (mapGet Schedule.id b (MemStorage.schedules (MemStorage.store e))).
    rewrite HA, HB, HidA, HidB.
    destruct (MemStorage.updateSchedule _ _ e) as [u1 e1]. simpl snd.
    destruct (MemStorage.updateSchedule _ _ e1) as [u2 e2]. reflexivity. }
  rewrite Happ. cbn [fst snd].
  destruct (updateSchedule_effect e (ConflictSuggestion.scheduleId sg)
              (SchedulePatch.mk None None (Some (Schedule.dayOfWeek B))
                 (Some (Schedule.timeSlot B)) None None None) HA)
    as [Hs1 Hp1].
  cbv zeta in Hs1, Hp1. fold (movedTo A B) in Hs1, Hp1. fold half in Hs1, Hp1.
  rewrite <- Hs1 in HX.
  destruct (updateSchedule_effect _ b
              (SchedulePatch.mk None None (Some (Schedule.dayOfWeek A))
                 (Some (Schedule.timeSlot A)) None None None) HX)
    as [Hs2 Hp2].
  cbv zeta in Hs2, Hp2. fold (movedTo X A) in Hs2, Hp2.
  rewrite Hs2, Hp2, Hp1, Hs1, <- app_assoc. auto.
Qed.

(** The exchange itself.  When the resolve route applies a swap suggestion
    whose two schedules A and B are in the store, it answers 200 and leaves A
    with B's former (dayOfWeek, timeSlot) and B with A's.  The two rewrites
    are two calls of [updateSchedule], each with its own detection pass, and
    the route runs a third: the first pass reads the list in which only A has
    been rewritten (with B untouched when A and B are different schedules),
    the second and the third read the fully swapped list. *)
Theorem swap_exchanges_slots (e : MemStorage.env) (id : Z) (sid : uuid)
  (sg : ConflictSuggestion.t) (b : Z) (A B : Schedule.t) :
  let a := ConflictSuggestion.scheduleId sg in
  let before := MemStorage.schedules (MemStorage.store e) in
  chosen e id sid = Some sg ->
  ConflictSuggestion.action sg = swap (Some b) ->
  b <> 0 ->
  mapGet Schedule.id a before = Some A ->
  mapGet Schedule.id b before = Some B ->
  let response := fst (Routes.resolveConflict id (Some sid) e) in
  let e' := snd (Routes.resolveConflict id (Some sid) e) in
  let after := MemStorage.schedules (MemStorage.store e') in
  let half := mapSet Schedule.id a (movedTo A B) before in
  Routes.status response = 200
  /\ slotOf a after = slotOf b before
  /\ slotOf b after = slotOf a before
  /\ MemStorage.passes e' = MemStorage.passes e ++ [half; after; after]
  /\ slotOf a half = slotOf b before
  /\ (a <> b -> mapGet Schedule.id b half = Some B).
Proof.
  intros a before Hch Hact Hb HA HB.
  pose proof (mapGet_key _ _ _ HA) as [HidA _].
  pose proof (mapGet_key _ _ _ HB) as [HidB _].
  rewrite (resolve_chosen _ _ _ Hch).
  destruct (applySuggestion_swap e sg Hact Hb HA HB)
    as (X & HX & Hnone & Hsched & Hpass).
  cbv zeta in HX, Hsched, Hpass. fold a in HX, Hsched, Hpass.
  fold before in HX, Hsched, Hpass.
  destruct (Routes.applySuggestion sg e) as [o e1]. simpl in Hnone. subst o.
  simpl snd in Hsched, Hpass.
  destruct (resolve_tail e1 id) as (Hs & _ & Hp). cbv zeta in Hs, Hp.
  cbv zeta. cbn [fst snd]. simpl Routes.status.
  rewrite Hs, Hp, Hsched, Hpass.
  pose proof (mapGet_key _ _ _ HX) as [HidX _].
  assert (Hhalf_a : mapGet Schedule.id a
                      (mapSet Schedule.id a (movedTo A B) before)
                    = Some (movedTo A B))
    by (apply mapGet_mapSet_same; exact HidA).
  assert (Hafter_b : mapGet Schedule.id b
                       (mapSet Schedule.id b (movedTo X A)
                          (mapSet Schedule.id a (movedTo A B) before))
                     = Some (movedTo X A))
    by (apply mapGet_mapSet_same; exact HidX).
  split; [reflexivity|]. split; [|split; [|split; [|split]]].
  - (* A ends with B's former slot *)
    unfold slotOf. rewrite HB.
    destruct (Z.eq_dec a b) as [E | E].
    + rewrite E in *. rewrite Hafter_b. simpl.
      rewrite HA in HB. inversion HB. reflexivity.
    + rewrite mapGet_mapSet_other; [|exact HidX|exact E].
      rewrite Hhalf_a. reflexivity.
  - (* B ends with A's former slot *)
    unfold slotOf. rewrite HA, Hafter_b. reflexivity.
  - rewrite <- app_assoc. reflexivity.
  - unfold slotOf. rewrite Hhalf_a, HB. reflexivity.
  - intros E. rewrite mapGet_mapSet_other; [exact HB|exact HidA|].
    intros E'. apply E. symmetry. exact E'.
Qed.

(** The exchange at [swapServer]: suggestion 148 of conflict 1 swaps
    schedule 1 (Ann, Monday slot 2) with schedule 3 (Bob, Wednesday slot 3). *)
Lemma swap_exchanges_slots_witness :
  let e' := snd (Routes.resolveConflict 1 (Some 148%nat) swapServer) in
  let after := MemStorage.schedules (MemStorage.store e') in
  slotOf 1 after = Some (3, 3) /\ slotOf 3 after = Some (1, 2).
Proof.
  assert (Hch : exists sg, chosen swapServer 1 148%nat = Some sg
                           /\ ConflictSuggestion.scheduleId sg = 1
                           /\ ConflictSuggestion.action sg = swap (Some 3))
    by (eexists; vm_compute; repeat split; reflexivity).
  destruct Hch as (sg & Hch & Hid & Hact).
  assert (HA : exists A,
             mapGet Schedule.id (ConflictSuggestion.scheduleId sg)
               (MemStorage.schedules (MemStorage.store swapServer)) = Some A
             /\ (Schedule.dayOfWeek A, Schedule.timeSlot A) = (1, 2))
    by (rewrite Hid; eexists; vm_compute; split; reflexivity).
  destruct HA as (A & HA & HpA).
  assert (HB : exists B,
             mapGet Schedule.id 3
               (MemStorage.schedules (MemStorage.store swapServer)) = Some B
             /\ (Schedule.dayOfWeek B, Schedule.timeSlot B) = (3, 3))
    by (eexists; vm_compute; split; reflexivity).
  destruct HB as (B & HB & HpB).
  assert (Hb : 3 <> 0) by lia.
  pose proof (@swap_exchanges_slots swapServer 1 148%nat sg 3 A B
                Hch Hact Hb HA HB) as H.
  cbv zeta in H. cbv zeta.
  destruct H as (_ & Ha & Hb' & _).
  rewrite Hid in Ha, Hb'.
  split.
  - transitivity
      (slotOf 3 (MemStorage.schedules (MemStorage.store swapServer)));
      [exact Ha | vm_compute; reflexivity].
  - transitivity
      (slotOf 1 (MemStorage.schedules (MemStorage.store swapServer)));
      [exact Hb' | vm_compute; reflexivity].
Defined.

(** C5, at the failing input: the resolve route applies swap suggestion 148
    of conflict 1 at [swapServer].  The claim has both rewrites in place
    before any detection pass runs.  In the code the first pass of the
    request reads a schedule list in which schedule 1 is already on Wednesday
    slot 3 and schedule 3 is still there too.  What that pass detects, the
    collision of Bob's schedules 3 and 4 alone, fits neither the schedules
    before the swap nor those after it. *)
Lemma swap_detection_reads_half_swapped_list :
  let before := MemStorage.schedules (MemStorage.store swapServer) in
  let e' := snd (Routes.resolveConflict 1 (Some 148%nat) swapServer) in
  let after := MemStorage.schedules (MemStorage.store e') in
  exists snapshot,
    nth_error (MemStorage.passes e')
      (List.length (MemStorage.passes swapServer)) = Some snapshot
    /\ slotOf 1 before = Some (1, 2) /\ slotOf 3 before = Some (3, 3)
    /\ slotOf 1 snapshot = Some (3, 3) /\ slotOf 3 snapshot = Some (3, 3)
    /\ slotOf 1 after = Some (3, 3) /\ slotOf 3 after = Some (1, 2)
    /\ map content (detected before)
       = [(1, 1, 2, [1; 2]); (2, 3, 3, [3; 4])]
    /\ map content (detected snapshot) = [(2, 3, 3, [3; 4])]
    /\ map content (detected after) = [].
Proof.
  eexists. vm_compute. repeat split; reflexivity.
Qed.

(** ** The day-time key *)

Lemma split_dash_digits (u : Decimal.uint) (rest : string) :
  Js.split_dash (NilEmpty.string_of_uint u ++ String "-" rest)
  = NilEmpty.string_of_uint u :: Js.split_dash rest.
Proof.
  induction u; simpl; try rewrite IHu; reflexivity.
Qed.

Lemma split_dash_digits_end (u : Decimal.uint) :
  Js.split_dash (NilEmpty.string_of_uint u) = [NilEmpty.string_of_uint u].
Proof. induction u; simpl; try rewrite IHu; reflexivity. Qed.

Lemma Number_digits (u : Decimal.uint) :
  Js.Number (NilEmpty.string_of_uint u) = Some (Z.of_uint u).
Proof. unfold Js.Number. rewrite NilEmpty.usu. reflexivity. Qed.

Lemma toString_nonneg (z : Z) :
  0 <= z ->
  exists u, Js.toString z = NilEmpty.string_of_uint u /\ Z.of_uint u = z.
Proof.
  intros Hz. unfold Js.toString.
  pose proof (DecimalZ.of_to z) as Hof.
  destruct (Z.to_int z) as [u|u] eqn:E.
  - exists u. split; [reflexivity|]. exact Hof.
  - destruct z; simpl in E; try discriminate. lia.
Qed.

Lemma toString_neg (z : Z) :
  z < 0 ->
  exists u, Js.toString z = String "-" (NilEmpty.string_of_uint u).
Proof.
  intros Hz. unfold Js.toString.
  destruct z; try lia. simpl. eauto.
Qed.

(** Splitting a key built from two indexes that are not negative and reading
    the pieces as numbers gives the two indexes back. *)
Lemma parseDayTime_dayTimeKey (d s : Z) :
  0 <= d -> 0 <= s -> parseDayTime (dayTimeKey d s) = (d, s).
Proof.
  intros Hd Hs.
  destruct (toString_nonneg Hd) as (ud & Ed & Vd).
  destruct (toString_nonneg Hs) as (us & Es & Vs).
  unfold parseDayTime, dayTimeKey. rewrite Ed, Es.
  change ("-" ++ NilEmpty.string_of_uint us)%string
    with (String "-" (NilEmpty.string_of_uint us)).
  rewrite split_dash_digits, split_dash_digits_end. simpl map.
  rewrite !Number_digits, Vd, Vs. reflexivity.
Qed.

Lemma dayTimeKey_inj (d s d' s' : Z) :
  0 <= d -> 0 <= s -> 0 <= d' -> 0 <= s' ->
  dayTimeKey d s = dayTimeKey d' s' -> d = d' /\ s = s'.
Proof.
  intros Hd Hs Hd' Hs' E.
  pose proof (parseDayTime_dayTimeKey Hd Hs) as P.
  rewrite E, (parseDayTime_dayTimeKey Hd' Hs') in P.
  inversion P. auto.
Qed.

(** Whatever the two integers, every piece of their key reads as a number:
    the NaN branches of [parseDayTime] are never taken on a key the grouping
    loops build. *)
Lemma parseDayTime_never_NaN (d s : Z) :
  Forall (fun piece => Js.Number piece <> None)
         (Js.split_dash (dayTimeKey d s)).
Proof.
  assert (Hempty : Js.Number "" <> None) by discriminate.
  assert (Hdig : forall u, Js.Number (NilEmpty.string_of_uint u) <> None)
    by (intros u; rewrite Number_digits; discriminate).
  assert (Htail : forall z,
             Forall (fun piece => Js.Number piece <> None)
                    (Js.split_dash (Js.toString z))).
  { intros z. destruct (Z_lt_le_dec z 0) as [Hz | Hz].
    - destruct (toString_neg Hz) as (u & ->).
      simpl. rewrite split_dash_digits_end. repeat constructor; auto.
    - destruct (toString_nonneg Hz) as (u & -> & _).
      rewrite split_dash_digits_end. repeat constructor; auto. }
  unfold dayTimeKey.
  change ("-" ++ Js.toString s)%string with (String "-" (Js.toString s)).
  destruct (Z_lt_le_dec d 0) as [Hd | Hd].
  - destruct (toString_neg Hd) as (u & ->).
    change (String "-" (NilEmpty.string_of_uint u)
            ++ String "-" (Js.toString s))%string
      with (String "-" (NilEmpty.string_of_uint u
                        ++ String "-" (Js.toString s)))%string.
    simpl Js.split_dash at 1. change (Ascii.eqb "-" "-") with true.
    cbv iota. rewrite split_dash_digits.
    constructor; [exact Hempty|]. constructor; [apply Hdig | apply Htail].
  - destruct (toString_nonneg Hd) as (u & -> & _).
    rewrite split_dash_digits.
    constructor; [apply Hdig | apply Htail].
Qed.

(** ** Insertion-ordered maps *)

Section AssocFacts.
Variables K V : Type.
Variable eqb : K -> K -> bool.
Hypothesis eqb_eq : forall x y, eqb x y = true <-> x = y.

Lemma eqb_same (k : K) : eqb k k = true.
Proof. apply eqb_eq. reflexivity. Qed.

Lemma eqb_sym_false (x y : K) : eqb x y = false -> eqb y x = false.
Proof.
  intros H. destruct (eqb y x) eqn:E; [|reflexivity].
  apply eqb_eq in E. subst y. rewrite eqb_same in H. discriminate.
Qed.

Lemma alGet_alSet (k k' : K) (v : V) (m : list (K * V)) :
  alGet eqb k' (alSet eqb k v m)
  = if eqb k k' then Some v else alGet eqb k' m.
Proof.
  induction m as [|[k0 v0] r IH]; simpl.
  - reflexivity.
  - destruct (eqb k0 k) eqn:E0; simpl.
    + apply eqb_eq in E0. subst k0. destruct (eqb k k'); reflexivity.
    + rewrite IH. destruct (eqb k0 k') eqn:E1; [|reflexivity].
      apply eqb_eq in E1. subst k'. rewrite (eqb_sym_false E0).
      reflexivity.
Qed.

Lemma alHas_false_keys (k : K) (m : list (K * V)) :
  alHas eqb k m = false -> ~ In k (map fst m).
Proof.
  unfold alHas. induction m as [|[k0 v0] r IH]; simpl; [tauto|].
  destruct (eqb k0 k) eqn:E; [discriminate|].
  intros H [H0 | H0].
  - subst k0. rewrite eqb_same in E. discriminate.
  - exact (IH H H0).
Qed.

Lemma alSet_keys (k : K) (v : V) (m : list (K * V)) :
  map fst (alSet eqb k v m)
  = if alHas eqb k m then map fst m else map fst m ++ [k].
Proof.
  unfold alHas. induction m as [|[k0 v0] r IH]; simpl; [reflexivity|].
  destruct (eqb k0 k) eqn:E; simpl; [reflexivity|].
  rewrite IH. destruct (alGet eqb k r); reflexivity.
Qed.

Lemma alSet_NoDup (k : K) (v : V) (m : list (K * V)) :
  NoDup (map fst m) -> NoDup (map fst (alSet eqb k v m)).
Proof.
  intros H. rewrite alSet_keys. destruct (alHas eqb k m) eqn:E; [exact H|].
  apply NoDup_app.
  - exact H.
  - constructor; [simpl; tauto | constructor].
  - intros x Hx [<- | []]. exact (alHas_false_keys _ _ E Hx).
Qed.

Lemma alSet_Forall_value (Q : V -> Prop) (k : K) (v : V) (m : list (K * V)) :
  Forall (fun kv => Q (snd kv)) m -> Q v ->
  Forall (fun kv => Q (snd kv)) (alSet eqb k v m).
Proof.
  intros H Hv. induction m as [|[k0 v0] r IH]; simpl.
  - constructor; [exact Hv | constructor].
  - inversion H; subst. destruct (eqb k0 k); constructor; auto.
Qed.

Lemma alSet_Forall_key (R : K -> Prop) (k : K) (v : V) (m : list (K * V)) :
  Forall (fun kv => R (fst kv)) m -> R k ->
  Forall (fun kv => R (fst kv)) (alSet eqb k v m).
Proof.
  intros H Hk. induction m as [|[k0 v0] r IH]; simpl.
  - constructor; [exact Hk | constructor].
  - inversion H; subst. destruct (eqb k0 k); constructor; auto.
Qed.

Lemma alGet_In (k : K) (v : V) (m : list (K * V)) :
  alGet eqb k m = Some v -> In (k, v) m.
Proof.
  induction m as [|[k0 v0] r IH]; simpl; [discriminate|].
  destruct (eqb k0 k) eqn:E.
  - apply eqb_eq in E. subst k0. intros H; inversion H. auto.
  - auto.
Qed.

Lemma alGet_None_keys (k : K) (m : list (K * V)) :
  ~ In k (map fst m) -> alGet eqb k m = None.
Proof.
  induction m as [|[k0 v0] r IH]; simpl; [reflexivity|].
  intros H. destruct (eqb k0 k) eqn:E.
  - apply eqb_eq in E. subst k0. tauto.
  - apply IH. tauto.
Qed.

(** A map whose keys are distinct holds at most one entry per key: a
    [forEach] whose body does something for one key only does it once. *)
Lemma flat_map_one_key (B : Type) (h : K * V -> list B) (k : K)
  (m : list (K * V)) :
  NoDup (map fst m) ->
  (forall kv, In kv m -> fst kv <> k -> h kv = []) ->
  flat_map h m
  = match alGet eqb k m with Some v => h (k, v) | None => [] end.
Proof.
  induction m as [|[k0 v0] r IH]; simpl; intros Hnd Hnil; [reflexivity|].
  inversion Hnd as [|? ? Hnotin Hnd']; subst.
  destruct (eqb k0 k) eqn:E.
  - apply eqb_eq in E. subst k0.
    rewrite IH; [|exact Hnd'|intros kv Hkv; apply Hnil; auto].
    rewrite (alGet_None_keys _ _ Hnotin). apply app_nil_r.
  - rewrite (Hnil (k0, v0)); [|auto|].
    + simpl. apply IH; [exact Hnd'|]. intros kv Hkv. apply Hnil. auto.
    + simpl. intros ->. rewrite eqb_same in E. discriminate.
Qed.
End AssocFacts.

Section GetOrEmpty.
Variables K V : Type.
Variable eqb : K -> K -> bool.
Hypothesis eqb_eq : forall x y, eqb x y = true <-> x = y.

Lemma getOrEmpty_alSet (k k' : K) (v : list V) (m : list (K * list V)) :
  getOrEmpty eqb k' (alSet eqb k v m)
  = if eqb k k' then v else getOrEmpty eqb k' m.
Proof.
  unfold getOrEmpty. rewrite (alGet_alSet eqb eqb_eq).
  destruct (eqb k k'); reflexivity.
Qed.

(** The guard [if (!m.has(k)) m.set(k, [])] changes no lookup. *)
Lemma getOrEmpty_guard (k k' : K) (m : list (K * list V)) :
  getOrEmpty eqb k' (if alHas eqb k m then m else alSet eqb k [] m)
  = getOrEmpty eqb k' m.
Proof.
  destruct (alHas eqb k m) eqn:E; [reflexivity|].
  rewrite getOrEmpty_alSet. destruct (eqb k k') eqn:E'; [|reflexivity].
  apply eqb_eq in E'. subst k'. unfold getOrEmpty, alHas in *.
  destruct (alGet eqb k m); [discriminate | reflexivity].
Qed.

Lemma getOrEmpty_Forall (Q : list V -> Prop) (k : K)
  (m : list (K * list V)) :
  Forall (fun kv => Q (snd kv)) m -> Q [] -> Q (getOrEmpty eqb k m).
Proof.
  intros H Hnil. unfold getOrEmpty.
  destruct (alGet eqb k m) as [v|] eqn:E; [|exact Hnil].
  apply (alGet_In eqb eqb_eq) in E.
  rewrite Forall_forall in H. exact (H _ E).
Qed.
End GetOrEmpty.

(** ** The grouping loop of MemStorage.detectConflicts *)

Lemma Zeqb_eq (x y : Z) : (x =? y) = true <-> x = y.
Proof. apply Z.eqb_eq. Qed.

Lemma Seqb_eq (x y : string) : String.eqb x y = true <-> x = y.
Proof. apply String.eqb_eq. Qed.

(** One round of the loop appends the schedule id to the list filed under
    the schedule's teacher and key, and changes no other list. *)
Lemma filed_groupSchedule (g : list (Z * list (string * list Z)))
  (x : Schedule.t) (t : Z) (k : string) :
  filed (MemStorage.groupSchedule g x) t k
  = if (Schedule.teacherId x =? t)
       && String.eqb (dayTimeKey (Schedule.dayOfWeek x) (Schedule.timeSlot x)) k
    then filed g t k ++ [Schedule.id x]
    else filed g t k.
Proof.
  unfold filed, MemStorage.groupSchedule.
  rewrite (getOrEmpty_alSet Z.eqb Zeqb_eq).
  destruct (Schedule.teacherId x =? t) eqn:Et.
  - apply Z.eqb_eq in Et. subst t.
    rewrite (getOrEmpty_alSet String.eqb Seqb_eq).
    rewrite !(getOrEmpty_guard String.eqb Seqb_eq).
    rewrite !(getOrEmpty_guard Z.eqb Zeqb_eq).
    destruct (String.eqb (dayTimeKey (Schedule.dayOfWeek x)
                            (Schedule.timeSlot x)) k) eqn:Ek; simpl.
    + apply String.eqb_eq in Ek. subst k. reflexivity.
    + reflexivity.
  - rewrite (getOrEmpty_guard Z.eqb Zeqb_eq). reflexivity.
Qed.

Lemma filed_fold (l : list Schedule.t)
  (g : list (Z * list (string * list Z))) (t : Z) (k : string) :
  filed (fold_left MemStorage.groupSchedule l g) t k
  = filed g t k
    ++ map Schedule.id
         (filter (fun x =>
                    (Schedule.teacherId x =? t)
                    && String.eqb (dayTimeKey (Schedule.dayOfWeek x)
                                     (Schedule.timeSlot x)) k) l).
Proof.
  revert g. induction l as [|x r IH]; intros g; simpl.
  - rewrite app_nil_r. reflexivity.
  - rewrite IH, filed_groupSchedule.
    destruct ((Schedule.teacherId x =? t)
              && String.eqb (dayTimeKey (Schedule.dayOfWeek x)
                               (Schedule.timeSlot x)) k); simpl.
    + rewrite <- app_assoc. reflexivity.
    + reflexivity.
Qed.

(** A property of the inner maps that survives setting the schedule's key
    survives one round of the loop. *)
Lemma groupSchedule_Forall (Q : list (string * list Z) -> Prop)
  (g : list (Z * list (string * list Z))) (x : Schedule.t) :
  Q [] ->
  (forall m ids,
      Q m ->
      Q (alSet String.eqb
           (dayTimeKey (Schedule.dayOfWeek x) (Schedule.timeSlot x)) ids m)) ->
  Forall (fun tm => Q (snd tm)) g ->
  Forall (fun tm => Q (snd tm)) (MemStorage.groupSchedule g x).
Proof.
  intros Hnil Hstep Hg. unfold MemStorage.groupSchedule.
  set (g1 := if alHas Z.eqb (Schedule.teacherId x) g then g
             else alSet Z.eqb (Schedule.teacherId x) [] g).
  assert (Hg1 : Forall (fun tm => Q (snd tm)) g1).
  { subst g1. destruct (alHas Z.eqb (Schedule.teacherId x) g); [exact Hg|].
    apply alSet_Forall_value; assumption. }
  apply alSet_Forall_value; [exact Hg1|].
  apply Hstep.
  assert (Hm0 : Q (getOrEmpty Z.eqb (Schedule.teacherId x) g1))
    by (apply (getOrEmpty_Forall Z.eqb Zeqb_eq); assumption).
  destruct (alHas String.eqb _ (getOrEmpty Z.eqb (Schedule.teacherId x) g1));
    [exact Hm0 | apply Hstep; exact Hm0].
Qed.

Lemma groupSchedule_wellKeyed (g : list (Z * list (string * list Z)))
  (x : Schedule.t) :
  wellKeyed g -> wellKeyed (MemStorage.groupSchedule g x).
Proof.
  intros [Hout Hin]. split.
  - unfold MemStorage.groupSchedule.
    apply (alSet_NoDup Z.eqb Zeqb_eq).
    destruct (alHas Z.eqb (Schedule.teacherId x) g); [exact Hout|].
    apply (alSet_NoDup Z.eqb Zeqb_eq). exact Hout.
  - apply (groupSchedule_Forall (fun m => NoDup (map fst m))).
    + constructor.
    + intros m ids Hm. apply (alSet_NoDup String.eqb Seqb_eq). exact Hm.
    + exact Hin.
Qed.

Lemma groupSchedule_plainKeys (g : list (Z * list (string * list Z)))
  (x : Schedule.t) :
  0 <= Schedule.dayOfWeek x -> 0 <= Schedule.timeSlot x ->
  plainKeys g -> plainKeys (MemStorage.groupSchedule g x).
Proof.
  intros Hd Hs Hg.
  apply (groupSchedule_Forall
           (fun m => Forall (fun ki => exists d s, 0 <= d /\ 0 <= s
                                       /\ fst ki = dayTimeKey d s) m)).
  - constructor.
  - intros m ids Hm.
    apply (alSet_Forall_key String.eqb
             (fun k => exists d s, 0 <= d /\ 0 <= s /\ k = dayTimeKey d s));
      [exact Hm|].
    exists (Schedule.dayOfWeek x), (Schedule.timeSlot x). auto.
  - exact Hg.
Qed.

Lemma grouped_invariants (l : list Schedule.t)
  (g : list (Z * list (string * list Z))) :
  Forall (fun x => 0 <= Schedule.dayOfWeek x /\ 0 <= Schedule.timeSlot x) l ->
  wellKeyed g -> plainKeys g ->
  wellKeyed (fold_left MemStorage.groupSchedule l g)
  /\ plainKeys (fold_left MemStorage.groupSchedule l g).
Proof.
  revert g. induction l as [|x r IH]; intros g Hl Hw Hp; simpl; [auto|].
  inversion Hl as [|? ? [Hd Hs] Hr]; subst.
  apply IH; [exact Hr | apply groupSchedule_wellKeyed; exact Hw
            | apply groupSchedule_plainKeys; assumption].
Qed.

Lemma filter_flat_map (A B : Type) (P : B -> bool) (f : A -> list B)
  (l : list A) :
  filter P (flat_map f l) = flat_map (fun a => filter P (f a)) l.
Proof.
  induction l as [|a r IH]; simpl; [reflexivity|].
  rewrite filter_app, IH. reflexivity.
Qed.

Lemma about_numbered (t d s n : Z) (cs : list Conflict.t) :
  map (fun c => (content c, Conflict.resolved c, Conflict.suggestions c))
      (filter (about t d s) (numbered n cs))
  = map (fun c => (content c, Conflict.resolved c, Conflict.suggestions c))
        (filter (about t d s) cs).
Proof.
  revert n. induction cs as [|c r IH]; intros n; [reflexivity|].
  simpl numbered. simpl filter.
  match goal with
  | |- context [about t d s (Conflict.mk ?a ?b ?c0 ?d0 ?e ?f ?g)] =>
      change (about t d s (Conflict.mk a b c0 d0 e f g))
        with (about t d s c)
  end.
  destruct (about t d s c); simpl; rewrite IH; reflexivity.
Qed.

Lemma about_newConflictFor (t d s t' : Z) (k : string) (ids : list Z) :
  about t d s (MemStorage.newConflictFor t' k ids)
  = (t' =? t) && (fst (parseDayTime k) =? d) && (snd (parseDayTime k) =? s).
Proof.
  unfold about, MemStorage.newConflictFor.
  destruct (parseDayTime k). reflexivity.
Qed.

(** The schedule ids filed under a teacher and the key of a (day, slot) that
    is not negative are the ids of that group, in store order. *)
Lemma filed_bookings (l : list Schedule.t) (t d s : Z) :
  Forall (fun x => 0 <= Schedule.dayOfWeek x /\ 0 <= Schedule.timeSlot x) l ->
  0 <= d -> 0 <= s ->
  filed (fold_left MemStorage.groupSchedule l []) t (dayTimeKey d s)
  = map Schedule.id (bookings l t d s).
Proof.
  intros Hl Hd Hs. rewrite filed_fold. simpl. f_equal.
  unfold bookings. apply filter_ext_in. intros x Hx.
  rewrite Forall_forall in Hl. destruct (Hl x Hx) as [Hdx Hsx].
  rewrite <- andb_assoc. f_equal.
  destruct (String.eqb (dayTimeKey (Schedule.dayOfWeek x)
                          (Schedule.timeSlot x)) (dayTimeKey d s)) eqn:E.
  - apply String.eqb_eq in E.
    destruct (dayTimeKey_inj Hdx Hsx Hd Hs E) as [-> ->].
    rewrite !Z.eqb_refl. reflexivity.
  - symmetry. apply andb_false_iff.
    destruct (Schedule.dayOfWeek x =? d) eqn:E1; [|auto].
    destruct (Schedule.timeSlot x =? s) eqn:E2; [|auto].
    apply Z.eqb_eq in E1. apply Z.eqb_eq in E2. rewrite E1, E2 in E.
    rewrite String.eqb_refl in E. discriminate.
Qed.

(** The conflicts the two nested loops create for one teacher, day and slot:
    one when more than one id is filed under them, none otherwise. *)
Lemma collisions_about (g : list (Z * list (string * list Z))) (t d s : Z) :
  wellKeyed g -> plainKeys g -> 0 <= d -> 0 <= s ->
  filter (about t d s) (MemStorage.collisions g)
  = if 1 <? Z.of_nat (List.length (filed g t (dayTimeKey d s)))
    then [MemStorage.newConflictFor t (dayTimeKey d s)
            (filed g t (dayTimeKey d s))]
    else [].
Proof.
  intros [Hout Hin] Hplain Hd Hs.
  unfold MemStorage.collisions. rewrite filter_flat_map.
  rewrite flat_map_one_key with (eqb := Z.eqb) (k := t);
    [ | exact Zeqb_eq | exact Hout | ].
  - destruct (alGet Z.eqb t g) as [m|] eqn:Em.
    + assert (Hf : filed g t (dayTimeKey d s)
                   = getOrEmpty String.eqb (dayTimeKey d s) m)
        by (unfold filed; unfold getOrEmpty at 2; rewrite Em; reflexivity).
      rewrite Hf. clear Hf.
      apply (alGet_In Z.eqb Zeqb_eq) in Em.
      rewrite Forall_forall in Hin. pose proof (Hin _ Em) as Hm.
      unfold plainKeys in Hplain.
      rewrite Forall_forall in Hplain. pose proof (Hplain _ Em) as Hk.
      cbn [fst snd] in Hm, Hk. rewrite Forall_forall in Hk.
      cbn [fst snd]. rewrite filter_flat_map.
      rewrite flat_map_one_key with (eqb := String.eqb) (k := dayTimeKey d s);
        [ | exact Seqb_eq | exact Hm | ].
      * unfold getOrEmpty.
        destruct (alGet String.eqb (dayTimeKey d s) m) as [ids|];
          [|reflexivity].
        cbn [fst snd].
        destruct (1 <? Z.of_nat (List.length ids)); [|reflexivity].
        cbn [filter]. rewrite about_newConflictFor.
        rewrite (parseDayTime_dayTimeKey Hd Hs). cbn [fst snd].
        rewrite !Z.eqb_refl. reflexivity.
      * intros [k ids] Hki Hne. cbn [fst snd] in *.
        destruct (1 <? Z.of_nat (List.length ids)); [|reflexivity].
        cbn [filter]. rewrite about_newConflictFor.
        destruct (Hk _ Hki) as (d' & s' & Hd' & Hs' & Ek).
        cbn [fst] in Ek.
        subst k. rewrite (parseDayTime_dayTimeKey Hd' Hs'). cbn [fst snd].
        destruct (d' =? d) eqn:E1; [|rewrite andb_false_r; reflexivity].
        destruct (s' =? s) eqn:E2; [|rewrite andb_false_r; reflexivity].
        apply Z.eqb_eq in E1. apply Z.eqb_eq in E2. subst d' s'.
        exfalso. apply Hne. reflexivity.
    + assert (Hf : filed g t (dayTimeKey d s) = [])
        by (unfold filed; unfold getOrEmpty at 2; rewrite Em; reflexivity).
      rewrite Hf. reflexivity.
  - intros [t' m] Htm Hne. cbn [fst snd] in *.
    clear Htm. induction m as [|[k ids] r IH]; [reflexivity|].
    cbn [flat_map fst snd]. rewrite filter_app, IH, app_nil_r.
    destruct (1 <? Z.of_nat (List.length ids)); [|reflexivity].
    cbn [filter]. rewrite about_newConflictFor.
    replace (t' =? t) with false by (symmetry; apply Z.eqb_neq; exact Hne).
    reflexivity.
Qed.

(** The [MemStorage] side of C1.  Over schedule entries whose day and slot
    are not negative, [MemStorage.detectConflicts] returns, for every
    teacher, day and slot, exactly one conflict about them when that group
    has more than one entry, carrying the ids of exactly the group's entries
    in store order, unresolved and without suggestions, and none when the
    group has at most one entry. *)
Theorem MemStorage_detects_each_collision (e : MemStorage.env) (t d s : Z) :
  Forall (fun x => 0 <= Schedule.dayOfWeek x /\ 0 <= Schedule.timeSlot x)
         (MemStorage.schedules (MemStorage.store e)) ->
  0 <= d -> 0 <= s ->
  let group := bookings (MemStorage.schedules (MemStorage.store e)) t d s in
  map (fun c => (content c, Conflict.resolved c, Conflict.suggestions c))
      (filter (about t d s) (fst (MemStorage.detectConflicts e)))
  = if 1 <? Z.of_nat (List.length group)
    then [((t, d, s, map Schedule.id group), false, [])]
    else [].
Proof.
  intros Hl Hd Hs group. rewrite detectConflicts_afterDetect. simpl fst.
  unfold detected. rewrite about_numbered.
  destruct (grouped_invariants (g := []) Hl) as [Hw Hp].
  - split; constructor.
  - constructor.
  - rewrite (collisions_about t Hw Hp Hd Hs).
    rewrite (filed_bookings t Hl Hd Hs). fold group.
    rewrite length_map.
    destruct (1 <? Z.of_nat (List.length group)); [|reflexivity].
    unfold MemStorage.newConflictFor.
    rewrite (parseDayTime_dayTimeKey Hd Hs). reflexivity.
Qed.

Lemma collisions_plain (g : list (Z * list (string * list Z)))
  (c : Conflict.t) :
  plainKeys g -> In c (MemStorage.collisions g) ->
  0 <= Conflict.dayOfWeek c /\ 0 <= Conflict.timeSlot c.
Proof.
  unfold plainKeys, MemStorage.collisions. intros Hp Hc.
  apply in_flat_map in Hc. destruct Hc as ([t m] & Htm & Hc).
  apply in_flat_map in Hc. destruct Hc as ([k ids] & Hki & Hc).
  cbn [fst snd] in Hc.
  destruct (1 <? Z.of_nat (List.length ids)); [|destruct Hc].
  destruct Hc as [<- | []].
  rewrite Forall_forall in Hp. specialize (Hp _ Htm). cbn [snd] in Hp.
  rewrite Forall_forall in Hp. destruct (Hp _ Hki) as (d & s & Hd & Hs & Ek).
  cbn [fst] in Ek. subst k. unfold MemStorage.newConflictFor.
  rewrite (parseDayTime_dayTimeKey Hd Hs). simpl. auto.
Qed.

(** Where no teacher has two entries in one (day, slot), and in particular
    over no entries at all, [MemStorage.detectConflicts] returns nothing. *)
Corollary MemStorage_detects_nothing_without_collision (e : MemStorage.env) :
  Forall (fun x => 0 <= Schedule.dayOfWeek x /\ 0 <= Schedule.timeSlot x)
         (MemStorage.schedules (MemStorage.store e)) ->
  (forall t d s,
      (List.length (bookings (MemStorage.schedules (MemStorage.store e)) t d s)
       <= 1)%nat) ->
  fst (MemStorage.detectConflicts e) = [].
Proof.
  intros Hl Hone.
  destruct (fst (MemStorage.detectConflicts e)) as [|c r] eqn:E;
    [reflexivity|]. exfalso.
  assert (Hc : In c (fst (MemStorage.detectConflicts e)))
    by (rewrite E; left; reflexivity).
  assert (Hpos : 0 <= Conflict.dayOfWeek c /\ 0 <= Conflict.timeSlot c).
  { rewrite detectConflicts_afterDetect in Hc. simpl fst in Hc.
    unfold detected in Hc. apply numbered_fields in Hc.
    destruct Hc as (c0 & Hc0 & Hcont & _).
    destruct (grouped_invariants (g := []) Hl) as [_ Hp];
      [split; constructor | constructor |].
    destruct (collisions_plain _ Hp Hc0) as [H1 H2].
    unfold content in Hcont. inversion Hcont as [[Ht Hd' Hs' Hids]].
    rewrite Hd', Hs'. auto. }
  destruct Hpos as [Hd Hs].
  pose proof (@MemStorage_detects_each_collision e (Conflict.teacherId c)
                (Conflict.dayOfWeek c) (Conflict.timeSlot c) Hl Hd Hs) as H.
  cbv zeta in H.
  replace (1 <? Z.of_nat
             (List.length
                (bookings (MemStorage.schedules (MemStorage.store e))
                   (Conflict.teacherId c) (Conflict.dayOfWeek c)
                   (Conflict.timeSlot c)))) with false in H
    by (symmetry; apply Z.ltb_ge;
        specialize (Hone (Conflict.teacherId c) (Conflict.dayOfWeek c)
                      (Conflict.timeSlot c)); lia).
  apply map_eq_nil in H.
  assert (Hin : In c (filter (about (Conflict.teacherId c)
                                (Conflict.dayOfWeek c) (Conflict.timeSlot c))
                        (fst (MemStorage.detectConflicts e)))).
  { apply filter_In. split; [exact Hc|]. unfold about.
    rewrite !Z.eqb_refl. reflexivity. }
  rewrite H in Hin. destruct Hin.
Qed.

(** ** Suggestion ids in the store are tokens already drawn *)

Lemma mapSet_In (V : Type) (key : V -> Z) (k : Z) (v x : V) (m : list V) :
  In x (mapSet key k v m) -> x = v \/ In x m.
Proof.
  induction m as [|y r IH]; simpl.
  - intros [<- | []]. auto.
  - destruct (key y =? k); simpl; intros [<- | H]; auto.
    destruct (IH H); auto.
Qed.

Lemma uuidsIssued_iff (e : MemStorage.env) :
  uuidsIssued e = true <->
  forall c sg, In c (MemStorage.conflicts (MemStorage.store e)) ->
               In sg (Conflict.suggestions c) ->
               (ConflictSuggestion.id sg < MemStorage.uuids e)%nat.
Proof.
  unfold uuidsIssued. rewrite forallb_forall. split.
  - intros H c sg Hc Hsg. specialize (H c Hc).
    rewrite forallb_forall in H. apply Nat.ltb_lt. exact (H sg Hsg).
  - intros H c Hc. apply forallb_forall. intros sg Hsg.
    apply Nat.ltb_lt. exact (H c sg Hc Hsg).
Qed.

(** A detection pass leaves no suggestion in the store at all. *)
Lemma uuidsIssued_detectConflicts (e : MemStorage.env) :
  uuidsIssued (snd (MemStorage.detectConflicts e)) = true.
Proof.
  rewrite detectConflicts_afterDetect. simpl snd.
  apply uuidsIssued_iff. intros c sg Hc Hsg.
  rewrite afterDetect_conflicts in Hc.
  destruct (detected_fresh _ _ Hc) as [_ Hnone].
  rewrite Hnone in Hsg. destruct Hsg.
Qed.

(** A suggestion chain stores tokens it has just drawn. *)
Lemma uuidsIssued_runJob (e : MemStorage.env) (id : Z) :
  uuidsIssued e = true -> uuidsIssued (snd (MemStorage.runJob id e)) = true.
Proof.
  intros H. rewrite uuidsIssued_iff in H. apply uuidsIssued_iff.
  unfold MemStorage.runJob, bind, ret,
    MemStorage.generateConflictSuggestions, MemStorage.updateConflict.
  cbn [MemStorage.store MemStorage.uuids].
  set (ds := MemStorage.drafts (MemStorage.store e) id).
  destruct (mapGet Conflict.id id (MemStorage.conflicts (MemStorage.store e)))
    as [c0|] eqn:E; cbn [snd MemStorage.store MemStorage.uuids].
  - intros c sg Hc Hsg.
    destruct e as [[? ? ? cfs ? ? ? ?] ? us ?]. simpl in *.
    apply mapSet_In in Hc. destruct Hc as [-> | Hc].
    + simpl in Hsg. apply stamp_In in Hsg.
      destruct Hsg as (_ & _ & _ & _ & _ & Hlt). exact (proj2 Hlt).
    + specialize (H c sg Hc Hsg). lia.
  - intros c sg Hc Hsg. specialize (H c sg Hc Hsg). lia.
Qed.

Lemma uuidsIssued_forEach (ids : list Z) (e : MemStorage.env) :
  uuidsIssued e = true ->
  uuidsIssued (snd (forEach ids MemStorage.runJob e)) = true.
Proof.
  revert e. induction ids as [|id r IH]; intros e H; simpl; [exact H|].
  unfold bind. pose proof (uuidsIssued_runJob e id H) as H1.
  destruct (MemStorage.runJob id e) as [u e1]. simpl in H1.
  apply IH. exact H1.
Qed.

(** So does the completion of all pending chains. *)
Lemma uuidsIssued_settle (e : MemStorage.env) :
  uuidsIssued e = true -> uuidsIssued (snd (MemStorage.settle e)) = true.
Proof.
  intros H. unfold MemStorage.settle. apply uuidsIssued_forEach.
  destruct e. exact H.
Qed.

(** The resolve route keeps it too: it either changes nothing or ends with
    a detection pass. *)
Lemma uuidsIssued_resolveConflict (e : MemStorage.env) (id : Z)
  (suggestionId : option uuid) :
  uuidsIssued e = true ->
  uuidsIssued (snd (Routes.resolveConflict id suggestionId e)) = true.
Proof.
  intros H. destruct suggestionId as [sid|]; [|exact H].
  destruct (chosen e id sid) as [sg|] eqn:Hch.
  - rewrite (resolve_chosen _ _ _ Hch).
    destruct (swapWithout e sg) as [code|] eqn:Hsw.
    + destruct (applySuggestion_early _ _ Hsw) as (body & ->). exact H.
    + pose proof (applySuggestion_applied _ _ Hsw) as Hnone.
      destruct (Routes.applySuggestion sg e) as [o e1]. simpl in Hnone.
      subst o. cbn [snd]. apply uuidsIssued_detectConflicts.
  - destruct (resolve_not_chosen _ _ _ Hch) as [_ ->]. exact H.
Qed.

(* ================================================================== *)
(** * Further properties of the code *)

(** ** The day-time key, for all integers *)

Lemma split_dash_nonempty (a : string) : Js.split_dash a <> [].
Proof.
  destruct a as [|c r]; simpl; [discriminate|].
  destruct (Ascii.eqb c "-"); [discriminate|].
  destruct (Js.split_dash r); discriminate.
Qed.

(** Splitting at the dashes splits at every dash. *)
Lemma split_dash_app (a b : string) :
  Js.split_dash (a ++ String "-" b) = Js.split_dash a ++ Js.split_dash b.
Proof.
  induction a as [|c r IH]; simpl; [reflexivity|].
  destruct (Ascii.eqb c "-"); [rewrite IH; reflexivity|].
  rewrite IH. pose proof (split_dash_nonempty r) as Hne.
  destruct (Js.split_dash r) as [|h t]; [contradiction|]. reflexivity.
Qed.

Lemma string_of_uint_inj (u u' : Decimal.uint) :
  NilEmpty.string_of_uint u = NilEmpty.string_of_uint u' -> u = u'.
Proof.
  intros E. pose proof (NilEmpty.usu u) as H. rewrite E, NilEmpty.usu in H.
  inversion H. reflexivity.
Qed.

Lemma string_of_uint_nonempty (u : Decimal.uint) :
  u <> Nil -> NilEmpty.string_of_uint u <> ""%string.
Proof. destruct u; simpl; intros H; try discriminate. contradiction. Qed.

(** The pieces of [`${z}`]: the digits of [|z|], after an empty piece when
    [z] is negative. *)
Lemma toString_pieces (z : Z) :
  exists u,
    u <> Nil /\ Z.of_uint u = Z.abs z
    /\ Js.split_dash (Js.toString z)
       = if z <? 0 then [""%string; NilEmpty.string_of_uint u]
         else [NilEmpty.string_of_uint u].
Proof.
  unfold Js.toString. destruct z as [|p|p]; simpl.
  - exists (D0 Nil). repeat split; discriminate.
  - exists (Pos.to_uint p). split; [apply Unsigned.to_uint_nonnil|].
    split; [apply (DecimalZ.of_to (Zpos p))|].
    apply split_dash_digits_end.
  - exists (Pos.to_uint p). split; [apply Unsigned.to_uint_nonnil|].
    split; [apply (DecimalZ.of_to (Zpos p))|].
    rewrite split_dash_digits_end. reflexivity.
Qed.

Lemma toString_pieces_inj (z z' : Z) (r r' : list string) :
  Js.split_dash (Js.toString z) ++ r = Js.split_dash (Js.toString z') ++ r' ->
  z = z' /\ r = r'.
Proof.
  destruct (toString_pieces z) as (u & Hu & Vu & ->).
  destruct (toString_pieces z') as (u' & Hu' & Vu' & ->).
  destruct (z <? 0) eqn:Ez, (z' <? 0) eqn:Ez'; simpl; intros E;
    inversion E as [[E1 E2]].
  - apply string_of_uint_inj in E1. subst u'.
    apply Z.ltb_lt in Ez. apply Z.ltb_lt in Ez'. split; [lia|reflexivity].
  - symmetry in E1. apply string_of_uint_nonempty in E1; [destruct E1|exact Hu'].
  - apply string_of_uint_nonempty in E1; [destruct E1|exact Hu].
  - apply string_of_uint_inj in E1. subst u'.
    apply Z.ltb_ge in Ez. apply Z.ltb_ge in Ez'. split; [lia|reflexivity].
Qed.

Lemma dayTimeKey_pieces (d s : Z) :
  Js.split_dash (dayTimeKey d s)
  = Js.split_dash (Js.toString d) ++ Js.split_dash (Js.toString s).
Proof. unfold dayTimeKey. apply split_dash_app. Qed.

Lemma dayTimeKey_injective (d s d' s' : Z) :
  dayTimeKey d s = dayTimeKey d' s' -> d = d' /\ s = s'.
Proof.
  intros E. apply (f_equal Js.split_dash) in E.
  rewrite !dayTimeKey_pieces in E.
  apply toString_pieces_inj in E. destruct E as [-> E]. split; [reflexivity|].
  rewrite <- (app_nil_r (Js.split_dash (Js.toString s))) in E.
  rewrite <- (app_nil_r (Js.split_dash (Js.toString s'))) in E.
  apply toString_pieces_inj in E. tauto.
Qed.

(** X1.  The grouping key of a day and a slot that are not negative reads
    back as that day and that slot: a conflict is recorded at the day and
    slot its schedules share. *)
Theorem dayTimeKey_round_trip (d s : Z) :
  0 <= d -> 0 <= s -> parseDayTime (dayTimeKey d s) = (d, s).
Proof. apply parseDayTime_dayTimeKey. Qed.

(** X1 for Friday, slot 4. *)
Lemma dayTimeKey_round_trip_witness : parseDayTime (dayTimeKey 5 4) = (5, 4).
Proof. apply dayTimeKey_round_trip; lia. Defined.

(** X2.  A negative index does not read back.  The minus sign of a negative
    day is taken for a separator: the day reads as 0 and the slot as the
    day's absolute value, whatever the slot was.  A negative slot after a day
    that is not negative reads as 0. *)
Theorem parseDayTime_misreads_negative_index (d s : Z) :
  (d < 0 -> parseDayTime (dayTimeKey d s) = (0, - d))
  /\ (0 <= d -> s < 0 -> parseDayTime (dayTimeKey d s) = (d, 0)).
Proof.
  unfold parseDayTime. rewrite dayTimeKey_pieces.
  destruct (toString_pieces d) as (u & Hu & Vu & ->).
  destruct (toString_pieces s) as (v & Hv & Vv & ->).
  split.
  - intros Hd. replace (d <? 0) with true by (symmetry; apply Z.ltb_lt; lia).
    simpl. unfold numberAt. simpl. rewrite Number_digits. f_equal. lia.
  - intros Hd Hs.
    replace (d <? 0) with false by (symmetry; apply Z.ltb_ge; lia).
    replace (s <? 0) with true by (symmetry; apply Z.ltb_lt; lia).
    simpl. unfold numberAt. simpl. rewrite Number_digits. f_equal. lia.
Qed.

(** X2 for day -3, slot 2 and for day 1, slot -2. *)
Lemma parseDayTime_misreads_negative_index_witness :
  parseDayTime (dayTimeKey (-3) 2) = (0, 3)
  /\ parseDayTime (dayTimeKey 1 (-2)) = (1, 0).
Proof.
  split.
  - apply (proj1 (parseDayTime_misreads_negative_index (-3) 2)). lia.
  - apply (proj2 (parseDayTime_misreads_negative_index 1 (-2))); lia.
Defined.

Lemma setHas_occupied_inv (all : list Schedule.t) (d s : Z) :
  setHas (occupiedSlots all) (dayTimeKey d s) = true ->
  exists x, In x all /\ Schedule.dayOfWeek x = d /\ Schedule.timeSlot x = s.
Proof.
  unfold setHas, occupiedSlots. intros H. apply existsb_exists in H.
  destruct H as (k & Hk & E). apply String.eqb_eq in E.
  apply in_map_iff in Hk. destruct Hk as (x & Hx & Hin). subst k.
  apply dayTimeKey_injective in E. destruct E as [-> ->]. eauto.
Qed.

(** X3.  Two (day, slot) pairs have the same key only when they are the same
    pair, whatever the integers; so the set of occupied keys holds the key of
    a pair exactly when some schedule entry sits on that pair. *)
Theorem occupiedSlots_exact (all : list Schedule.t) (d s d' s' : Z) :
  (dayTimeKey d s = dayTimeKey d' s' <-> d = d' /\ s = s')
  /\ (setHas (occupiedSlots all) (dayTimeKey d s) = true <->
      exists x, In x all /\ Schedule.dayOfWeek x = d
                /\ Schedule.timeSlot x = s).
Proof.
  split; split.
  - apply dayTimeKey_injective.
  - intros [-> ->]. reflexivity.
  - apply setHas_occupied_inv.
  - intros (x & Hx & <- & <-). apply setHas_occupied. exact Hx.
Qed.

(** ** What the generator proposes, read back from the store *)

Lemma includes_In (l : list Z) (x : Z) :
  Js.includes l x = true <-> In x l.
Proof.
  unfold Js.includes. rewrite existsb_exists. split.
  - intros (y & Hy & E). apply Z.eqb_eq in E. subst y. exact Hy.
  - intros H. exists x. split; [exact H | apply Z.eqb_refl].
Qed.






Lemma validSchedules_In (s : MemStorage.t) (conflict : Conflict.t)
  (schedule : Schedule.t) :
  In schedule (MemStorage.validSchedules s conflict) ->
  In (Schedule.id schedule) (Conflict.conflictingScheduleIds conflict)
  /\ mapGet Schedule.id (Schedule.id schedule) (MemStorage.schedules s)
     = Some schedule.
Proof.
  unfold MemStorage.validSchedules. intros H.
  apply in_flat_map in H. destruct H as (id & Hid & H).
  destruct (mapGet Schedule.id id (MemStorage.schedules s)) as [x|] eqn:E;
    [|destruct H].
  destruct H as [<- | []].
  destruct (mapGet_key _ _ _ E) as [Hk _]. rewrite Hk. auto.
Qed.





(** X6.  Every suggestion of a batch, of whatever family, is about one of
    the conflict's own schedule ids, and one that still names a schedule
    entry of the store. *)
Theorem suggestions_target_conflicting_schedules (e : MemStorage.env)
  (conflictId : Z) (conflict : Conflict.t) (sg : ConflictSuggestion.t) :
  let st := MemStorage.store e in
  MemStorage.getConflictById st conflictId = Some conflict ->
  In sg (fst (MemStorage.generateConflictSuggestions conflictId e)) ->
  In (ConflictSuggestion.scheduleId sg)
     (Conflict.conflictingScheduleIds conflict)
  /\ exists schedule,
       mapGet Schedule.id (ConflictSuggestion.scheduleId sg)
         (MemStorage.schedules st) = Some schedule
       /\ In schedule (MemStorage.schedules st).
Proof.
  intros st Hc Hin.
  apply stamp_In in Hin. destruct Hin as (dr & Hdr & _ & Hid & _ & _).
  apply MemStorage_drafts_In in Hdr.
  destruct Hdr as (c' & schedule & Hc' & Hvalid & Hd).
  fold st in Hc', Hvalid, Hd.
  rewrite Hc in Hc'. inversion Hc'; subst c'. clear Hc'.
  assert (E : Draft.scheduleId dr = Schedule.id schedule).
  { apply MemStorage_draftsFor_In in Hd.
    destruct Hd as [(p & _ & _ & ->)
                   | [(other & _ & ->) | (t & _ & _ & ->)]];
      [destruct p|..]; reflexivity. }
  destruct (validSchedules_In _ _ _ Hvalid) as [H1 H2].
  rewrite Hid, E. split; [exact H1|].
  exists schedule. split; [exact H2|].
  apply (mapGet_key _ _ _ H2).
Qed.

(** X6 at [sampleServer]: the suggestion at position 30 of conflict 1's
    batch is about schedule 1, one of the conflicting ids 1 and 2. *)
Lemma suggestions_target_conflicting_schedules_witness :
  In (ConflictSuggestion.scheduleId
        (nth 30%nat
           (fst (MemStorage.generateConflictSuggestions 1 sampleServer))
           noSuggestion))
     [1; 2].
Proof.
  destruct (MemStorage.getConflictById (MemStorage.store sampleServer) 1)
    as [c|] eqn:Hc; [|vm_compute in Hc; discriminate].
  assert (Hi : Conflict.conflictingScheduleIds c = [1; 2])
    by (vm_compute in Hc; inversion Hc; reflexivity).
  rewrite <- Hi.
  refine (proj1 (@suggestions_target_conflicting_schedules sampleServer 1 c
                   _ Hc _)).
  vm_compute. do 30 right. left. reflexivity.
Defined.




(** ** Maps whose values carry their key *)

Lemma distinct_NoDup (l : list Z) : distinct l = true <-> NoDup l.
Proof.
  induction l as [|x r IH]; simpl.
  - split; [constructor | reflexivity].
  - rewrite andb_true_iff, negb_true_iff, IH. split.
    + intros [Hx Hr]. constructor; [|exact Hr].
      intros Hin. apply includes_In in Hin. congruence.
    + intros H. inversion H as [|? ? Hx Hr]; subst. split; [|exact Hr].
      destruct (Js.includes r x) eqn:E; [|reflexivity].
      apply includes_In in E. contradiction.
Qed.

Section KeyedFacts.
Variable V : Type.
Variable key : V -> Z.

Lemma mapGet_None (k : Z) (m : list V) :
  mapGet key k m = None <-> forall x, In x m -> key x <> k.
Proof.
  unfold mapGet. split.
  - intros H x Hx E. apply (find_none _ _ H) in Hx.
    rewrite E, Z.eqb_refl in Hx. discriminate.
  - intros H. destruct (find _ m) as [x|] eqn:E; [|reflexivity].
    apply find_some in E. destruct E as [Hx E]. apply Z.eqb_eq in E.
    exfalso. exact (H x Hx E).
Qed.

Lemma mapSet_absent (k : Z) (v : V) (m : list V) :
  mapGet key k m = None -> mapSet key k v m = m ++ [v].
Proof. intros H. apply mapSet_fresh. apply mapGet_None. exact H. Qed.

Lemma map_key_mapSet (k : Z) (v x : V) (m : list V) :
  mapGet key k m = Some x -> key v = k ->
  map key (mapSet key k v m) = map key m.
Proof.
  unfold mapGet. intros H Hv. induction m as [|y r IH]; simpl in *;
    [discriminate|].
  destruct (key y =? k) eqn:E; simpl.
  - apply Z.eqb_eq in E. congruence.
  - rewrite IH; [reflexivity | exact H].
Qed.

Lemma mapDelete_absent (k : Z) (m : list V) :
  mapGet key k m = None -> mapDelete key k m = (false, m).
Proof.
  unfold mapGet. induction m as [|y r IH]; simpl; [reflexivity|].
  destruct (key y =? k); [discriminate|].
  intros H. rewrite (IH H). reflexivity.
Qed.

Lemma mapDelete_found (k : Z) (m : list V) :
  fst (mapDelete key k m)
  = match mapGet key k m with Some _ => true | None => false end.
Proof.
  unfold mapGet. induction m as [|y r IH]; simpl; [reflexivity|].
  destruct (key y =? k); [reflexivity|].
  destruct (mapDelete key k r). simpl in *. exact IH.
Qed.

Lemma mapDelete_filter (k : Z) (m : list V) :
  NoDup (map key m) ->
  snd (mapDelete key k m) = filter (fun x => negb (key x =? k)) m.
Proof.
  induction m as [|y r IH]; simpl; [reflexivity|].
  intros H. inversion H as [|? ? Hy Hr]; subst.
  destruct (key y =? k) eqn:E; simpl.
  - apply Z.eqb_eq in E. symmetry. apply forallb_filter_id.
    apply forallb_forall. intros x Hx. apply negb_true_iff, Z.eqb_neq.
    intros Ex. apply Hy. rewrite E, <- Ex. apply in_map. exact Hx.
  - specialize (IH Hr). destruct (mapDelete key k r). simpl in *.
    rewrite IH. reflexivity.
Qed.

Lemma mapGet_filter_other (k k' : Z) (m : list V) :
  k' <> k ->
  mapGet key k' (filter (fun x => negb (key x =? k)) m) = mapGet key k' m.
Proof.
  unfold mapGet. intros Hne. induction m as [|y r IH]; simpl; [reflexivity|].
  destruct (key y =? k) eqn:E; simpl.
  - apply Z.eqb_eq in E.
    replace (key y =? k') with false by (symmetry; apply Z.eqb_neq; lia).
    exact IH.
  - destruct (key y =? k'); [reflexivity | exact IH].
Qed.

Lemma mapGet_filter_same (k : Z) (m : list V) :
  mapGet key k (filter (fun x => negb (key x =? k)) m) = None.
Proof.
  apply mapGet_None. intros x Hx. apply filter_In in Hx.
  destruct Hx as [_ Hx]. apply negb_true_iff, Z.eqb_neq in Hx. exact Hx.
Qed.

Lemma NoDup_map_filter (P : V -> bool) (m : list V) :
  NoDup (map key m) -> NoDup (map key (filter P m)).
Proof.
  induction m as [|y r IH]; simpl; [auto|].
  intros H. inversion H as [|? ? Hy Hr]; subst.
  destruct (P y); simpl; [|auto].
  constructor; [|auto].
  intros Hin. apply Hy. apply in_map_iff in Hin.
  destruct Hin as (x & Ex & Hx). apply filter_In in Hx.
  rewrite <- Ex. apply in_map. tauto.
Qed.

Lemma keyed_iff (next : Z) (m : list V) :
  keyed key next m = true <->
  0 < next /\ NoDup (map key m) /\ forall x, In x m -> 0 < key x < next.
Proof.
  unfold keyed. rewrite !andb_true_iff, Z.ltb_lt, distinct_NoDup,
    forallb_forall.
  split.
  - intros [[H0 H1] H2]. repeat split; auto;
      specialize (H2 x H); apply andb_true_iff in H2;
      rewrite !Z.ltb_lt in H2; tauto.
  - intros (H0 & H1 & H2). repeat split; auto.
    intros x Hx. apply andb_true_iff. rewrite !Z.ltb_lt.
    exact (H2 x Hx).
Qed.

Lemma keyed_absent (next : Z) (m : list V) :
  keyed key next m = true -> mapGet key next m = None.
Proof.
  intros H. apply keyed_iff in H. destruct H as (_ & _ & H).
  apply mapGet_None. intros x Hx. specialize (H x Hx). lia.
Qed.

Lemma keyed_create (next : Z) (v : V) (m : list V) :
  keyed key next m = true -> key v = next ->
  keyed key (next + 1) (mapSet key next v m) = true.
Proof.
  intros H Hv. rewrite mapSet_absent by (apply keyed_absent; exact H).
  apply keyed_iff in H. destruct H as (H0 & H1 & H2).
  apply keyed_iff. split; [lia|]. split.
  - rewrite map_app. simpl.
    apply NoDup_app; [exact H1 | repeat constructor; simpl; tauto |].
    intros a Ha [<- | []]. apply in_map_iff in Ha.
    destruct Ha as (x & Ex & Hx). specialize (H2 x Hx). lia.
  - intros x Hx. apply in_app_or in Hx. destruct Hx as [Hx | [<- | []]].
    + specialize (H2 x Hx). lia.
    + lia.
Qed.

Lemma keyed_update (next k : Z) (v x : V) (m : list V) :
  keyed key next m = true -> mapGet key k m = Some x -> key v = k ->
  keyed key next (mapSet key k v m) = true.
Proof.
  intros H Hx Hv. apply keyed_iff in H. destruct H as (H0 & H1 & H2).
  apply keyed_iff. split; [exact H0|]. split.
  - rewrite map_key_mapSet with (x := x); [exact H1 | exact Hx | exact Hv].
  - intros y Hy. apply mapSet_In in Hy. destruct Hy as [-> | Hy]; [|auto].
    rewrite Hv. destruct (mapGet_key _ _ _ Hx) as [<- Hin]. auto.
Qed.

Lemma keyed_delete (next k : Z) (m : list V) :
  keyed key next m = true ->
  keyed key next (snd (mapDelete key k m)) = true.
Proof.
  intros H. apply keyed_iff in H. destruct H as (H0 & H1 & H2).
  rewrite mapDelete_filter by exact H1.
  apply keyed_iff. split; [exact H0|]. split.
  - apply NoDup_map_filter. exact H1.
  - intros x Hx. apply filter_In in Hx. apply H2. tauto.
Qed.

End KeyedFacts.

(** ** The schedule routes *)

Lemma createSchedule_spec (e : MemStorage.env) (data : Schedule.t) :
  let id := MemStorage.scheduleId (MemStorage.store e) in
  let created :=
    Schedule.mk id (Schedule.programId data) (Schedule.semester data)
      (Schedule.dayOfWeek data) (Schedule.timeSlot data)
      (Schedule.courseId data) (Schedule.teacherId data)
      (Schedule.roomNumber data) in
  MemStorage.createSchedule data e
  = (created,
     afterDetect
       (MemStorage.withStore
          (fun s => MemStorage.setSchedules
                      (mapSet Schedule.id id created (MemStorage.schedules s))
                      (MemStorage.setScheduleId (id + 1) s)) e)).
Proof.
  cbv zeta. unfold MemStorage.createSchedule, bind, gets, modify, ret.
  rewrite detectConflicts_afterDetect. reflexivity.
Qed.

Lemma deleteSchedule_spec (e : MemStorage.env) (id : Z) :
  MemStorage.deleteSchedule id e
  = (fst (mapDelete Schedule.id id (MemStorage.schedules (MemStorage.store e))),
     afterDetect
       (MemStorage.withStore
          (MemStorage.setSchedules
             (snd (mapDelete Schedule.id id
                     (MemStorage.schedules (MemStorage.store e))))) e)).
Proof.
  unfold MemStorage.deleteSchedule.
  destruct (mapDelete Schedule.id id
              (MemStorage.schedules (MemStorage.store e))) as [found rest].
  rewrite detectConflicts_afterDetect. reflexivity.
Qed.

Lemma keyedStore_schedules (e : MemStorage.env) :
  keyedStore e = true ->
  keyed Schedule.id (MemStorage.scheduleId (MemStorage.store e))
        (MemStorage.schedules (MemStorage.store e)) = true.
Proof.
  unfold keyedStore. intros H. apply andb_true_iff in H. tauto.
Qed.

(** X9.  POST /api/schedules in a store whose keys are in order: the new
    entry gets the id the counter shows, which no entry has; it is appended
    to the schedule list, whose other entries stay as they were; the counter
    moves on by one; and a detection pass has run over the new list, leaving
    the conflict store as that pass built it. *)
Theorem post_schedules_appends (e : MemStorage.env) (data : Schedule.t) :
  keyedStore e = true ->
  let s := MemStorage.store e in
  let id := MemStorage.scheduleId s in
  let created :=
    Schedule.mk id (Schedule.programId data) (Schedule.semester data)
      (Schedule.dayOfWeek data) (Schedule.timeSlot data)
      (Schedule.courseId data) (Schedule.teacherId data)
      (Schedule.roomNumber data) in
  let e' := snd (Api.post_schedules data e) in
  let s' := MemStorage.store e' in
  fst (Api.post_schedules data e) = 201
  /\ (forall x, In x (MemStorage.schedules s) -> Schedule.id x <> id)
  /\ MemStorage.schedules s' = MemStorage.schedules s ++ [created]
  /\ mapGet Schedule.id id (MemStorage.schedules s') = Some created
  /\ MemStorage.scheduleId s' = id + 1
  /\ MemStorage.passes e' = MemStorage.passes e ++ [MemStorage.schedules s']
  /\ MemStorage.conflicts s' = detected (MemStorage.schedules s')
  /\ keyedStore e' = true.
Proof.
  intros Hk s id created e' s'.
  pose proof (keyedStore_schedules e Hk) as Hks.
  pose proof (@keyed_absent _ Schedule.id _ _ Hks) as Habs. fold s id in Habs.
  assert (He' : e' = afterDetect
                       (MemStorage.withStore
                          (fun s => MemStorage.setSchedules
                                      (mapSet Schedule.id id created
                                         (MemStorage.schedules s))
                                      (MemStorage.setScheduleId (id + 1) s))
                          e)).
  { subst e'. unfold Api.post_schedules, bind, ret.
    rewrite (createSchedule_spec e data). reflexivity. }
  assert (Hl : MemStorage.schedules s' = MemStorage.schedules s ++ [created]).
  { subst s'. rewrite He', afterDetect_schedules. simpl.
    apply mapSet_absent. exact Habs. }
  split; [|split; [|split; [|split; [|split; [|split; [|split]]]]]].
  - unfold Api.post_schedules, bind, ret.
    destruct (MemStorage.createSchedule data e). reflexivity.
  - apply mapGet_None. exact Habs.
  - exact Hl.
  - subst s'. rewrite He', afterDetect_schedules. simpl.
    apply mapGet_mapSet_same. reflexivity.
  - subst s'. rewrite He'. reflexivity.
  - rewrite He', afterDetect_passes. subst s'.
    rewrite He', afterDetect_schedules. reflexivity.
  - subst s'. rewrite He', afterDetect_conflicts, afterDetect_schedules.
    reflexivity.
  - rewrite He'. unfold keyedStore in *. 
    apply andb_true_iff in Hk. destruct Hk as [Hk _].
    apply andb_true_iff. split; [exact Hk|]. simpl.
    apply keyed_create; [exact Hks | reflexivity].
Qed.

(** X9 at [sampleServer]: a fifth schedule gets id 5. *)
Lemma post_schedules_appends_witness :
  mapGet Schedule.id 5
    (MemStorage.schedules
       (MemStorage.store
          (snd (Api.post_schedules (sampleSchedule 2 0 0) sampleServer))))
  = Some (Schedule.mk 5 1 1 0 0 1 2 None).
Proof.
  assert (Hk : keyedStore sampleServer = true) by (vm_compute; reflexivity).
  exact (proj1 (proj2 (proj2 (proj2
           (@post_schedules_appends sampleServer (sampleSchedule 2 0 0) Hk))))).
Defined.

(** X10.  PUT /api/schedules/:id.  For an id that is not in the store the
    answer is 404 and nothing at all changes: no detection pass runs.  For
    an id that is, the answer is 200; the entry is replaced in place by its
    patched form, which keeps the id; no other entry changes and the order
    of the list stays; and a detection pass has run over the new list. *)
Theorem put_schedules_outcomes (e : MemStorage.env) (id : Z)
  (p : SchedulePatch.t) :
  let before := MemStorage.schedules (MemStorage.store e) in
  let e' := snd (Api.put_schedules id p e) in
  let after := MemStorage.schedules (MemStorage.store e') in
  match mapGet Schedule.id id before with
  | None => Api.put_schedules id p e = (404, e)
  | Some x =>
      fst (Api.put_schedules id p e) = 200
      /\ after = mapSet Schedule.id id (MemStorage.patchSchedule x p) before
      /\ map Schedule.id after = map Schedule.id before
      /\ mapGet Schedule.id id after = Some (MemStorage.patchSchedule x p)
      /\ Schedule.id (MemStorage.patchSchedule x p) = id
      /\ (forall k, k <> id ->
                    mapGet Schedule.id k after = mapGet Schedule.id k before)
      /\ MemStorage.passes e' = MemStorage.passes e ++ [after]
      /\ MemStorage.conflicts (MemStorage.store e') = detected after
  end.
Proof.
  intros before e' after.
  destruct (mapGet Schedule.id id before) as [x|] eqn:Hx.
  - pose proof (mapGet_key _ _ _ Hx) as [Hid _].
    assert (Hpid : Schedule.id (MemStorage.patchSchedule x p) = id)
      by exact Hid.
    assert (He : Api.put_schedules id p e
                 = (200,
                    afterDetect
                      (MemStorage.withStore
                         (fun s => MemStorage.setSchedules
                                     (mapSet Schedule.id id
                                        (MemStorage.patchSchedule x p)
                                        (MemStorage.schedules s)) s) e))).
    { unfold Api.put_schedules, bind, ret.
      rewrite (updateSchedule_present _ _ _ Hx). reflexivity. }
    assert (Ha : after = mapSet Schedule.id id (MemStorage.patchSchedule x p)
                           before).
    { subst after e'. rewrite He. simpl snd.
      rewrite afterDetect_schedules. reflexivity. }
    split; [rewrite He; reflexivity|]. split; [exact Ha|].
    split; [rewrite Ha; apply map_key_mapSet with (x := x); assumption|].
    split; [rewrite Ha; apply mapGet_mapSet_same; exact Hpid|].
    split; [exact Hpid|].
    split; [intros k Hk; rewrite Ha; apply mapGet_mapSet_other; assumption|].
    subst after e'. rewrite He. simpl snd.
    rewrite afterDetect_passes, afterDetect_conflicts, afterDetect_schedules.
    split; reflexivity.
  - unfold Api.put_schedules, bind, ret.
    rewrite (updateSchedule_absent _ _ _ Hx). reflexivity.
Qed.

(** X11.  DELETE /api/schedules/:id in a store whose keys are in order.  The
    answer is 204 when the id is in the store and 404 when it is not; the
    entry with that id, if any, is gone and every other entry stays, in
    order; and a detection pass runs in both cases: after a 404 too the
    conflict store is the one that pass built, so at the response the
    suggestions that were stored are no longer there (the chains of the
    pass attach new ones, under new ids). *)
Theorem delete_schedules_outcomes (e : MemStorage.env) (id : Z) :
  keyedStore e = true ->
  let before := MemStorage.schedules (MemStorage.store e) in
  let e' := snd (Api.delete_schedules id e) in
  let after := MemStorage.schedules (MemStorage.store e') in
  fst (Api.delete_schedules id e) = (if scheduled e id then 204 else 404)
  /\ after = filter (fun x => negb (Schedule.id x =? id)) before
  /\ mapGet Schedule.id id after = None
  /\ (forall k, k <> id ->
                mapGet Schedule.id k after = mapGet Schedule.id k before)
  /\ (scheduled e id = false -> after = before)
  /\ MemStorage.passes e' = MemStorage.passes e ++ [after]
  /\ MemStorage.conflicts (MemStorage.store e') = detected after
  /\ (forall c, In c (MemStorage.conflicts (MemStorage.store e')) ->
                Conflict.suggestions c = [])
  /\ keyedStore e' = true.
Proof.
  intros Hk before e' after.
  pose proof (keyedStore_schedules e Hk) as Hks.
  pose proof (proj1 (keyed_iff _ _ _) Hks) as (_ & Hnd & _).
  assert (He : Api.delete_schedules id e
               = ((if scheduled e id then 204 else 404),
                  afterDetect
                    (MemStorage.withStore
                       (MemStorage.setSchedules
                          (filter (fun x => negb (Schedule.id x =? id))
                             before)) e))).
  { unfold Api.delete_schedules, bind, ret. rewrite deleteSchedule_spec.
    rewrite mapDelete_found, mapDelete_filter by exact Hnd.
    unfold scheduled. fold before.
    destruct (mapGet Schedule.id id before); reflexivity. }
  assert (Ha : after = filter (fun x => negb (Schedule.id x =? id)) before).
  { subst after e'. rewrite He. simpl snd.
    rewrite afterDetect_schedules. reflexivity. }
  split; [rewrite He; reflexivity|]. split; [exact Ha|].
  split; [rewrite Ha; apply mapGet_filter_same|].
  split; [intros k Hne; rewrite Ha; apply mapGet_filter_other; exact Hne|].
  split.
  { intros Hs. rewrite Ha. apply forallb_filter_id. apply forallb_forall.
    intros x Hx. apply negb_true_iff, Z.eqb_neq.
    unfold scheduled in Hs. fold before in Hs.
    destruct (mapGet Schedule.id id before) eqn:E; [discriminate|].
    apply (proj1 (mapGet_None _ _ _) E x Hx). }
  assert (Hc : MemStorage.conflicts (MemStorage.store e') = detected after).
  { subst after e'. rewrite He. simpl snd.
    rewrite afterDetect_conflicts, afterDetect_schedules. reflexivity. }
  split.
  { subst after e'. rewrite He. simpl snd.
    rewrite afterDetect_passes, afterDetect_schedules. reflexivity. }
  split; [exact Hc|]. split.
  { intros c Hin. rewrite Hc in Hin. apply (detected_fresh _ _ Hin). }
  subst e'. rewrite He. simpl snd. unfold keyedStore in *.
  apply andb_true_iff in Hk. destruct Hk as [Hk _].
  apply andb_true_iff. split; [exact Hk|]. simpl.
  rewrite <- mapDelete_filter by exact Hnd.
  apply keyed_delete. exact Hks.
Qed.

(** X11 at [sampleServer]: deleting schedule 9, which does not exist, is
    answered 404, and the 62 suggestions stored with conflict 1 are gone. *)
Lemma delete_schedules_outcomes_witness :
  fst (Api.delete_schedules 9 sampleServer) = 404
  /\ map (fun c => List.length (Conflict.suggestions c))
       (MemStorage.conflicts (MemStorage.store sampleServer)) = [62%nat]
  /\ forall c,
       In c (MemStorage.conflicts
               (MemStorage.store (snd (Api.delete_schedules 9 sampleServer)))) ->
       Conflict.suggestions c = [].
Proof.
  assert (Hk : keyedStore sampleServer = true) by (vm_compute; reflexivity).
  pose proof (@delete_schedules_outcomes sampleServer 9 Hk) as H.
  cbv zeta in H. destruct H as (Hst & _ & _ & _ & _ & _ & _ & Hnone & _).
  split; [|split; [vm_compute; reflexivity | exact Hnone]].
  rewrite Hst. vm_compute. reflexivity.
Defined.

(** ** The teacher routes *)

Lemma keyedStore_teachers (e : MemStorage.env) :
  keyedStore e = true ->
  keyed Teacher.id (MemStorage.teacherId (MemStorage.store e))
        (MemStorage.teachers (MemStorage.store e)) = true.
Proof.
  unfold keyedStore. intros H. apply andb_true_iff in H.
  destruct H as [H _]. apply andb_true_iff in H. tauto.
Qed.

(** X12.  PUT /api/teachers/:id.  For an id that is not in the store the
    answer is 404 and nothing changes.  For an id that is, the answer is 200
    and the teacher is replaced in place by the patched record, which keeps
    the id and takes from the body exactly the keys the body has; the other
    teachers, the schedules, the conflict store with its stored suggestions,
    and the pending chains stay as they were, and no detection pass runs. *)
Theorem put_teachers_outcomes (e : MemStorage.env) (id : Z)
  (p : TeacherPatch.t) :
  let s := MemStorage.store e in
  let e' := snd (Api.put_teachers id p e) in
  let s' := MemStorage.store e' in
  match MemStorage.getTeacherById s id with
  | None => Api.put_teachers id p e = (404, e)
  | Some x =>
      fst (Api.put_teachers id p e) = 200
      /\ MemStorage.getTeacherById s' id = Some (MemStorage.patchTeacher x p)
      /\ Teacher.id (MemStorage.patchTeacher x p) = id
      /\ Teacher.timePreferences (MemStorage.patchTeacher x p)
         = match TeacherPatch.timePreferences p with
           | Some v => v
           | None => Teacher.timePreferences x
           end
      /\ map Teacher.id (MemStorage.teachers s')
         = map Teacher.id (MemStorage.teachers s)
      /\ (forall k, k <> id ->
                    MemStorage.getTeacherById s' k
                    = MemStorage.getTeacherById s k)
      /\ MemStorage.schedules s' = MemStorage.schedules s
      /\ MemStorage.conflicts s' = MemStorage.conflicts s
      /\ MemStorage.courses s' = MemStorage.courses s
      /\ MemStorage.jobs e' = MemStorage.jobs e
      /\ MemStorage.passes e' = MemStorage.passes e
  end.
Proof.
  intros s e' s'. unfold MemStorage.getTeacherById.
  destruct (mapGet Teacher.id id (MemStorage.teachers s)) as [x|] eqn:Hx.
  - pose proof (mapGet_key _ _ _ Hx) as [Hid _].
    assert (He : Api.put_teachers id p e
                 = (200,
                    MemStorage.withStore
                      (fun s => MemStorage.setTeachers
                                  (mapSet Teacher.id id
                                     (MemStorage.patchTeacher x p)
                                     (MemStorage.teachers s)) s) e)).
    { unfold Api.put_teachers, bind, ret, MemStorage.updateTeacher.
      fold s. rewrite Hx. reflexivity. }
    subst s' e'. rewrite He. simpl.
    split; [reflexivity|].
    split; [apply mapGet_mapSet_same; exact Hid|].
    split; [exact Hid|]. split; [reflexivity|].
    split; [apply map_key_mapSet with (x := x); assumption|].
    split; [intros k Hk; apply mapGet_mapSet_other; assumption|].
    repeat split; reflexivity.
  - unfold Api.put_teachers, bind, ret, MemStorage.updateTeacher.
    fold s. rewrite Hx. reflexivity.
Qed.

Lemma MemStorage_move_description (e : MemStorage.env) (conflictId : Z)
  (conflict : Conflict.t) (sg : ConflictSuggestion.t) (d s : Z) :
  let st := MemStorage.store e in
  MemStorage.getConflictById st conflictId = Some conflict ->
  In sg (fst (MemStorage.generateConflictSuggestions conflictId e)) ->
  ConflictSuggestion.action sg = move d s ->
  exists schedule,
    In schedule (MemStorage.validSchedules st conflict)
    /\ draftOf sg
       = MemStorage.moveDraft st
           (MemStorage.getTeacherById st (Conflict.teacherId conflict))
           schedule (d, s).
Proof.
  intros st Hc Hin Hact.
  apply stamp_In in Hin. destruct Hin as (dr & Hdr & Hdesc & Hid & Ha & _).
  apply MemStorage_drafts_In in Hdr.
  destruct Hdr as (c' & schedule & Hc' & Hvalid & Hd).
  fold st in Hc', Hvalid, Hd.
  rewrite Hc in Hc'. inversion Hc'; subst c'. clear Hc'.
  assert (Edr : draftOf sg = dr).
  { unfold draftOf. rewrite Hdesc, Hid, Ha. destruct dr. reflexivity. }
  apply MemStorage_draftsFor_In in Hd.
  destruct Hd as [(q & _ & _ & ->)
                 | [(o & _ & ->) | (t & _ & _ & ->)]];
    [|rewrite Hact in Ha; discriminate|rewrite Hact in Ha; discriminate].
  destruct q as [d0 s0]. rewrite Hact in Ha. simpl in Ha.
  inversion Ha; subst d0 s0.
  exists schedule. split; [exact Hvalid | exact Edr].
Qed.

(** X13.  DELETE /api/teachers/:id in a store whose keys are in order.  The
    answer is 204 when the teacher is in the store and 404 when not; the
    teacher is gone afterwards and the other teachers stay.  Nothing else
    is touched and no detection pass runs: the teacher's schedule entries
    and conflicts remain.  Suggestions generated afterwards for a conflict
    of that teacher word every move as for a teacher without preferences:
    each carries the note that it matches. *)
Theorem delete_teachers_outcomes (e : MemStorage.env) (id : Z) :
  keyedStore e = true ->
  let s := MemStorage.store e in
  let e' := snd (Api.delete_teachers id e) in
  let s' := MemStorage.store e' in
  fst (Api.delete_teachers id e)
  = match MemStorage.getTeacherById s id with Some _ => 204 | None => 404 end
  /\ MemStorage.getTeacherById s' id = None
  /\ (forall k, k <> id ->
                MemStorage.getTeacherById s' k = MemStorage.getTeacherById s k)
  /\ MemStorage.schedules s' = MemStorage.schedules s
  /\ MemStorage.conflicts s' = MemStorage.conflicts s
  /\ MemStorage.jobs e' = MemStorage.jobs e
  /\ MemStorage.passes e' = MemStorage.passes e
  /\ (forall conflictId conflict sg d sl,
         MemStorage.getConflictById s' conflictId = Some conflict ->
         Conflict.teacherId conflict = id ->
         In sg (fst (MemStorage.generateConflictSuggestions conflictId e')) ->
         ConflictSuggestion.action sg = move d sl ->
         exists schedule,
           In schedule (MemStorage.validSchedules s' conflict)
           /\ draftOf sg = MemStorage.moveDraft s' None schedule (d, sl)
           /\ preferenceMatch None d sl = true).
Proof.
  intros Hk s e' s'.
  pose proof (keyedStore_teachers e Hk) as Hkt.
  pose proof (proj1 (keyed_iff _ _ _) Hkt) as (_ & Hnd & _).
  assert (He : Api.delete_teachers id e
               = (match MemStorage.getTeacherById s id with
                  | Some _ => 204 | None => 404 end,
                  MemStorage.withStore
                    (MemStorage.setTeachers
                       (filter (fun x => negb (Teacher.id x =? id))
                          (MemStorage.teachers s))) e)).
  { unfold Api.delete_teachers, bind, ret, MemStorage.deleteTeacher.
    fold s.
    pose proof (mapDelete_found Teacher.id id (MemStorage.teachers s)) as Hf.
    pose proof (@mapDelete_filter _ Teacher.id id _ Hnd) as Hr. fold s in Hr.
    destruct (mapDelete Teacher.id id (MemStorage.teachers s))
      as [found rest]. simpl in Hf, Hr. subst found rest.
    unfold MemStorage.getTeacherById.
    destruct (mapGet Teacher.id id (MemStorage.teachers s)); reflexivity. }
  assert (Hgone : MemStorage.getTeacherById s' id = None).
  { subst s' e'. rewrite He. simpl. apply mapGet_filter_same. }
  split; [rewrite He; reflexivity|]. split; [exact Hgone|].
  split.
  { intros k Hne. subst s' e'. rewrite He. simpl.
    apply mapGet_filter_other. exact Hne. }
  split; [subst s' e'; rewrite He; reflexivity|].
  split; [subst s' e'; rewrite He; reflexivity|].
  split; [subst e'; rewrite He; reflexivity|].
  split; [subst e'; rewrite He; reflexivity|].
  intros conflictId conflict sg d sl Hc Ht Hin Hact.
  destruct (@MemStorage_move_description e' conflictId conflict sg d sl
              Hc Hin Hact) as (schedule & Hv & Hd).
  fold s' in Hv, Hd. rewrite Ht, Hgone in Hd.
  exists schedule. auto.
Qed.

(** X13 at [sampleServer]: after Ann (teacher 1) is deleted, her schedules
    1 and 2 and conflict 1 are still there. *)
Lemma delete_teachers_outcomes_witness :
  fst (Api.delete_teachers 1 sampleServer) = 204
  /\ MemStorage.schedules
       (MemStorage.store (snd (Api.delete_teachers 1 sampleServer)))
     = MemStorage.schedules (MemStorage.store sampleServer)
  /\ MemStorage.conflicts
       (MemStorage.store (snd (Api.delete_teachers 1 sampleServer)))
     = MemStorage.conflicts (MemStorage.store sampleServer).
Proof.
  assert (Hk : keyedStore sampleServer = true) by (vm_compute; reflexivity).
  pose proof (@delete_teachers_outcomes sampleServer 1 Hk) as H.
  cbv zeta in H. destruct H as (Hst & _ & _ & Hs & Hc & _).
  split; [|split; [exact Hs | exact Hc]].
  rewrite Hst. vm_compute. reflexivity.
Defined.

(** ** What the running server keeps *)

(** A property of the server state that every storage method the routes
    call keeps, and the last step of a chain keeps, holds after every
    history. *)
Section ServerInvariant.
Variable P : MemStorage.env -> Prop.
Hypothesis P_createCourse :
  forall e c, P e -> P (snd (MemStorage.createCourse c e)).
Hypothesis P_updateCourse :
  forall e id p, P e -> P (snd (MemStorage.updateCourse id p e)).
Hypothesis P_deleteCourse :
  forall e id, P e -> P (snd (MemStorage.deleteCourse id e)).
Hypothesis P_createTeacher :
  forall e t, P e -> P (snd (MemStorage.createTeacher t e)).
Hypothesis P_updateTeacher :
  forall e id p, P e -> P (snd (MemStorage.updateTeacher id p e)).
Hypothesis P_deleteTeacher :
  forall e id, P e -> P (snd (MemStorage.deleteTeacher id e)).
Hypothesis P_createSchedule :
  forall e x, P e -> P (snd (MemStorage.createSchedule x e)).
Hypothesis P_updateSchedule :
  forall e id p, P e -> P (snd (MemStorage.updateSchedule id p e)).
Hypothesis P_deleteSchedule :
  forall e id, P e -> P (snd (MemStorage.deleteSchedule id e)).
Hypothesis P_detectConflicts :
  forall e, P e -> P (snd (MemStorage.detectConflicts e)).
Hypothesis P_generate :
  forall e id, P e -> P (snd (MemStorage.generateConflictSuggestions id e)).
Hypothesis P_markResolved :
  forall e id,
    P e ->
    P (snd (MemStorage.detectConflicts
              (snd (MemStorage.updateConflict id
                      (ConflictPatch.mk (Some true) None) e)))).
Hypothesis P_chainEnds :
  forall e id suggestions,
    P e ->
    P (snd (MemStorage.updateConflict id
              (ConflictPatch.mk None (Some suggestions)) e)).

Lemma applySuggestion_keeps (sg : ConflictSuggestion.t) (e : MemStorage.env) :
  P e -> P (snd (Routes.applySuggestion sg e)).
Proof.
  intros H. unfold Routes.applySuggestion.
  destruct (ConflictSuggestion.action sg) as [d s | o | t].
  - unfold bind, ret.
    pose proof (P_updateSchedule (ConflictSuggestion.scheduleId sg)
                  (SchedulePatch.mk None None (Some d) (Some s) None None None)
                  H) as H1.
    destruct (MemStorage.updateSchedule _ _ e). exact H1.
  - destruct (Routes.swapTarget o) as [w|]; [|exact H].
    unfold bind, gets, ret.
    match goal with
    | |- context [find ?f (MemStorage.getSchedules (MemStorage.store e))] =>
        destruct (find f (MemStorage.getSchedules (MemStorage.store e)))
          as [x1|]
    end; [|exact H].
    match goal with
    | |- context [find ?f (MemStorage.getSchedules (MemStorage.store e))] =>
        destruct (find f (MemStorage.getSchedules (MemStorage.store e)))
          as [x2|]
    end; [|exact H].
    cbv beta.
    pose proof (P_updateSchedule (Schedule.id x1)
                  (SchedulePatch.mk None None (Some (Schedule.dayOfWeek x2))
                     (Some (Schedule.timeSlot x2)) None None None) H) as H1.
    destruct (MemStorage.updateSchedule _ _ e) as [u1 e1]. simpl in H1.
    pose proof (P_updateSchedule (Schedule.id x2)
                  (SchedulePatch.mk None None (Some (Schedule.dayOfWeek x1))
                     (Some (Schedule.timeSlot x1)) None None None) H1) as H2.
    destruct (MemStorage.updateSchedule _ _ e1) as [u2 e2]. exact H2.
  - unfold bind, ret.
    pose proof (P_updateSchedule (ConflictSuggestion.scheduleId sg)
                  (SchedulePatch.mk None None None None None (Some t) None)
                  H) as H1.
    destruct (MemStorage.updateSchedule _ _ e). exact H1.
Qed.

Lemma resolveConflict_keeps (id : Z) (suggestionId : option uuid)
  (e : MemStorage.env) :
  P e -> P (snd (Routes.resolveConflict id suggestionId e)).
Proof.
  intros H. unfold Routes.resolveConflict.
  destruct suggestionId as [sid|]; [|exact H].
  unfold bind, gets, ret.
  destruct (MemStorage.getConflictById (MemStorage.store e) id) as [c|];
    [|exact H].
  match goal with
  | |- context [find ?f (Conflict.suggestions c)] =>
      destruct (find f (Conflict.suggestions c)) as [sg|]
  end; [|exact H].
  pose proof (applySuggestion_keeps sg H) as H1.
  destruct (Routes.applySuggestion sg e) as [[r|] e1]; [exact H1|].
  simpl in H1. pose proof (P_markResolved id H1) as H2.
  destruct (MemStorage.updateConflict id _ e1) as [u e2]. simpl in H2.
  destruct (MemStorage.detectConflicts e2) as [cs e3]. exact H2.
Qed.

Lemma handle_keeps (request : Api.Request) (e : MemStorage.env) :
  P e -> P (snd (Api.handle request e)).
Proof.
  intros H. destruct request; unfold Api.handle.
  - pose proof (P_createCourse validatedData H) as H1.
    unfold Api.post_courses, bind, ret.
    destruct (MemStorage.createCourse validatedData e). exact H1.
  - pose proof (P_updateCourse id validatedData H) as H1.
    unfold Api.put_courses, bind, ret.
    destruct (MemStorage.updateCourse id validatedData e). exact H1.
  - pose proof (P_deleteCourse id H) as H1.
    unfold Api.delete_courses, bind, ret.
    destruct (MemStorage.deleteCourse id e). exact H1.
  - pose proof (P_createTeacher validatedData H) as H1.
    unfold Api.post_teachers, bind, ret.
    destruct (MemStorage.createTeacher validatedData e). exact H1.
  - pose proof (P_updateTeacher id validatedData H) as H1.
    unfold Api.put_teachers, bind, ret.
    destruct (MemStorage.updateTeacher id validatedData e). exact H1.
  - pose proof (P_deleteTeacher id H) as H1.
    unfold Api.delete_teachers, bind, ret.
    destruct (MemStorage.deleteTeacher id e). exact H1.
  - pose proof (P_createSchedule validatedData H) as H1.
    unfold Api.post_schedules, bind, ret.
    destruct (MemStorage.createSchedule validatedData e). exact H1.
  - pose proof (P_updateSchedule id validatedData H) as H1.
    unfold Api.put_schedules, bind, ret.
    destruct (MemStorage.updateSchedule id validatedData e). exact H1.
  - pose proof (P_deleteSchedule id H) as H1.
    unfold Api.delete_schedules, bind, ret.
    destruct (MemStorage.deleteSchedule id e). exact H1.
  - pose proof (P_detectConflicts H) as H1.
    unfold Routes.detect, bind, ret.
    destruct (MemStorage.detectConflicts e). exact H1.
  - unfold Routes.conflictSuggestions, bind, gets, ret.
    destruct (MemStorage.getConflictById (MemStorage.store e) id);
      [|exact H].
    pose proof (P_generate id H) as H1.
    destruct (MemStorage.generateConflictSuggestions id e). exact H1.
  - pose proof (resolveConflict_keeps id suggestionId H) as H1.
    unfold bind, ret.
    destruct (Routes.resolveConflict id suggestionId e). exact H1.
Qed.

Lemma run_keeps (history : list Api.Event) (e : MemStorage.env) :
  P e -> P (Api.run history e).
Proof.
  unfold Api.run. revert e.
  induction history as [|event r IH]; intros e H; simpl; [exact H|].
  apply IH. destruct event as [request | id suggestions]; simpl.
  - apply handle_keeps. exact H.
  - apply P_chainEnds. exact H.
Qed.

End ServerInvariant.

(** *** The keys *)

Lemma keyedStore_iff (e : MemStorage.env) :
  keyedStore e = true <->
  keyed Course.id (MemStorage.courseId (MemStorage.store e))
        (MemStorage.courses (MemStorage.store e)) = true
  /\ keyed Teacher.id (MemStorage.teacherId (MemStorage.store e))
           (MemStorage.teachers (MemStorage.store e)) = true
  /\ keyed Schedule.id (MemStorage.scheduleId (MemStorage.store e))
           (MemStorage.schedules (MemStorage.store e)) = true.
Proof. unfold keyedStore. rewrite !andb_true_iff. tauto. Qed.

Lemma keyedStore_afterDetect (e : MemStorage.env) :
  keyedStore (afterDetect e) = keyedStore e.
Proof. reflexivity. Qed.

Lemma keyedStore_updateConflict (e : MemStorage.env) (id : Z)
  (p : ConflictPatch.t) :
  keyedStore (snd (MemStorage.updateConflict id p e)) = keyedStore e.
Proof.
  unfold MemStorage.updateConflict.
  destruct (mapGet Conflict.id id (MemStorage.conflicts (MemStorage.store e)));
    reflexivity.
Qed.

Lemma keyedStore_updateSchedule (e : MemStorage.env) (id : Z)
  (p : SchedulePatch.t) :
  keyedStore e = true ->
  keyedStore (snd (MemStorage.updateSchedule id p e)) = true.
Proof.
  intros H.
  destruct (mapGet Schedule.id id (MemStorage.schedules (MemStorage.store e)))
    as [x|] eqn:Hx.
  - rewrite (updateSchedule_present _ _ _ Hx). simpl snd.
    rewrite keyedStore_afterDetect.
    apply keyedStore_iff in H. destruct H as (H1 & H2 & H3).
    apply keyedStore_iff. simpl. repeat split; try assumption.
    apply keyed_update with (x := x); [exact H3 | exact Hx |].
    apply (mapGet_key _ _ _ Hx).
  - rewrite (updateSchedule_absent _ _ _ Hx). exact H.
Qed.

(** X14.  After every history of requests and chain ends, started from the
    empty store, the courses, the teachers and the schedule entries each
    have pairwise distinct ids, all positive and all below the counter that
    numbers the next one: an id is never given twice, and a new entry never
    replaces an old one. *)
Theorem server_keeps_keys (history : list Api.Event) :
  keyedStore (Api.run history MemStorage.boot) = true.
Proof.
  apply run_keeps with (P := fun e => keyedStore e = true);
    try (intros e; intros); try reflexivity.
  - (* createCourse *)
    apply keyedStore_iff in H. destruct H as (H1 & H2 & H3).
    apply keyedStore_iff. simpl. repeat split; try assumption.
    apply keyed_create; [exact H1 | reflexivity].
  - (* updateCourse *)
    unfold MemStorage.updateCourse.
    destruct (mapGet Course.id id (MemStorage.courses (MemStorage.store e)))
      as [x|] eqn:Hx; [|exact H].
    apply keyedStore_iff in H. destruct H as (H1 & H2 & H3).
    apply keyedStore_iff. simpl. repeat split; try assumption.
    apply keyed_update with (x := x); [exact H1 | exact Hx |].
    apply (mapGet_key _ _ _ Hx).
  - (* deleteCourse *)
    unfold MemStorage.deleteCourse.
    apply keyedStore_iff in H. destruct H as (H1 & H2 & H3).
    pose proof (@keyed_delete _ Course.id _ id _ H1) as Hd.
    destruct (mapDelete Course.id id (MemStorage.courses (MemStorage.store e))).
    apply keyedStore_iff. simpl. auto.
  - (* createTeacher *)
    apply keyedStore_iff in H. destruct H as (H1 & H2 & H3).
    apply keyedStore_iff. simpl. repeat split; try assumption.
    apply keyed_create; [exact H2 | reflexivity].
  - (* updateTeacher *)
    unfold MemStorage.updateTeacher.
    destruct (mapGet Teacher.id id (MemStorage.teachers (MemStorage.store e)))
      as [x|] eqn:Hx; [|exact H].
    apply keyedStore_iff in H. destruct H as (H1 & H2 & H3).
    apply keyedStore_iff. simpl. repeat split; try assumption.
    apply keyed_update with (x := x); [exact H2 | exact Hx |].
    apply (mapGet_key _ _ _ Hx).
  - (* deleteTeacher *)
    unfold MemStorage.deleteTeacher.
    apply keyedStore_iff in H. destruct H as (H1 & H2 & H3).
    pose proof (@keyed_delete _ Teacher.id _ id _ H2) as Hd.
    destruct (mapDelete Teacher.id id
                (MemStorage.teachers (MemStorage.store e))).
    apply keyedStore_iff. simpl. auto.
  - (* createSchedule *)
    rewrite createSchedule_spec. simpl snd.
    rewrite keyedStore_afterDetect.
    apply keyedStore_iff in H. destruct H as (H1 & H2 & H3).
    apply keyedStore_iff. simpl. repeat split; try assumption.
    apply keyed_create; [exact H3 | reflexivity].
  - (* updateSchedule *)
    apply keyedStore_updateSchedule; exact H.
  - (* deleteSchedule *)
    rewrite deleteSchedule_spec. simpl snd.
    rewrite keyedStore_afterDetect.
    apply keyedStore_iff in H. destruct H as (H1 & H2 & H3).
    apply keyedStore_iff. simpl. repeat split; try assumption.
    apply keyed_delete. exact H3.
  - (* detectConflicts *)
    rewrite detectConflicts_afterDetect. simpl snd.
    rewrite keyedStore_afterDetect; exact H.
  - (* generateConflictSuggestions *)
    exact H.
  - (* resolved := true, then a pass *)
    rewrite detectConflicts_afterDetect. simpl snd.
    rewrite keyedStore_afterDetect, keyedStore_updateConflict; exact H.
  - (* the last step of a chain *)
    rewrite keyedStore_updateConflict; exact H.
Qed.

(** *** The conflict store and the schedule list *)

Lemma inSync_afterDetect (e : MemStorage.env) : inSync (afterDetect e).
Proof.
  unfold inSync. rewrite afterDetect_conflicts, afterDetect_schedules.
  reflexivity.
Qed.

Lemma stripped_mapSet (id : Z) (c c' : Conflict.t) (cs : list Conflict.t) :
  mapGet Conflict.id id cs = Some c -> stripped c' = stripped c ->
  map stripped (mapSet Conflict.id id c' cs) = map stripped cs.
Proof.
  unfold mapGet. intros H E. induction cs as [|y r IH]; simpl in *;
    [discriminate|].
  destruct (Conflict.id y =? id) eqn:Ey; simpl.
  - inversion H; subst y. rewrite E. reflexivity.
  - rewrite IH; [reflexivity | exact H].
Qed.

(** Attaching suggestions changes nothing else of the conflict store. *)
Lemma updateConflict_suggestions_frame (e : MemStorage.env) (id : Z)
  (l : list ConflictSuggestion.t) :
  let e' := snd (MemStorage.updateConflict id (ConflictPatch.mk None (Some l))
                   e) in
  map stripped (MemStorage.conflicts (MemStorage.store e'))
  = map stripped (MemStorage.conflicts (MemStorage.store e))
  /\ MemStorage.schedules (MemStorage.store e')
     = MemStorage.schedules (MemStorage.store e)
  /\ MemStorage.teachers (MemStorage.store e')
     = MemStorage.teachers (MemStorage.store e)
  /\ MemStorage.courses (MemStorage.store e')
     = MemStorage.courses (MemStorage.store e)
  /\ MemStorage.uuids e' = MemStorage.uuids e
  /\ MemStorage.jobs e' = MemStorage.jobs e
  /\ MemStorage.passes e' = MemStorage.passes e.
Proof.
  unfold MemStorage.updateConflict.
  destruct (mapGet Conflict.id id (MemStorage.conflicts (MemStorage.store e)))
    as [c|] eqn:Hc; simpl; [|repeat split].
  split; [|repeat split].
  apply stripped_mapSet with (c := c); [exact Hc | reflexivity].
Qed.

Lemma inSync_unresolved (e : MemStorage.env) (c : Conflict.t) :
  inSync e -> In c (MemStorage.conflicts (MemStorage.store e)) ->
  Conflict.resolved c = false.
Proof.
  unfold inSync. intros H Hc. apply (in_map stripped) in Hc.
  rewrite H in Hc. apply in_map_iff in Hc. destruct Hc as (c0 & E & Hc0).
  destruct (detected_fresh _ _ Hc0) as [Hr _].
  unfold stripped in E. inversion E. congruence.
Qed.

(** X15.  After every history of requests and chain ends, started from the
    empty store, and whatever suggestions the chains write under whatever
    conflict ids, the conflict store is, suggestions aside, exactly what a
    detection pass over the current schedule list creates, ids included: no
    stored conflict is out of date, none is missing, and none is marked
    resolved, the flag the resolve route writes being overwritten by the
    pass that follows it. *)
Theorem server_keeps_conflicts_in_sync (history : list Api.Event) :
  let e := Api.run history MemStorage.boot in
  map stripped (MemStorage.conflicts (MemStorage.store e))
  = map stripped (detected (MemStorage.schedules (MemStorage.store e)))
  /\ forall c, In c (MemStorage.conflicts (MemStorage.store e)) ->
               Conflict.resolved c = false.
Proof.
  cbv zeta.
  assert (H : inSync (Api.run history MemStorage.boot)).
  { apply run_keeps with (P := inSync);
      try (intros e; intros); try exact H; try reflexivity.
    - (* updateCourse *)
      unfold MemStorage.updateCourse.
      destruct (mapGet Course.id id (MemStorage.courses (MemStorage.store e)));
        exact H.
    - (* deleteCourse *)
      unfold MemStorage.deleteCourse.
      destruct (mapDelete Course.id id
                  (MemStorage.courses (MemStorage.store e))). exact H.
    - (* updateTeacher *)
      unfold MemStorage.updateTeacher.
      destruct (mapGet Teacher.id id
                  (MemStorage.teachers (MemStorage.store e))); exact H.
    - (* deleteTeacher *)
      unfold MemStorage.deleteTeacher.
      destruct (mapDelete Teacher.id id
                  (MemStorage.teachers (MemStorage.store e))). exact H.
    - (* createSchedule *)
      rewrite createSchedule_spec. apply inSync_afterDetect.
    - (* updateSchedule *)
      destruct (mapGet Schedule.id id
                  (MemStorage.schedules (MemStorage.store e))) as [x|] eqn:Hx.
      + rewrite (updateSchedule_present _ _ _ Hx). apply inSync_afterDetect.
      + rewrite (updateSchedule_absent _ _ _ Hx). exact H.
    - (* deleteSchedule *)
      rewrite deleteSchedule_spec. apply inSync_afterDetect.
    - (* detectConflicts *)
      rewrite detectConflicts_afterDetect. apply inSync_afterDetect.
    - (* resolved := true, then a pass *)
      rewrite detectConflicts_afterDetect. apply inSync_afterDetect.
    - (* the last step of a chain *)
      destruct (updateConflict_suggestions_frame e id suggestions)
        as (Hc & Hs & _).
      unfold inSync in *. rewrite Hc, Hs. exact H. }
  split; [exact H|]. intros c Hc. apply (@inSync_unresolved _ c H Hc).
Qed.

(** ** The conflicts of a schedule list *)

Lemma plain_Forall (l : list Schedule.t) :
  plain l = true <->
  Forall (fun x => 0 <= Schedule.dayOfWeek x /\ 0 <= Schedule.timeSlot x) l.
Proof.
  unfold plain. rewrite forallb_forall, Forall_forall.
  split; intros H x Hx; specialize (H x Hx).
  - apply andb_true_iff in H. rewrite !Z.leb_le in H. exact H.
  - apply andb_true_iff. rewrite !Z.leb_le. exact H.
Qed.

(** A server whose store holds the schedule list [l] and nothing else. *)
Lemma detected_as_pass (l : list Schedule.t) :
  fst (MemStorage.detectConflicts
         (MemStorage.Env (MemStorage.mk [] [] l [] 1 1 1 1) [] 0%nat []))
  = detected l.
Proof. rewrite detectConflicts_afterDetect. reflexivity. Qed.

Lemma detected_about (l : list Schedule.t) (t d s : Z) :
  plain l = true -> 0 <= d -> 0 <= s ->
  map (fun c => (content c, Conflict.resolved c, Conflict.suggestions c))
      (filter (about t d s) (detected l))
  = if 1 <? Z.of_nat (List.length (bookings l t d s))
    then [((t, d, s, map Schedule.id (bookings l t d s)), false, [])]
    else [].
Proof.
  intros Hl Hd Hs. apply plain_Forall in Hl.
  rewrite <- detected_as_pass.
  apply (@MemStorage_detects_each_collision
           (MemStorage.Env (MemStorage.mk [] [] l [] 1 1 1 1) [] 0%nat [])
           t d s Hl Hd Hs).
Qed.

Lemma detected_nonneg (l : list Schedule.t) (c : Conflict.t) :
  plain l = true -> In c (detected l) ->
  0 <= Conflict.dayOfWeek c /\ 0 <= Conflict.timeSlot c.
Proof.
  intros Hl Hc. apply plain_Forall in Hl.
  unfold detected in Hc. apply numbered_fields in Hc.
  destruct Hc as (c0 & Hc0 & Hcont & _).
  destruct (grouped_invariants (g := []) Hl) as [_ Hp];
    [split; constructor | constructor |].
  destruct (collisions_plain _ Hp Hc0) as [H1 H2].
  unfold content in Hcont. inversion Hcont as [[Ht Hd' Hs' Hids]].
  rewrite Hd', Hs'. auto.
Qed.

(** Every conflict of a pass is a group of more than one entry. *)
Lemma detected_In (l : list Schedule.t) (c : Conflict.t) :
  plain l = true -> In c (detected l) ->
  let group := bookings l (Conflict.teacherId c) (Conflict.dayOfWeek c)
                 (Conflict.timeSlot c) in
  Conflict.conflictingScheduleIds c = map Schedule.id group
  /\ (1 < List.length group)%nat
  /\ 0 <= Conflict.dayOfWeek c /\ 0 <= Conflict.timeSlot c.
Proof.
  intros Hl Hc group.
  destruct (detected_nonneg l c Hl Hc) as [Hd Hs].
  pose proof (detected_about l (Conflict.teacherId c) Hl Hd Hs) as H.
  fold group in H.
  assert (Hin : In c (filter (about (Conflict.teacherId c)
                                (Conflict.dayOfWeek c) (Conflict.timeSlot c))
                        (detected l))).
  { apply filter_In. split; [exact Hc|]. unfold about.
    rewrite !Z.eqb_refl. reflexivity. }
  apply (in_map (fun c => (content c, Conflict.resolved c,
                           Conflict.suggestions c))) in Hin.
  rewrite H in Hin.
  destruct (1 <? Z.of_nat (List.length group)) eqn:E; [|destruct Hin].
  apply Z.ltb_lt in E. destruct Hin as [Hin | []].
  unfold content in Hin. inversion Hin as [[Hids Hr Hsg]].
  repeat split; auto; lia.
Qed.

(** Every group of more than one entry is a conflict of the pass, once. *)
Lemma detected_group (l : list Schedule.t) (t d s : Z) :
  plain l = true -> 0 <= d -> 0 <= s ->
  (1 < List.length (bookings l t d s))%nat ->
  exists c,
    filter (about t d s) (detected l) = [c]
    /\ content c = (t, d, s, map Schedule.id (bookings l t d s))
    /\ Conflict.resolved c = false.
Proof.
  intros Hl Hd Hs Hlen.
  pose proof (detected_about l t Hl Hd Hs) as H.
  replace (1 <? Z.of_nat (List.length (bookings l t d s))) with true in H
    by (symmetry; apply Z.ltb_lt; lia).
  destruct (filter (about t d s) (detected l)) as [|c [|c' r]];
    simpl in H; try discriminate.
  inversion H as [[Hc Hr Hsg]]. exists c. auto.
Qed.

Lemma numbered_id_list (n : Z) (cs : list Conflict.t) :
  map Conflict.id (numbered n cs)
  = map (fun k => n + Z.of_nat k) (seq 0 (List.length cs)).
Proof.
  revert n. induction cs as [|c r IH]; intros n; simpl; [reflexivity|].
  f_equal; [lia|]. rewrite IH, <- seq_shift, map_map.
  apply map_ext. intros k. lia.
Qed.

(** X16.  One pass of [MemStorage.detectConflicts] over schedule entries
    whose day and slot are not negative.  What it returns is what it leaves
    in the conflict store, numbered 1, 2, ... in the order created.  Every
    conflict is unresolved and is a group: its ids are the ids, in store
    order, of all the entries of its teacher on its day and slot, and there
    are at least two.  Every (teacher, day, slot) with at least two entries
    has exactly one conflict. *)
Theorem MemStorage_detectConflicts_lists_groups (e : MemStorage.env) :
  let l := MemStorage.schedules (MemStorage.store e) in
  plain l = true ->
  let returned := fst (MemStorage.detectConflicts e) in
  let e' := snd (MemStorage.detectConflicts e) in
  MemStorage.conflicts (MemStorage.store e') = returned
  /\ map Conflict.id returned
     = map (fun k => 1 + Z.of_nat k) (seq 0 (List.length returned))
  /\ (forall c, In c returned ->
        Conflict.resolved c = false
        /\ Conflict.conflictingScheduleIds c
           = map Schedule.id
               (bookings l (Conflict.teacherId c) (Conflict.dayOfWeek c)
                  (Conflict.timeSlot c))
        /\ (2 <= List.length (Conflict.conflictingScheduleIds c))%nat)
  /\ (forall t d s,
        0 <= d -> 0 <= s -> (2 <= List.length (bookings l t d s))%nat ->
        exists c,
          filter (about t d s) returned = [c]
          /\ Conflict.conflictingScheduleIds c
             = map Schedule.id (bookings l t d s)).
Proof.
  intros l Hl returned e'. subst returned e'.
  rewrite detectConflicts_afterDetect. simpl fst. simpl snd.
  rewrite afterDetect_conflicts. fold l.
  split; [reflexivity|]. split.
  { unfold detected. rewrite numbered_id_list, numbered_length. reflexivity. }
  split.
  - intros c Hc. destruct (detected_In l c Hl Hc) as (Hids & Hlen & _).
    destruct (detected_fresh _ _ Hc) as [Hr _].
    split; [exact Hr|]. split; [exact Hids|].
    rewrite Hids, length_map. lia.
  - intros t d s Hd Hs Hlen.
    destruct (@detected_group l t d s Hl Hd Hs) as (c & Hf & Hc & _);
      [lia|].
    exists c. split; [exact Hf|].
    unfold content in Hc. inversion Hc. reflexivity.
Qed.

(** X16 at [sampleServer]: Ann's two entries on Monday slot 2 make the one
    conflict, with ids 1 and 2. *)
Lemma MemStorage_detectConflicts_lists_groups_witness :
  exists c,
    filter (about 1 1 2) (fst (MemStorage.detectConflicts sampleServer)) = [c]
    /\ Conflict.conflictingScheduleIds c = [1; 2].
Proof.
  assert (Hl : plain (MemStorage.schedules (MemStorage.store sampleServer))
               = true) by (vm_compute; reflexivity).
  pose proof (@MemStorage_detectConflicts_lists_groups sampleServer Hl) as H.
  cbv zeta in H. destruct H as (_ & _ & _ & H).
  destruct (H 1 1 2) as (c & Hf & Hc); [lia | lia | vm_compute; lia |].
  exists c. split; [exact Hf|]. rewrite Hc. vm_compute. reflexivity.
Defined.

(** X17.  A second pass right after a first returns the same conflicts
    under the same ids and leaves the same conflict store; what the store
    held before the first pass plays no part.  Each pass starts one chain
    per conflict, and neither draws a suggestion id. *)
Theorem MemStorage_detectConflicts_twice (e : MemStorage.env) :
  let first := MemStorage.detectConflicts e in
  let second := MemStorage.detectConflicts (snd first) in
  fst first = detected (MemStorage.schedules (MemStorage.store e))
  /\ fst second = fst first
  /\ MemStorage.conflicts (MemStorage.store (snd first)) = fst first
  /\ MemStorage.conflicts (MemStorage.store (snd second)) = fst first
  /\ MemStorage.schedules (MemStorage.store (snd second))
     = MemStorage.schedules (MemStorage.store e)
  /\ MemStorage.jobs (snd second)
     = MemStorage.jobs e ++ map Conflict.id (fst first)
       ++ map Conflict.id (fst first)
  /\ MemStorage.uuids (snd second) = MemStorage.uuids e.
Proof.
  cbv zeta. rewrite !detectConflicts_afterDetect. simpl fst. simpl snd.
  rewrite !afterDetect_conflicts, !afterDetect_schedules.
  repeat split. simpl. rewrite <- app_assoc. reflexivity.
Qed.

(** ** What the client reads from the conflict store *)

















Lemma filter_all (A : Type) (f : A -> bool) (l : list A) :
  (forall x, In x l -> f x = true) -> filter f l = l.
Proof.
  induction l as [|x r IH]; intros H; simpl; [reflexivity|].
  rewrite (H x (or_introl eq_refl)), IH; [reflexivity|].
  intros y Hy. apply H. right. exact Hy.
Qed.

(** X20.  Over the conflict store of a server in step with its schedule
    list, the [!conflict.resolved] tests of the hook let every conflict
    through: [getUnresolvedConflicts] is the whole store, and
    [getTeacherConflicts] is the teacher's conflicts, all of them. *)
Theorem resolved_filter_keeps_everything (e : MemStorage.env) (teacherId : Z) :
  let conflicts := MemStorage.conflicts (MemStorage.store e) in
  inSync e ->
  useConflictDetection.getUnresolvedConflicts conflicts = conflicts
  /\ useConflictDetection.getTeacherConflicts conflicts teacherId
     = filter (fun conflict => Conflict.teacherId conflict =? teacherId)
         conflicts.
Proof.
  intros conflicts H.
  assert (Hr : forall c, In c conflicts -> Conflict.resolved c = false)
    by (intros c Hc; exact (@inSync_unresolved e c H Hc)).
  split.
  - unfold useConflictDetection.getUnresolvedConflicts.
    apply filter_all. intros c Hc. rewrite (Hr c Hc). reflexivity.
  - unfold useConflictDetection.getTeacherConflicts.
    apply filter_ext_in. intros c Hc. rewrite (Hr c Hc).
    apply andb_true_r.
Qed.

(** X20 at [sampleServer]: the one stored conflict is Ann's. *)
Lemma resolved_filter_keeps_everything_witness :
  List.length
    (useConflictDetection.getUnresolvedConflicts
       (MemStorage.conflicts (MemStorage.store sampleServer))) = 1%nat
  /\ List.length
       (useConflictDetection.getTeacherConflicts
          (MemStorage.conflicts (MemStorage.store sampleServer)) 2) = 0%nat.
Proof.
  assert (Hsync : inSync sampleServer) by (vm_compute; reflexivity).
  destruct (@resolved_filter_keeps_everything sampleServer 2 Hsync)
    as [H1 H2].
  cbv zeta in H1, H2. rewrite H1, H2. split; reflexivity.
Defined.

(** ** Applying a stored move *)





(** ** DatabaseStorage: what the generator returns *)

Lemma pushed_all_Ok (ds : list Draft.t) :
  DatabaseStorage.pushed (map (fun x => Js.Ok x) ds) = (ds, None).
Proof.
  induction ds as [|x r IH]; simpl; [reflexivity|]. rewrite IH. reflexivity.
Qed.

Lemma pushed_Ok_then (ds : list Draft.t) (xs : list (Js.Result Draft.t)) :
  DatabaseStorage.pushed (map (fun x => Js.Ok x) ds ++ xs)
  = (ds ++ fst (DatabaseStorage.pushed xs), snd (DatabaseStorage.pushed xs)).
Proof.
  induction ds as [|x r IH]; simpl.
  - destruct (DatabaseStorage.pushed xs). reflexivity.
  - rewrite IH. reflexivity.
Qed.

Lemma pushed_thrown (xs ys : list (Js.Result Draft.t)) (ds : list Draft.t)
  (err : Js.Error) :
  DatabaseStorage.pushed xs = (ds, Some err) ->
  DatabaseStorage.pushed (xs ++ ys) = (ds, Some err).
Proof.
  revert ds. induction xs as [|x r IH]; simpl; intros ds H; [discriminate|].
  destruct x as [a|e0]; [|exact H].
  destruct (DatabaseStorage.pushed r) as [l o] eqn:E.
  inversion H; subst. rewrite (IH l eq_refl). reflexivity.
Qed.

(** The moves of one schedule, as the pushes that succeed. *)
Lemma attemptsFor_shape (d : DatabaseStorage.t) (conflict : Conflict.t)
  (all : list Schedule.t) (teacher : option Teacher.t)
  (schedule : Schedule.t) :
  DatabaseStorage.attemptsFor d conflict all teacher schedule
  = map (fun x => Js.Ok x)
        (map (DatabaseStorage.moveDraft d teacher schedule)
           (filter (freeSlot conflict (occupiedSlots all)) candidateSlots))
    ++ map (DatabaseStorage.swapDraft d schedule)
         (otherSchedules conflict all)
    ++ map (DatabaseStorage.reassignDraft d schedule)
         (otherTeachers conflict (DatabaseStorage.getTeachers d)).
Proof.
  unfold DatabaseStorage.attemptsFor. rewrite map_map. reflexivity.
Qed.

Lemma attemptsFor_alone (d : DatabaseStorage.t) (conflict : Conflict.t)
  (all : list Schedule.t) (teacher : option Teacher.t)
  (schedule : Schedule.t) :
  otherSchedules conflict all = [] ->
  otherTeachers conflict (DatabaseStorage.getTeachers d) = [] ->
  DatabaseStorage.attemptsFor d conflict all teacher schedule
  = map (fun x => Js.Ok x)
        (map (DatabaseStorage.moveDraft d teacher schedule)
           (filter (freeSlot conflict (occupiedSlots all)) candidateSlots)).
Proof.
  intros Hs Ht. rewrite attemptsFor_shape, Hs, Ht.
  cbn [map app]. apply app_nil_r.
Qed.

Lemma attemptsFor_throws (d : DatabaseStorage.t) (conflict : Conflict.t)
  (all : list Schedule.t) (teacher : option Teacher.t)
  (schedule : Schedule.t) :
  otherSchedules conflict all <> []
  \/ otherTeachers conflict (DatabaseStorage.getTeachers d) <> [] ->
  DatabaseStorage.pushed
    (DatabaseStorage.attemptsFor d conflict all teacher schedule)
  = (map (DatabaseStorage.moveDraft d teacher schedule)
       (filter (freeSlot conflict (occupiedSlots all)) candidateSlots),
     Some (Js.ReferenceError "course")).
Proof.
  intros H. rewrite attemptsFor_shape, pushed_Ok_then.
  destruct (otherSchedules conflict all) as [|x r].
  - destruct (otherTeachers conflict (DatabaseStorage.getTeachers d))
      as [|t r]; [destruct H as [H | H]; congruence|].
    cbn [map app DatabaseStorage.pushed DatabaseStorage.reassignDraft fst snd].
    rewrite app_nil_r. reflexivity.
  - cbn [map app DatabaseStorage.pushed DatabaseStorage.swapDraft fst snd].
    rewrite app_nil_r. reflexivity.
Qed.

Lemma pushed_flat_map_alone (A : Type) (f : A -> list Draft.t) (l : list A) :
  DatabaseStorage.pushed (flat_map (fun a => map (fun x => Js.Ok x) (f a)) l)
  = (flat_map f l, None).
Proof.
  induction l as [|a r IH]; simpl; [reflexivity|].
  rewrite pushed_Ok_then, IH. reflexivity.
Qed.

Lemma moveDraft_is_move (d : DatabaseStorage.t) (teacher : option Teacher.t)
  (schedule : Schedule.t) (p : Z * Z) :
  Draft.action (DatabaseStorage.moveDraft d teacher schedule p)
  = move (fst p) (snd p).
Proof. destruct p. reflexivity. Qed.

(** The generator draws ids and writes to no table. *)
Lemma DatabaseStorage_generate_frame (d : DatabaseStorage.t) (conflictId : Z) :
  let d' := snd (DatabaseStorage.generateConflictSuggestions conflictId d) in
  DatabaseStorage.schedules d' = DatabaseStorage.schedules d
  /\ DatabaseStorage.teachers d' = DatabaseStorage.teachers d
  /\ DatabaseStorage.courses d' = DatabaseStorage.courses d
  /\ DatabaseStorage.conflicts d' = DatabaseStorage.conflicts d
  /\ DatabaseStorage.conflicts_id_seq d' = DatabaseStorage.conflicts_id_seq d.
Proof.
  cbv zeta. unfold DatabaseStorage.generateConflictSuggestions.
  destruct (DatabaseStorage.pushed (DatabaseStorage.attempts d conflictId))
    as [ds [err|]]; repeat split; reflexivity.
Qed.

(** X22.  [DatabaseStorage.generateConflictSuggestions] returns a list in
    three cases only: the conflict row is missing, or none of its schedule
    ids names a schedule row (the list is then empty), or no schedule row of
    another teacher lies outside the conflict and no other teacher row
    exists, and then every suggestion is a move of one of the conflict's
    schedules.  In every other case the call rejects with the
    ReferenceError of its first swap or reassign push.  Whatever the case,
    it writes to no table. *)
Theorem DatabaseStorage_generateConflictSuggestions_outcomes
  (d : DatabaseStorage.t) (conflictId : Z) :
  let result := fst (DatabaseStorage.generateConflictSuggestions conflictId d) in
  let d' := snd (DatabaseStorage.generateConflictSuggestions conflictId d) in
  match DatabaseStorage.getConflictById d conflictId with
  | None => result = Js.Ok []
  | Some conflict =>
      match DatabaseStorage.validSchedules d conflict with
      | [] => result = Js.Ok []
      | _ :: _ =>
          match otherSchedules conflict (DatabaseStorage.schedules d),
                otherTeachers conflict (DatabaseStorage.teachers d) with
          | [], [] =>
              exists suggestions,
                result = Js.Ok suggestions
                /\ forall sg, In sg suggestions ->
                     Js.includes (Conflict.conflictingScheduleIds conflict)
                       (ConflictSuggestion.scheduleId sg) = true
                     /\ exists day slot,
                          ConflictSuggestion.action sg = move day slot
          | _, _ => result = Js.Throw (Js.ReferenceError "course")
          end
      end
  end
  /\ DatabaseStorage.schedules d' = DatabaseStorage.schedules d
  /\ DatabaseStorage.teachers d' = DatabaseStorage.teachers d
  /\ DatabaseStorage.courses d' = DatabaseStorage.courses d
  /\ DatabaseStorage.conflicts d' = DatabaseStorage.conflicts d
  /\ DatabaseStorage.conflicts_id_seq d' = DatabaseStorage.conflicts_id_seq d.
Proof.
  cbv zeta. split; [|apply DatabaseStorage_generate_frame].
  unfold DatabaseStorage.generateConflictSuggestions,
    DatabaseStorage.attempts.
  destruct (DatabaseStorage.getConflictById d conflictId) as [conflict|];
    [|reflexivity].
  destruct (DatabaseStorage.validSchedules d conflict) as [|x r] eqn:Hv;
    [reflexivity|].
  replace (Z.of_nat (List.length (x :: r)) =? 0) with false
    by (symmetry; apply Z.eqb_neq; simpl List.length; lia).
  unfold DatabaseStorage.getSchedules.
  destruct (otherSchedules conflict (DatabaseStorage.schedules d))
    as [|o os] eqn:Ho.
  - destruct (otherTeachers conflict (DatabaseStorage.teachers d))
      as [|t ts] eqn:Ht.
    + (* nobody else: every push succeeds *)
      rewrite (flat_map_ext _ _
                 (fun schedule =>
                    @attemptsFor_alone d conflict (DatabaseStorage.schedules d)
                      (DatabaseStorage.getTeacherById d
                         (Conflict.teacherId conflict)) schedule Ho Ht)).
      rewrite pushed_flat_map_alone. cbn [fst snd].
      eexists. split; [reflexivity|].
      intros sg Hsg. apply stamp_In in Hsg.
      destruct Hsg as (dr & Hdr & _ & Hsid & Hact & _).
      apply in_flat_map in Hdr. destruct Hdr as (schedule & Hsch & Hdr).
      apply in_map_iff in Hdr. destruct Hdr as (p & <- & _).
      rewrite Hsid, Hact. split.
      * rewrite <- Hv in Hsch. unfold DatabaseStorage.validSchedules in Hsch.
        apply filter_In in Hsch. destruct Hsch as [_ Hinc].
        destruct p; exact Hinc.
      * exists (fst p), (snd p). apply moveDraft_is_move.
    + (* another teacher: the first reassign push throws *)
      cbn [flat_map].
      erewrite pushed_thrown.
      * reflexivity.
      * apply attemptsFor_throws. right.
        unfold DatabaseStorage.getTeachers. rewrite Ht. discriminate.
  - (* a schedule of another teacher: the first swap push throws *)
    cbn [flat_map].
    erewrite pushed_thrown.
    + reflexivity.
    + apply attemptsFor_throws. left. rewrite Ho. discriminate.
Qed.

(** ** DatabaseStorage: passes over the conflicts table *)

Lemma about_stripped (t dd s : Z) (l l' : list Conflict.t) :
  map stripped l = map stripped l' ->
  existsb (about t dd s) l = existsb (about t dd s) l'.
Proof.
  revert l'. induction l as [|x r IH]; intros [|y r'] H; simpl in *;
    try discriminate; [reflexivity|].
  inversion H as [[Hid Ht Hd Hs H0 H1 Hrest]].
  rewrite (IH r' Hrest). f_equal.
  unfold about. rewrite Ht, Hd, Hs. reflexivity.
Qed.

Lemma filter_existsb (A : Type) (f : A -> bool) (l : list A) :
  (Z.of_nat (List.length (filter f l)) =? 0) = negb (existsb f l).
Proof.
  induction l as [|x r IH]; simpl; [reflexivity|].
  destruct (f x); simpl; [reflexivity | exact IH].
Qed.

(** What [considerGroup] does: nothing when a row of the group's teacher,
    day and slot exists, one insert when none does. *)
Lemma considerGroup_spec (acc : list Conflict.t) (conflict : Conflict.t)
  (d : DatabaseStorage.t) :
  DatabaseStorage.considerGroup acc conflict d
  = if existsb (about (Conflict.teacherId conflict)
                  (Conflict.dayOfWeek conflict) (Conflict.timeSlot conflict))
         (DatabaseStorage.conflicts d)
    then (acc, d)
    else let (row, d') := DatabaseStorage.createConflict conflict d in
         (acc ++ [row], d').
Proof.
  unfold DatabaseStorage.considerGroup, bind, gets, ret.
  change (fun c : Conflict.t =>
            (Conflict.teacherId c =? Conflict.teacherId conflict)
            && (Conflict.dayOfWeek c =? Conflict.dayOfWeek conflict)
            && (Conflict.timeSlot c =? Conflict.timeSlot conflict))
    with (about (Conflict.teacherId conflict) (Conflict.dayOfWeek conflict)
            (Conflict.timeSlot conflict)).
  rewrite filter_existsb.
  destruct (existsb _ (DatabaseStorage.conflicts d)); reflexivity.
Qed.

Lemma about_self (c : Conflict.t) (id : Z) :
  about (Conflict.teacherId c) (Conflict.dayOfWeek c) (Conflict.timeSlot c)
    (Conflict.mk id (Conflict.teacherId c) (Conflict.dayOfWeek c)
       (Conflict.timeSlot c) (Conflict.conflictingScheduleIds c)
       (Conflict.resolved c) (Conflict.suggestions c)) = true.
Proof. unfold about. simpl. rewrite !Z.eqb_refl. reflexivity. Qed.

Lemma considerGroups_state (cs acc : list Conflict.t) (d : DatabaseStorage.t) :
  let d' := snd (DatabaseStorage.considerGroups acc cs d) in
  DatabaseStorage.schedules d' = DatabaseStorage.schedules d
  /\ DatabaseStorage.teachers d' = DatabaseStorage.teachers d
  /\ DatabaseStorage.courses d' = DatabaseStorage.courses d
  /\ (exists rows,
         DatabaseStorage.conflicts d' = DatabaseStorage.conflicts d ++ rows)
  /\ forall c, In c cs ->
       existsb (about (Conflict.teacherId c) (Conflict.dayOfWeek c)
                  (Conflict.timeSlot c)) (DatabaseStorage.conflicts d') = true.
Proof.
  revert acc d. induction cs as [|c r IH]; intros acc d; cbv zeta.
  - simpl. repeat split; try reflexivity.
    + exists []. rewrite app_nil_r. reflexivity.
    + intros c [].
  - simpl DatabaseStorage.considerGroups. unfold bind.
    rewrite considerGroup_spec.
    destruct (existsb (about (Conflict.teacherId c) (Conflict.dayOfWeek c)
                         (Conflict.timeSlot c)) (DatabaseStorage.conflicts d))
      eqn:E.
    + destruct (IH acc d) as (H1 & H2 & H3 & (rows & H4) & H5).
      cbv zeta in *. repeat split; try assumption.
      * exists rows. exact H4.
      * intros c' [<- | Hc']; [|apply H5; exact Hc'].
        rewrite H4, existsb_app, E. reflexivity.
    + unfold DatabaseStorage.createConflict.
      match goal with
      | |- context [DatabaseStorage.considerGroups ?a r ?d1] =>
          destruct (IH a d1) as (H1 & H2 & H3 & (rows & H4) & H5)
      end.
      cbv zeta in *. simpl in H1, H2, H3, H4.
      repeat split; try assumption.
      * eexists. rewrite H4, <- app_assoc. reflexivity.
      * intros c' [<- | Hc']; [|apply H5; exact Hc'].
        rewrite H4, !existsb_app. simpl. rewrite about_self.
        rewrite orb_true_r. reflexivity.
Qed.

Lemma stripped_patch_suggestions (c : Conflict.t)
  (l : list ConflictSuggestion.t) :
  stripped (MemStorage.patchConflict c (ConflictPatch.mk None (Some l)))
  = stripped c.
Proof. reflexivity. Qed.

Lemma attachSuggestions_state (rows : list Conflict.t)
  (d : DatabaseStorage.t) :
  let d' := snd (DatabaseStorage.attachSuggestions rows d) in
  DatabaseStorage.schedules d' = DatabaseStorage.schedules d
  /\ DatabaseStorage.teachers d' = DatabaseStorage.teachers d
  /\ DatabaseStorage.courses d' = DatabaseStorage.courses d
  /\ map stripped (DatabaseStorage.conflicts d')
     = map stripped (DatabaseStorage.conflicts d).
Proof.
  revert d. induction rows as [|row r IH]; intros d; cbv zeta.
  - simpl. repeat split; reflexivity.
  - simpl DatabaseStorage.attachSuggestions. unfold bind.
    pose proof (DatabaseStorage_generate_frame d (Conflict.id row)) as G.
    cbv zeta in G. destruct G as (G1 & G2 & G3 & G4 & _).
    destruct (DatabaseStorage.generateConflictSuggestions (Conflict.id row) d)
      as [[suggestions | err] d1]; simpl in G1, G2, G3, G4.
    + unfold DatabaseStorage.updateConflict.
      match goal with
      | |- context [DatabaseStorage.attachSuggestions r ?d2] =>
          destruct (IH d2) as (H1 & H2 & H3 & H4)
      end.
      cbv zeta in *. simpl in H1, H2, H3, H4.
      rewrite H1, H2, H3, H4, G1, G2, G3, <- G4.
      repeat split; try reflexivity.
      rewrite map_map. apply map_ext. intros c0.
      destruct (Conflict.id c0 =? Conflict.id row); reflexivity.
    + simpl. rewrite G1, G2, G3, G4. repeat split; reflexivity.
Qed.

Lemma detectConflicts_state (d : DatabaseStorage.t) :
  let d1 := snd (DatabaseStorage.detectConflicts d) in
  DatabaseStorage.schedules d1 = DatabaseStorage.schedules d
  /\ DatabaseStorage.teachers d1 = DatabaseStorage.teachers d
  /\ DatabaseStorage.courses d1 = DatabaseStorage.courses d
  /\ (exists rows,
         map stripped (DatabaseStorage.conflicts d1)
         = map stripped (DatabaseStorage.conflicts d ++ rows))
  /\ forall c, In c (DatabaseStorage.collisions (DatabaseStorage.schedules d)) ->
       existsb (about (Conflict.teacherId c) (Conflict.dayOfWeek c)
                  (Conflict.timeSlot c)) (DatabaseStorage.conflicts d1) = true.
Proof.
  cbv zeta. unfold DatabaseStorage.detectConflicts, bind, gets, ret.
  unfold DatabaseStorage.getSchedules.
  pose proof (considerGroups_state
                (DatabaseStorage.collisions (DatabaseStorage.schedules d))
                [] d) as C.
  cbv zeta in C.
  destruct (DatabaseStorage.considerGroups [] _ d) as [news d0].
  simpl in C. destruct C as (C1 & C2 & C3 & (rows & C4) & C5).
  pose proof (attachSuggestions_state news d0) as A. cbv zeta in A.
  destruct (DatabaseStorage.attachSuggestions news d0) as [res d1].
  simpl in A. destruct A as (A1 & A2 & A3 & A4).
  assert (Hgoal :
            DatabaseStorage.schedules d1 = DatabaseStorage.schedules d
            /\ DatabaseStorage.teachers d1 = DatabaseStorage.teachers d
            /\ DatabaseStorage.courses d1 = DatabaseStorage.courses d
            /\ (exists rows0,
                   map stripped (DatabaseStorage.conflicts d1)
                   = map stripped (DatabaseStorage.conflicts d ++ rows0))
            /\ forall c,
                 In c (DatabaseStorage.collisions (DatabaseStorage.schedules d)) ->
                 existsb (about (Conflict.teacherId c) (Conflict.dayOfWeek c)
                            (Conflict.timeSlot c))
                   (DatabaseStorage.conflicts d1) = true).
  { rewrite A1, A2, A3, C1, C2, C3. repeat split; try reflexivity.
    - exists rows. rewrite A4, C4. reflexivity.
    - intros c Hc. rewrite (@about_stripped _ _ _ _ _ A4). apply C5. exact Hc. }
  destruct res as [u | err]; exact Hgoal.
Qed.

Lemma considerGroups_known (cs acc : list Conflict.t) (d : DatabaseStorage.t) :
  (forall c, In c cs ->
     existsb (about (Conflict.teacherId c) (Conflict.dayOfWeek c)
                (Conflict.timeSlot c)) (DatabaseStorage.conflicts d) = true) ->
  DatabaseStorage.considerGroups acc cs d = (acc, d).
Proof.
  revert acc. induction cs as [|c r IH]; intros acc H; [reflexivity|].
  simpl DatabaseStorage.considerGroups. unfold bind.
  rewrite considerGroup_spec, (H c (or_introl eq_refl)).
  apply IH. intros c' Hc'. apply H. right. exact Hc'.
Qed.

(** X23.  A pass of [DatabaseStorage.detectConflicts], whether it returns or
    rejects, changes no schedule, teacher or course row and removes no
    conflict row: every row of the conflicts table is still there with its
    id, its teacher, day, slot and schedule ids and its resolved flag.  A
    second pass right after it finds a row for every colliding group, so it
    returns the empty array and writes nothing: a group whose row was
    inserted by a pass that then rejected is never given suggestions by a
    later pass. *)
Theorem DatabaseStorage_detectConflicts_never_retries (d : DatabaseStorage.t) :
  let d1 := snd (DatabaseStorage.detectConflicts d) in
  DatabaseStorage.schedules d1 = DatabaseStorage.schedules d
  /\ DatabaseStorage.teachers d1 = DatabaseStorage.teachers d
  /\ DatabaseStorage.courses d1 = DatabaseStorage.courses d
  /\ incl (map stripped (DatabaseStorage.conflicts d))
          (map stripped (DatabaseStorage.conflicts d1))
  /\ DatabaseStorage.detectConflicts d1 = (Js.Ok [], d1).
Proof.
  cbv zeta. destruct (detectConflicts_state d) as (H1 & H2 & H3 & H4 & H5).
  cbv zeta in *. repeat split; try assumption.
  - destruct H4 as (rows & H4). rewrite H4, map_app.
    apply incl_appl, incl_refl.
  - set (d1 := snd (DatabaseStorage.detectConflicts d)) in *.
    unfold DatabaseStorage.detectConflicts at 1. unfold bind, gets, ret.
    unfold DatabaseStorage.getSchedules. rewrite H1.
    rewrite (considerGroups_known _ [] d1 H5). reflexivity.
Qed.

(** ** The two grouping loops *)

Section ValueMap.
Variables K V W : Type.
Variable eqb : K -> K -> bool.
Variable f : V -> W.

Lemma alGet_map_values (k : K) (m : list (K * V)) :
  alGet eqb k (map (fun kv => (fst kv, f (snd kv))) m)
  = option_map f (alGet eqb k m).
Proof.
  induction m as [|[k' v] r IH]; simpl; [reflexivity|].
  destruct (eqb k' k); [reflexivity | exact IH].
Qed.

Lemma alHas_map_values (k : K) (m : list (K * V)) :
  alHas eqb k (map (fun kv => (fst kv, f (snd kv))) m) = alHas eqb k m.
Proof.
  unfold alHas. rewrite alGet_map_values.
  destruct (alGet eqb k m); reflexivity.
Qed.

Lemma alSet_map_values (k : K) (v : V) (m : list (K * V)) :
  alSet eqb k (f v) (map (fun kv => (fst kv, f (snd kv))) m)
  = map (fun kv => (fst kv, f (snd kv))) (alSet eqb k v m).
Proof.
  induction m as [|[k' v'] r IH]; simpl; [reflexivity|].
  destruct (eqb k' k); simpl; [reflexivity|]. rewrite IH. reflexivity.
Qed.
End ValueMap.

Lemma groupSchedule_fileUnderKey (g : list (Z * list (string * list Z)))
  (x : Schedule.t) :
  MemStorage.groupSchedule g x
  = let t := Schedule.teacherId x in
    let g1 := if alHas Z.eqb t g then g else alSet Z.eqb t [] g in
    alSet Z.eqb t (fileUnderKey (getOrEmpty Z.eqb t g1) x) g1.
Proof. reflexivity. Qed.

Lemma getOrEmpty_map_values (K V W : Type) (eqb : K -> K -> bool)
  (f : list V -> list W) (k : K) (m : list (K * list V)) :
  f [] = [] ->
  getOrEmpty eqb k (map (fun kv => (fst kv, f (snd kv))) m)
  = f (getOrEmpty eqb k m).
Proof.
  intros Hf. unfold getOrEmpty. rewrite alGet_map_values.
  destruct (alGet eqb k m); simpl; [reflexivity | symmetry; exact Hf].
Qed.

Lemma idsOf_groupBySlot (slotMap : list (string * list Schedule.t))
  (x : Schedule.t) :
  idsOf (DatabaseStorage.groupBySlot slotMap x) = fileUnderKey (idsOf slotMap) x.
Proof.
  unfold DatabaseStorage.groupBySlot, fileUnderKey, idsOf. cbv zeta.
  set (key := dayTimeKey (Schedule.dayOfWeek x) (Schedule.timeSlot x)).
  rewrite (alHas_map_values String.eqb (map Schedule.id) key slotMap).
  destruct (alHas String.eqb key slotMap).
  - rewrite (@getOrEmpty_map_values _ _ _ String.eqb (map Schedule.id) key
               slotMap eq_refl).
    rewrite <- (alSet_map_values String.eqb (map Schedule.id)).
    rewrite map_app. reflexivity.
  - change (alSet String.eqb key (@nil Z)
              (map (fun kv : string * list Schedule.t =>
                      (fst kv, map Schedule.id (snd kv))) slotMap))
      with (alSet String.eqb key (map Schedule.id [])
              (map (fun kv : string * list Schedule.t =>
                      (fst kv, map Schedule.id (snd kv))) slotMap)).
    rewrite (alSet_map_values String.eqb (map Schedule.id)).
    rewrite (@getOrEmpty_map_values _ _ _ String.eqb (map Schedule.id) key
               (alSet String.eqb key [] slotMap) eq_refl).
    rewrite <- (alSet_map_values String.eqb (map Schedule.id)).
    rewrite map_app. reflexivity.
Qed.

Lemma fold_left_snoc (A B : Type) (step : A -> B -> A) (l : list B) (x : B)
  (a : A) :
  fold_left step (l ++ [x]) a = step (fold_left step l a) x.
Proof. rewrite fold_left_app. reflexivity. Qed.

Lemma keyedIds_snoc (l : list Schedule.t) (x : Schedule.t) :
  keyedIds (l ++ [x]) = fileUnderKey (keyedIds l) x.
Proof.
  unfold keyedIds. rewrite fold_left_snoc. apply idsOf_groupBySlot.
Qed.

Lemma groupSchedule_groupByTeacher (tm : list (Z * list Schedule.t))
  (x : Schedule.t) :
  MemStorage.groupSchedule
    (map (fun ts => (fst ts, keyedIds (snd ts))) tm) x
  = map (fun ts => (fst ts, keyedIds (snd ts)))
        (DatabaseStorage.groupByTeacher tm x).
Proof.
  rewrite groupSchedule_fileUnderKey. unfold DatabaseStorage.groupByTeacher.
  cbv zeta. set (t := Schedule.teacherId x).
  rewrite (alHas_map_values Z.eqb keyedIds t tm).
  destruct (alHas Z.eqb t tm).
  - rewrite (@getOrEmpty_map_values _ _ _ Z.eqb keyedIds t tm eq_refl).
    rewrite <- keyedIds_snoc.
    apply (alSet_map_values Z.eqb keyedIds).
  - change (alSet Z.eqb t (@nil (string * list Z))
              (map (fun ts : Z * list Schedule.t =>
                      (fst ts, keyedIds (snd ts))) tm))
      with (alSet Z.eqb t (keyedIds [])
              (map (fun ts : Z * list Schedule.t =>
                      (fst ts, keyedIds (snd ts))) tm)).
    rewrite (alSet_map_values Z.eqb keyedIds).
    rewrite (@getOrEmpty_map_values _ _ _ Z.eqb keyedIds t
               (alSet Z.eqb t [] tm) eq_refl).
    rewrite <- keyedIds_snoc.
    apply (alSet_map_values Z.eqb keyedIds).
Qed.

Lemma grouping_agrees (l : list Schedule.t) (tm : list (Z * list Schedule.t)) :
  fold_left MemStorage.groupSchedule l
    (map (fun ts => (fst ts, keyedIds (snd ts))) tm)
  = map (fun ts => (fst ts, keyedIds (snd ts)))
        (fold_left DatabaseStorage.groupByTeacher l tm).
Proof.
  revert tm. induction l as [|x r IH]; intros tm; simpl; [reflexivity|].
  rewrite groupSchedule_groupByTeacher. apply IH.
Qed.

Lemma flat_map_map (A B C : Type) (f : A -> B) (g : B -> list C)
  (l : list A) :
  flat_map g (map f l) = flat_map (fun a => g (f a)) l.
Proof.
  induction l as [|a r IH]; simpl; [reflexivity|]. rewrite IH. reflexivity.
Qed.

(** X24.  The two storage classes group the schedules in different ways:
    [MemStorage] files schedule ids in one map of maps, [DatabaseStorage]
    first splits the schedule rows by teacher and then each teacher's rows
    by day-time key.  Over the same schedule list both find the same
    colliding groups, with the same ids, in the same order. *)
Theorem DatabaseStorage_collisions_as_MemStorage (l : list Schedule.t) :
  DatabaseStorage.collisions l
  = MemStorage.collisions (fold_left MemStorage.groupSchedule l []).
Proof.
  pose proof (grouping_agrees l []) as H. simpl map in H. rewrite H.
  unfold DatabaseStorage.collisions, MemStorage.collisions.
  rewrite flat_map_map. apply flat_map_ext. intros [t rows]. simpl fst.
  simpl snd. unfold keyedIds, idsOf. rewrite flat_map_map.
  apply flat_map_ext. intros [key group]. simpl fst. simpl snd.
  rewrite length_map. reflexivity.
Qed.
